(** * Offline help-center generator: a shallow embedding and its properties

    The development follows [generate_offline_website.py]: the three record
    collections, the two lookup indexes built by
    [OfflineWebsiteGenerator.__init__], the page templates and the
    sequence of file writes of [create_all_pages].

    Strings are byte strings holding the UTF-8 encoding of the Python
    text; every output file is opened with [encoding='utf-8'], so a
    string of the model is the sequence of bytes that reaches the disk.
    Python compares [str] values by code point, which on UTF-8 text is
    the byte-wise lexicographic order used here. *)

From Stdlib Require Import ZArith Ascii String List.
From stdpp Require Import base tactics option list sorting gmap strings pretty.

Local Open Scope Z_scope.

(** ** Data model

    One record per JSON object.  The keys read with [d['key']] are plain
    fields; the keys read with [d.get('key', '')] are optional and hold a
    text when they are there. Identifiers are the JSON integers of the
    export. *)

Record Category := mkCategory {
  c_id : Z;
  c_name : string;
  c_description : option string
}.

Record SectionRec := mkSection {
  s_id : Z;
  s_name : string;
  s_description : option string;
  s_category_id : Z
}.

Record Article := mkArticle {
  a_id : Z;
  a_title : string;
  a_body : option string;
  a_section_id : Z;
  a_updated_at : string
}.

#[global] Instance Category_eq_dec : EqDecision Category.
Proof. solve_decision. Defined.
#[global] Instance SectionRec_eq_dec : EqDecision SectionRec.
Proof. solve_decision. Defined.
#[global] Instance Article_eq_dec : EqDecision Article.
Proof. solve_decision. Defined.

(** ** Python built-ins used by the generator *)

(** Template text is written with a backtick wherever the source has a
    double quote; [q] puts the double quotes back.  No template of the
    source contains a backtick. *)
Fixpoint q (s : string) : string :=
  match s with
  | EmptyString => EmptyString
  | String c s' => String (if Ascii.eqb c "`" then "034"%char else c) (q s')
  end.

(** [str(x)] on an integer: its decimal numeral. *)
Definition str {A} `{Pretty A} (x : A) : string := pretty x.

(** A byte of the form 10xxxxxx continues a UTF-8 code point. *)
Definition is_continuation (c : ascii) : bool :=
  let n := N_of_ascii c in (128 <=? n)%N && (n <? 192)%N.

(** [s[:n]]: the first [n] code points of [s]. *)
Fixpoint slice_to (n : nat) (s : string) : string :=
  match s with
  | EmptyString => EmptyString
  | String c s' =>
      if is_continuation c then String c (slice_to n s')
      else match n with
           | O => EmptyString
           | S n' => String c (slice_to n' s')
           end
  end.

(** [s.endswith(suffix)]. *)
Definition endswith (s suffix : string) : bool :=
  let n := String.length s in
  let m := String.length suffix in
  if (m <=? n)%nat then String.eqb (substring (n - m) m s) suffix else false.

(** [s.rfind(c)] for a one-character [c]: the last index, or -1. *)
Fixpoint rfind_from (c : ascii) (s : string) (i last : Z) : Z :=
  match s with
  | EmptyString => last
  | String x s' => rfind_from c s' (i + 1) (if Ascii.eqb x c then i else last)
  end.

Definition rfind (c : ascii) (s : string) : Z := rfind_from c s 0 (-1).

(** [os.path.splitext(p)] on POSIX: the extension starts at the last dot
    of the last path component, unless only dots precede it there. *)
Definition splitext (p : string) : string * string :=
  let sepIndex := rfind "/" p in
  let dotIndex := rfind "." p in
  let stem := substring (Z.to_nat (sepIndex + 1)) (Z.to_nat (dotIndex - sepIndex - 1)) p in
  if (sepIndex <? dotIndex) &&
     existsb (λ c, negb (Ascii.eqb c ".")) (list_ascii_of_string stem)
  then (substring 0 (Z.to_nat dotIndex) p,
        substring (Z.to_nat dotIndex) (String.length p) p)
  else (p, EmptyString).

(** [sorted(l, key=key, reverse=reverse)] with string keys.  Python's sort
    is stable, also under [reverse=True]; a stable sort by a total order
    on the keys has one possible result ([sorted_stable_unique] below),
    computed here by insertion. *)
Section sorted.
Context {A : Type} (key : A → string) (reverse : bool).

(** [comes_first y x]: the key of [y] is strictly ahead of the key of [x]. *)
Definition comes_first (y x : A) : bool :=
  if reverse then String.ltb (key x) (key y) else String.ltb (key y) (key x).

Fixpoint insert_stable (x : A) (l : list A) : list A :=
  match l with
  | [] => [x]
  | y :: l' => if comes_first y x then y :: insert_stable x l' else x :: y :: l'
  end.

Definition sorted (l : list A) : list A := foldr insert_stable [] l.
End sorted.

(** [for x in l: html_content += body(x)]. *)
Definition for_each {A} (l : list A) (body : A → string) (html_content : string) : string :=
  foldl (λ acc x, acc +:+ body x) html_content l.

(** [next((x for x in l if x['id'] == id), None)]. *)
Definition next_by_id {A} (id_of : A → Z) (l : list A) (id : Z) : option A :=
  find (λ x, bool_decide (id_of x = id)) l.

(** ** The world the generator runs in *)

(** What [open] and [json.load] make of an input file: [Missing] is a
    file that [open] cannot open for reading, [Undecodable] one whose
    bytes are not UTF-8, [Malformed] one whose text is not JSON. *)
Inductive input_file (A : Type) :=
  | Missing
  | Undecodable
  | Malformed
  | Loaded (records : list A).
Arguments Missing {A}.
Arguments Undecodable {A}.
Arguments Malformed {A}.
Arguments Loaded {A} records.

(** What [os.path.exists] and [os.listdir] make of the [videos] path;
    [Dir] carries the entries in the order [os.listdir] returns them. *)
Inductive dir_state :=
  | NoDir
  | NotDir
  | Dir (entries : list string).

Record World := mkWorld {
  categories_json : input_file Category;
  sections_json : input_file SectionRec;
  articles_json : input_file Article;
  videos_path : dir_state;
  (** the text of [datetime.now().strftime('%Y-%m-%d %H:%M:%S')] *)
  now : string
}.

(** The output tree: its directories, and its files with their text.
    The run is followed on a tree that takes its writes: no plain file
    stands where the run makes a directory, no directory where it
    writes a file, and the text of every page encodes as UTF-8.
    [os.makedirs] and [open] raise on other trees ([FileExistsError],
    [IsADirectoryError]) and [f.write] on other text
    ([UnicodeEncodeError]); these failures are not followed. *)
Record FS := mkFS {
  dirs : gset string;
  files : gmap string string
}.

Definition empty_fs : FS := mkFS ∅ ∅.

(** The exceptions of a run.  [OSError] and [NotADirectoryError] carry
    the file name [open] and [os.listdir] were given;
    [UnicodeDecodeError] and [json.JSONDecodeError] name no file, and
    the message and the position they carry are left out. *)
Inductive exn :=
  | OSError (path : string)
  | UnicodeDecodeError
  | JSONDecodeError
  | NotADirectoryError (path : string).

(** Computations that read the world, update the output tree and may
    raise: an uncaught exception ends the run with the tree as it is. *)
Definition M (A : Type) : Type := FS → (exn + A) * FS.

Definition ret {A} (x : A) : M A := λ fs, (inr x, fs).

Definition raise {A} (e : exn) : M A := λ fs, (inl e, fs).

Definition bind {A B} (m : M A) (k : A → M B) : M B :=
  λ fs, match m fs with
        | (inl e, fs') => (inl e, fs')
        | (inr x, fs') => k x fs'
        end.

#[global] Instance M_ret : MRet M := @ret.
#[global] Instance M_bind : MBind M := λ A B k m, bind m k.

(** [os.makedirs(path, exist_ok=True)], on a tree that takes it. *)
Definition makedirs (path : string) : M unit :=
  λ fs, (inr (), mkFS ({[path]} ∪ dirs fs) (files fs)).

(** [with open(path, 'w', encoding='utf-8') as f: f.write(content)],
    on a tree that takes it and for text that encodes. *)
Definition write_file (path content : string) : M unit :=
  λ fs, (inr (), mkFS (dirs fs) (<[path := content]> (files fs))).

(** [for x in l: body(x)]. *)
Fixpoint for_ {A} (l : list A) (body : A → M unit) : M unit :=
  match l with
  | [] => ret ()
  | x :: l' => body x;; for_ l' body
  end.

(** ** The generator *)

Definition export_dir : string := "zendesk_export_userology".
Definition output_dir : string := "offline_help_center".

Record Generator := mkGenerator {
  categories : list Category;
  sections : list SectionRec;
  articles : list Article;
  sections_by_category : gmap Z (list SectionRec);
  articles_by_section : gmap Z (list Article)
}.

(** [load_json]: [open] raises an [OSError] on a missing or unreadable
    file, and [json.load] a [UnicodeDecodeError] on bytes that are not
    UTF-8 and a [JSONDecodeError] on text that is not JSON; nothing
    catches any of them. *)
Definition load_json {A} (filename : string) (f : input_file A) : M (list A) :=
  match f with
  | Missing => raise (OSError (export_dir +:+ "/" +:+ filename))
  | Undecodable => raise UnicodeDecodeError
  | Malformed => raise JSONDecodeError
  | Loaded records => ret records
  end.

(** The body of [for section in self.sections] (lines 35-42). *)
Definition index_section
    (acc : gmap Z (list SectionRec) * gmap Z (list Article)) (section : SectionRec)
    : gmap Z (list SectionRec) * gmap Z (list Article) :=
  let cat_id := s_category_id section in
  let sbc :=
    match acc.1 !! cat_id with
    | None => <[cat_id := []]> acc.1
    | Some _ => acc.1
    end in
  let sbc := alter (λ l, l ++ [section]) cat_id sbc in
  let section_id := s_id section in
  (sbc, <[section_id := []]> acc.2).

(** The body of [for article in self.articles] (lines 44-47). *)
Definition index_article
    (abs : gmap Z (list Article)) (article : Article) : gmap Z (list Article) :=
  let section_id := a_section_id article in
  match abs !! section_id with
  | Some _ => alter (λ l, l ++ [article]) section_id abs
  | None => abs
  end.

Definition build_indexes (sections : list SectionRec) (articles : list Article)
    : gmap Z (list SectionRec) * gmap Z (list Article) :=
  let acc := foldl index_section (∅, ∅) sections in
  (acc.1, foldl index_article acc.2 articles).

(** [OfflineWebsiteGenerator.__init__]. *)
Definition init (w : World) : M Generator :=
  categories ← load_json "categories.json" (categories_json w);
  sections ← load_json "sections.json" (sections_json w);
  articles ← load_json "articles.json" (articles_json w);
  makedirs output_dir;;
  makedirs (output_dir +:+ "/css");;
  makedirs (output_dir +:+ "/js");;
  makedirs (output_dir +:+ "/sections");;
  makedirs (output_dir +:+ "/articles");;
  makedirs (output_dir +:+ "/categories");;
  let idx := build_indexes sections articles in
  ret (mkGenerator categories sections articles idx.1 idx.2).

(** ** Fixed assets *)

Definition css_content : string :=
  (q "/* Userology Help Center - Clean Professional Design */

:root {
    /* Colors - Clean and Professional */
    --color-primary: #3b82f6;
    --color-primary-dark: #2563eb;
    --color-primary-light: #60a5fa;

    --color-text: #111827;
    --color-text-light: #6b7280;
    --color-text-lighter: #9ca3af;

    --color-bg: #ffffff;
    --color-bg-gray: #f9fafb;
    --color-bg-light: #f3f4f6;

    --color-border: #e5e7eb;
    --color-border-light: #f3f4f6;

    /* Spacing */
    --space-1: 0.25rem;
    --space-2: 0.5rem;
    --space-3: 0.75rem;
    --space-4: 1rem;
    --space-5: 1.25rem;
    --space-6: 1.5rem;
    --space-8: 2rem;
    --space-10: 2.5rem;
    --space-12: 3rem;
    --space-16: 4rem;

    /* Typography */
    --font-sans: -apple-system, BlinkMacSystemFont, `Segoe UI`, Roboto, `Helvetica Neue`, Arial, sans-serif;
    --font-mono: `SF Mono`, Monaco, Consolas, monospace;

    /* Shadows - Subtle */
    --shadow-sm: 0 1px 2px 0 rgba(0, 0, 0, 0.05);
    --shadow-md: 0 4px 6px -1px rgba(0, 0, 0, 0.08);
    --shadow-hover: 0 8px 16px -4px rgba(0, 0, 0, 0.12);

    /* Radius */
    --radius-sm: 0.375rem;
    --radius-md: 0.5rem;
    --radius-lg: 0.75rem;
    --radius-xl: 1rem;
}

* {
    margin: 0;
    padding: 0;
    box-sizing: border-box;
}

body {
    font-family: var(--font-sans);
    font-size: 16px;
    line-height: 1.6;
    color: var(--color-text);
    background: var(--color-bg-gray);
    -webkit-font-smoothing: antialiased;
    -moz-osx-font-smoothing: grayscale;
}

/* Remove ALL underlines from links globally */
a {
    text-decoration: none;
    color: inherit;
}

/* Container */
.container {
    max-width: 1200px;
    margin: 0 auto;
    padding: 0 var(--space-6);
}

/* ========== HEADER ========== */
.header {
    background: var(--color-bg);
    border-bottom: 1px solid var(--color-border);
    padding: var(--space-6) 0;
    position: sticky;
    top: 0;
    z-index: 100;
    box-shadow: var(--shadow-sm);
}

.header-content {
    display: flex;
    align-items: center;
    justify-content: space-between;
    gap: var(--space-8);
}

.header-branding {
    display: flex;
    align-items: center;
    gap: var(--space-4);
}

.header-logo {
    width: 40px;
    height: 40px;
    object-fit: contain;
    opacity: 1;
}

.header-text h1 {
    font-size: 1.5rem;
    font-weight: 700;
    color: var(--color-text);
    margin: 0;
    line-height: 1.2;
}

.header-text p {
    font-size: 0.875rem;
    color: var(--color-text-light);
    margin: 0;
}

/* ========== SEARCH ========== */
.search-container {
    flex: 1;
    max-width: 500px;
}

.search-input {
    width: 100%;
    padding: var(--space-3) var(--space-4);
    border: 1px solid var(--color-border);
    border-radius: var(--radius-lg);
    font-size: 0.9375rem;
    transition: all 0.2s;
    background: var(--color-bg);
}

.search-input:focus {
    outline: none;
    border-color: var(--color-primary);
    box-shadow: 0 0 0 3px rgba(59, 130, 246, 0.1);
}

.search-input::placeholder {
    color: var(--color-text-lighter);
}

/* ========== NAVIGATION ========== */
.nav {
    background: var(--color-bg);
    border-bottom: 1px solid var(--color-border);
}

.nav ul {
    list-style: none;
    display: flex;
    gap: var(--space-2);
}

.nav a {
    display: block;
    padding: var(--space-4) var(--space-5);
    color: var(--color-text-light);
    font-weight: 500;
    font-size: 0.9375rem;
    border-bottom: 2px solid transparent;
    transition: all 0.2s;
}

.nav a:hover {
    color: var(--color-primary);
    background: var(--color-bg-light);
}

.nav a.active {
    color: var(--color-primary);
    border-bottom-color: var(--color-primary);
}

/* ========== MAIN LAYOUT ========== */
.main {
    display: grid;
    grid-template-columns: 260px 1fr;
    gap: var(--space-8);
    margin: var(--space-8) 0;
    align-items: start;
}

/* Pages without sidebar (categories, articles) */
.main:not(:has(.sidebar)) {
    grid-template-columns: 1fr;
    max-width: 1400px;
    margin: var(--space-8) auto;
}

/* ========== SIDEBAR ========== */
.sidebar {
    background: var(--color-bg);
    border: 1px solid var(--color-border);
    border-radius: var(--radius-lg);
    padding: var(--space-6);
    position: sticky;
    top: 140px;
}

.sidebar h3 {
    font-size: 1rem;
    font-weight: 700;
    color: var(--color-text);
    margin: 0 0 var(--space-4) 0;
}

.sidebar ul {
    list-style: none;
}

.sidebar a {
    display: block;
    padding: var(--space-3) var(--space-4);
    color: var(--color-text-light);
    font-size: 0.9375rem;
    border-radius: var(--radius-md);
    transition: all 0.2s;
}

.sidebar a:hover {
    color: var(--color-primary);
    background: var(--color-bg-light);
}

/* ========== CONTENT AREA ========== */
.content {
    background: var(--color-bg);
    border: 1px solid var(--color-border);
    border-radius: var(--radius-lg);
    padding: var(--space-10);
    min-height: 500px;
}

/* Content without sidebar - more breathing room */
.main:not(:has(.sidebar)) .content {
    padding: var(--space-12);
    border: none;
    background: transparent;
}

.content h1 {
    font-size: 2rem;
    font-weight: 700;
    color: var(--color-text);
    margin: 0 0 var(--space-6) 0;
    line-height: 1.2;
}

.content > p {
    font-size: 1.0625rem;
    color: var(--color-text-light);
    margin: 0 0 var(--space-8) 0;
}

.content h2 {
    font-size: 1.5rem;
    font-weight: 700;
    color: var(--color-text);
    margin: var(--space-12) 0 var(--space-6) 0;
}

/* First h2 (like `Popular Articles`) */
.content h2:first-of-type {
    margin-top: var(--space-10);
}

.content h3 {
    font-size: 1.25rem;
    font-weight: 600;
    color: var(--color-text);
    margin: var(--space-8) 0 var(--space-4) 0;
}

.content h4 {
    font-size: 1.125rem;
    font-weight: 600;
    color: var(--color-text);
    margin: var(--space-6) 0 var(--space-3) 0;
}

.content p {
    margin: 0 0 var(--space-4) 0;
    line-height: 1.7;
}

.content a {
    color: var(--color-primary);
    font-weight: 500;
}

.content a:hover {
    color: var(--color-primary-dark);
}

.content ul,
.content ol {
    margin: var(--space-4) 0;
    padding-left: var(--space-8);
}

.content li {
    margin-bottom: var(--space-2);
    line-height: 1.7;
}

.content img {
    max-width: 100%;
    height: auto;
    border-radius: var(--radius-md);
    margin: var(--space-6) 0;
}

/* YouTube embeds */
.youtube-container {
    position: relative;
    width: 100%;
    padding-bottom: 56.25%;
    margin: var(--space-8) 0;
    border-radius: var(--radius-lg);
    overflow: hidden;
}

.youtube-container iframe {
    position: absolute;
    top: 0;
    left: 0;
    width: 100%;
    height: 100%;
    border: none;
}

/* ========== ARTICLE GRID - PROPER GRID LAYOUT ========== */
.article-grid {
    display: grid;
    grid-template-columns: repeat(auto-fill, minmax(340px, 1fr));
    gap: var(--space-8);
    margin: var(--space-8) 0 0 0;
}

/* Home page - 2 column max */
.main:has(.sidebar) .article-grid {
    grid-template-columns: repeat(auto-fill, minmax(300px, 1fr));
}

/* Categories/Articles pages - 3 column */
.main:not(:has(.sidebar)) .article-grid {
    grid-template-columns: repeat(auto-fill, minmax(360px, 1fr));
    gap: var(--space-6);
}

/* Single category - center it and make it bigger */
.article-grid:has(:only-child) {
    grid-template-columns: 1fr;
    max-width: 600px;
}

.article-grid:has(:only-child) .article-card {
    padding: var(--space-10);
    min-height: 200px;
    text-align: center;
    justify-content: center;
}

/* ========== ARTICLE CARDS - CLEAN & MINIMAL ========== */
.article-card {
    display: flex;
    flex-direction: column;
    background: var(--color-bg);
    border: 1px solid var(--color-border);
    border-radius: var(--radius-lg);
    padding: var(--space-8);
    transition: all 0.2s ease;
    cursor: pointer;
    min-height: 140px;
}

/* Remove any text decoration on card and children */
.article-card,
.article-card *,
.article-card:hover,
.article-card:hover * {
    text-decoration: none !important;
}

.article-card:hover {
    border-color: var(--color-primary);
    box-shadow: var(--shadow-hover);
    transform: translateY(-2px);
}

.article-card h3 {
    font-size: 1.125rem;
    font-weight: 600;
    color: var(--color-text);
    line-height: 1.5;
    margin: 0 0 auto 0;
    flex-grow: 1;
    transition: color 0.2s;
}

.article-card:hover h3 {
    color: var(--color-primary);
}

.article-card .article-meta {
    font-size: 0.875rem;
    color: var(--color-text-lighter);
    margin: var(--space-4) 0 0 0;
    padding-top: var(--space-4);
    border-top: 1px solid var(--color-border-light);
}

/* Legacy article items */
.article-list {
    display: grid;
    gap: var(--space-4);
}

.article-item {
    background: var(--color-bg);
    border: 1px solid var(--color-border);
    border-radius: var(--radius-lg);
    padding: var(--space-6);
    transition: all 0.2s;
}

.article-item:hover {
    border-color: var(--color-primary);
    box-shadow: var(--shadow-md);
}

.article-item h3 {
    font-size: 1.125rem;
    font-weight: 600;
    margin: 0 0 var(--space-2) 0;
}

.article-item h3 a {
    color: var(--color-text);
}

.article-item h3 a:hover {
    color: var(--color-primary);
}

.article-meta {
    font-size: 0.875rem;
    color: var(--color-text-lighter);
}

.article-excerpt {
    color: var(--color-text-light);
    font-size: 0.9375rem;
    line-height: 1.6;
    margin-top: var(--space-2);
}

/* Breadcrumb */
.breadcrumb {
    display: inline-flex;
    align-items: center;
    gap: var(--space-2);
    font-size: 0.875rem;
    color: var(--color-text-lighter);
    margin-bottom: var(--space-6);
    padding: var(--space-2) var(--space-4);
    background: var(--color-bg-light);
    border-radius: var(--radius-md);
}

.breadcrumb a {
    color: var(--color-primary);
}

.breadcrumb a:hover {
    color: var(--color-primary-dark);
}

/* ========== FOOTER ========== */
.footer {
    background: var(--color-text);
    color: rgba(255, 255, 255, 0.8);
    text-align: center;
    padding: var(--space-12) 0;
    margin-top: var(--space-16);
}

.footer p {
    font-size: 0.875rem;
    margin: 0;
}

/* ========== RESPONSIVE ========== */
@media (max-width: 1024px) {
    .main {
        grid-template-columns: 1fr;
    }

    .sidebar {
        position: static;
        order: 2;
    }

    .content {
        order: 1;
    }

    .article-grid,
    .main:has(.sidebar) .article-grid,
    .main:not(:has(.sidebar)) .article-grid {
        grid-template-columns: repeat(auto-fill, minmax(300px, 1fr));
    }
}

@media (max-width: 768px) {
    .container {
        padding: 0 var(--space-4);
    }

    .header-content {
        flex-direction: column;
        align-items: stretch;
        gap: var(--space-4);
    }

    .search-container {
        max-width: none;
    }

    .nav ul {
        flex-direction: column;
        gap: 0;
    }

    .nav a {
        border-bottom: none;
        border-left: 2px solid transparent;
    }

    .nav a.active {
        border-left-color: var(--color-primary);
    }

    .content {
        padding: var(--space-6);
    }

    .content h1 {
        font-size: 1.75rem;
    }

    .article-grid,
    .main:has(.sidebar) .article-grid,
    .main:not(:has(.sidebar)) .article-grid {
        grid-template-columns: 1fr;
        gap: var(--space-5);
    }

    .main:not(:has(.sidebar)) .content {
        padding: var(--space-6);
    }
}

@media (max-width: 480px) {
    .content {
        padding: var(--space-5);
    }

    .content h1 {
        font-size: 1.5rem;
    }
}

/* ========== ACCESSIBILITY ========== */
*:focus-visible {
    outline: 2px solid var(--color-primary);
    outline-offset: 2px;
}

/* Print styles */
@media print {
    .nav,
    .sidebar,
    .footer,
    .search-container {
        display: none;
    }

    .main {
        grid-template-columns: 1fr;
    }

    .content {
        border: none;
        box-shadow: none;
    }
}

/* Reduced motion */
@media (prefers-reduced-motion: reduce) {
    * {
        animation-duration: 0.01ms !important;
        transition-duration: 0.01ms !important;
    }
}

/* ========== VIDEO GRID & CARDS ========== */
.video-grid {
    display: grid;
    grid-template-columns: repeat(auto-fill, minmax(360px, 1fr));
    gap: var(--space-8);
    margin: var(--space-8) 0 0 0;
}

.video-card {
    display: flex;
    flex-direction: column;
    background: var(--color-bg);
    border: 1px solid var(--color-border);
    border-radius: var(--radius-lg);
    overflow: hidden;
    transition: all 0.2s ease;
}

.video-card:hover {
    border-color: var(--color-primary);
    box-shadow: var(--shadow-hover);
    transform: translateY(-2px);
}

.video-thumbnail {
    width: 100%;
    aspect-ratio: 16 / 9;
    background: var(--color-bg-light);
    overflow: hidden;
    position: relative;
}

.video-thumbnail video {
    width: 100%;
    height: 100%;
    object-fit: cover;
    display: block;
    background: #000;
}

.video-info {
    padding: var(--space-6);
    flex: 1;
}

.video-info h3 {
    font-size: 1.125rem;
    font-weight: 600;
    color: var(--color-text);
    line-height: 1.4;
    margin: 0 0 var(--space-3) 0;
}

.video-description {
    font-size: 0.9375rem;
    color: var(--color-text-light);
    line-height: 1.6;
    margin: 0;
}

/* Video player responsive */
@media (max-width: 768px) {
    .video-grid {
        grid-template-columns: 1fr;
        gap: var(--space-6);
    }
}

/* ========== TOPIC CARDS (for Browse Topics page) ========== */
.topic-grid {
    display: grid;
    grid-template-columns: repeat(auto-fill, minmax(320px, 1fr));
    gap: var(--space-6);
    margin: var(--space-8) 0 var(--space-12) 0;
}

.topic-card {
    display: flex;
    flex-direction: column;
    background: var(--color-bg);
    border: 2px solid var(--color-border);
    border-radius: var(--radius-lg);
    padding: var(--space-8);
    transition: all 0.2s ease;
    cursor: pointer;
    text-align: center;
}

.topic-card:hover {
    border-color: var(--color-primary);
    box-shadow: var(--shadow-hover);
    transform: translateY(-2px);
}

.topic-icon {
    font-size: 3rem;
    margin-bottom: var(--space-4);
    line-height: 1;
}

.topic-card h3 {
    font-size: 1.25rem;
    font-weight: 700;
    color: var(--color-text);
    margin: 0 0 var(--space-3) 0;
    line-height: 1.3;
}

.topic-description {
    font-size: 0.9375rem;
    color: var(--color-text-light);
    line-height: 1.6;
    margin: 0 0 var(--space-4) 0;
    flex-grow: 1;
}

.topic-meta {
    font-size: 0.875rem;
    color: var(--color-text-lighter);
    font-weight: 500;
    padding-top: var(--space-4);
    border-top: 1px solid var(--color-border-light);
}

/* Topic grid responsive */
@media (max-width: 768px) {
    .topic-grid {
        grid-template-columns: 1fr;
        gap: var(--space-5);
    }
}
").

Definition js_content : string :=
  (q "
// Zendesk Help Center - Search and Interactivity
document.addEventListener('DOMContentLoaded', function() {
    // Search functionality
    const searchInput = document.getElementById('searchInput');
    if (searchInput) {
        searchInput.addEventListener('input', function(e) {
            const query = e.target.value.toLowerCase();
            if (query.length < 2) return;
            
            // Simple client-side search
            const articles = document.querySelectorAll('.article-item, .article-card');
            articles.forEach(article => {
                const titleElement = article.querySelector('h3 a, h3');
                const metaElement = article.querySelector('.article-meta');
                const excerptElement = article.querySelector('.article-excerpt');
                
                const title = titleElement ? titleElement.textContent.toLowerCase() : '';
                const meta = metaElement ? metaElement.textContent.toLowerCase() : '';
                const excerpt = excerptElement ? excerptElement.textContent.toLowerCase() : '';
                
                if (title.includes(query) || meta.includes(query) || excerpt.includes(query)) {
                    article.style.display = 'block';
                } else {
                    article.style.display = 'none';
                }
            });
        });
    }
    
    // Add active class to current page navigation
    const currentPage = window.location.pathname.split('/').pop() || 'index.html';
    const navLinks = document.querySelectorAll('.nav a');
    navLinks.forEach(link => {
        if (link.getAttribute('href') === currentPage) {
            link.classList.add('active');
        }
    });
    
    // Smooth scrolling for anchor links
    document.querySelectorAll('a[href^=`#`]').forEach(anchor => {
        anchor.addEventListener('click', function (e) {
            e.preventDefault();
            const target = document.querySelector(this.getAttribute('href'));
            if (target) {
                target.scrollIntoView({
                    behavior: 'smooth',
                    block: 'start'
                });
            }
        });
    });
    
    // Add loading states for images (exclude header logo)
    const images = document.querySelectorAll('img:not(.header-logo)');
    images.forEach(img => {
        img.addEventListener('load', function() {
            this.style.opacity = '1';
        });
        img.style.opacity = '0';
        img.style.transition = 'opacity 0.3s ease';
    });
});
").

Definition create_css : M unit :=
  write_file (output_dir +:+ "/css/style.css") css_content.

Definition create_javascript : M unit :=
  write_file (output_dir +:+ "/js/main.js") js_content.

(** ** The page shell *)

Definition get_header_html
    (title description : string) (is_root include_search : bool) : string :=
  let path_prefix := if is_root then EmptyString else "../" in
  let search_html :=
    if include_search then (q "
                <div class=`search-container`>
                    <input type=`search` class=`search-input` placeholder=`Search articles...` id=`searchInput`>
                </div>") else EmptyString in
  (q "
<!DOCTYPE html>
<html lang=`en`>
<head>
    <meta charset=`UTF-8`>
    <meta name=`viewport` content=`width=device-width, initial-scale=1.0`>
    <title>" +:+ title +:+ q " - Userology Help Center</title>
    <link rel=`stylesheet` href=`" +:+ path_prefix +:+ q "css/style.css`>
    <link rel=`icon` type=`image/png` href=`" +:+ path_prefix +:+ q "logo.png`>
</head>
<body>
    <header class=`header`>
        <div class=`container`>
            <div class=`header-content`>
                <div class=`header-branding`>
                    <img src=`" +:+ path_prefix +:+ q "logo.png` alt=`Userology Logo` class=`header-logo`>
                    <div class=`header-text`>
                        <h1>Userology Help Center</h1>
                        <p>" +:+ description +:+ "</p>
                    </div>
                </div>" +:+ search_html +:+ q "
            </div>
        </div>
    </header>

    <nav class=`nav`>
        <div class=`container`>
            <ul>
                <li><a href=`" +:+ path_prefix +:+ q "index.html`>Home</a></li>
                <li><a href=`" +:+ path_prefix +:+ q "categories.html`>Browse Topics</a></li>
                <li><a href=`" +:+ path_prefix +:+ q "articles.html`>All Articles</a></li>
                <li><a href=`" +:+ path_prefix +:+ q "videos.html`>Videos</a></li>
            </ul>
        </div>
    </nav>").

Definition get_footer_html (is_root include_script : bool) : string :=
  let path_prefix := if is_root then EmptyString else "../" in
  let script_tag :=
    if include_script then (q "
    <script src=`" +:+ path_prefix +:+ q "js/main.js`></script>") else EmptyString in
  (q "
    <footer class=`footer`>
        <div class=`container`>
            <p>© 2025 Userology. All rights reserved.</p>
        </div>
    </footer>" +:+ script_tag +:+ "
</body>
</html>").

(** ** Topic cards

    [create_homepage] (lines 952-984) and [create_categories_index]
    (lines 1321-1353) carry the same two tables and the same loop body,
    character for character. *)

Definition section_icons : gmap string string :=
  list_to_map [
    ("Study Setup", "📝");
    ("Interview Plan", "💬");
    ("Study Settings", "⚙️");
    ("Launch", "🚀");
    ("Responses and Recordings", "🎥");
    ("Settings and Admin", "👥");
    ("Results and Reports", "📊")
  ].

Definition section_descriptions : gmap string string :=
  list_to_map [
    ("Study Setup", "Learn how to create and configure your research studies");
    ("Interview Plan", "Set up discussion guides and interview sections");
    ("Study Settings", "Configure AI moderator, devices, permissions, and more");
    ("Launch", "Recruit participants and preview your study");
    ("Responses and Recordings", "Manage recordings, clips, and participant responses");
    ("Settings and Admin", "Manage your team and organization settings");
    ("Results and Reports", "Analyze qualitative and quantitative research data")
  ].

Definition topic_card (self : Generator) (section : SectionRec) : string :=
  let articles_count := length (default [] (articles_by_section self !! s_id section)) in
  let icon := default "📄" (section_icons !! s_name section) in
  let description :=
    default (default EmptyString (s_description section))
            (section_descriptions !! s_name section) in
  (q "
                    <a href=`sections/section_" +:+ str (s_id section) +:+ q ".html` class=`topic-card`>
                        <div class=`topic-icon`>" +:+ icon +:+ "</div>
                        <h3>" +:+ s_name section +:+ q "</h3>
                        <p class=`topic-description`>" +:+ description +:+ q "</p>
                        <div class=`topic-meta`>" +:+ str articles_count +:+ " " +:+ (if decide (articles_count = 1%nat) then "article" else "articles") +:+ "</div>
                    </a>
").

(** ** Homepage *)

(** [sorted(self.articles, key=lambda x: x['updated_at'], reverse=True)[:6]]. *)
Definition recent_articles (self : Generator) : list Article :=
  take 6 (sorted a_updated_at true (articles self)).

Definition popular_card (self : Generator) (article : Article) : string :=
  let section := next_by_id s_id (sections self) (a_section_id article) in
  (q "
                    <a href=`articles/article_" +:+ str (a_id article) +:+ q ".html` class=`article-card`>
                        <h3>" +:+ a_title article +:+ q "</h3>
                        <div class=`article-meta`>
                            " +:+ (match section with Some s => s_name s | None => "Unknown" end) +:+ "
                        </div>
                    </a>
").

(** The opening text of the homepage body (lines 940-949). *)
Definition homepage_intro : string :=
  (q "
    <div class=`container`>
        <main class=`main`>
            <div class=`content`>
                <h1>Welcome to Userology Help Center</h1>
                <p>Find comprehensive guides, tutorials, and answers to help you get the most out of Userology.</p>

                <h2>Browse by Topic</h2>
                <div class=`topic-grid`>
").

(** The text between the two grids (lines 986-991). *)
Definition popular_heading : string :=
  (q "
                </div>

                <h2>Popular Articles</h2>
                <div class=`article-grid`>
").

(** The closing text of the homepage (lines 1007-1021). *)
Definition homepage_footer : string :=
  (q "
                </div>
            </div>
        </main>
    </div>

    <footer class=`footer`>
        <div class=`container`>
            <p>© 2025 Userology. All rights reserved.</p>
        </div>
    </footer>

    <!-- <script src=`js/main.js`></script> -->
</body>
</html>").

Definition homepage_html (self : Generator) : string :=
  let html_content := get_header_html "Home" "Get help with Userology" true true in
  let html_content := html_content +:+ homepage_intro in
  let html_content := for_each (sections self) (topic_card self) html_content in
  let html_content := html_content +:+ popular_heading in
  let html_content := for_each (recent_articles self) (popular_card self) html_content in
  html_content +:+ homepage_footer.

Definition create_homepage (self : Generator) : M unit :=
  write_file (output_dir +:+ "/index.html") (homepage_html self).

(** ** Category pages *)

Definition category_sidebar_item (section : SectionRec) : string :=
  (q "                    <li><a href=`../sections/section_" +:+ str (s_id section) +:+ q ".html`>" +:+ s_name section +:+ "</a></li>
").

Definition category_section_row (self : Generator) (section : SectionRec) : string :=
  let articles := default [] (articles_by_section self !! s_id section) in
  (q "
                    <div class=`article-item`>
                        <h3><a href=`../sections/section_" +:+ str (s_id section) +:+ q ".html`>" +:+ s_name section +:+ q "</a></h3>
                        <div class=`article-meta`>
                            " +:+ str (length articles) +:+ " articles
                        </div>
                    </div>
").

Definition category_page_intro (category : Category) : string :=
  (q "
    <div class=`container`>
        <main class=`main`>
            <aside class=`sidebar`>
                <h3>Sections in " +:+ c_name category +:+ "</h3>
                <ul>
").

Definition category_page_middle (category : Category) : string :=
  (q "
                </ul>
            </aside>

            <div class=`content`>
                <h1>" +:+ c_name category +:+ "</h1>
                <p>" +:+ default EmptyString (c_description category) +:+ q "</p>
                
                <h2>Sections</h2>
                <div class=`article-list`>
").

Definition category_page_end : string :=
  ("
                </div>
            </div>
        </main>
    </div>
").

Definition category_page_html (self : Generator) (category : Category) : string :=
  let sections := default [] (sections_by_category self !! c_id category) in
  let html_content :=
    get_header_html (c_name category) "Browse help topics organized by category"
                    false true in
  let html_content := html_content +:+ category_page_intro category in
  let html_content := for_each sections category_sidebar_item html_content in
  let html_content := html_content +:+ category_page_middle category in
  let html_content := for_each sections (category_section_row self) html_content in
  let html_content := html_content +:+ category_page_end in
  html_content +:+ get_footer_html false false.

Definition create_category_page (self : Generator) (category : Category) : M unit :=
  write_file (output_dir +:+ "/categories/category_" +:+ str (c_id category) +:+ ".html")
             (category_page_html self category).

(** ** Section pages *)

Definition section_sidebar_item (article : Article) : string :=
  (q "                    <li><a href=`../articles/article_" +:+ str (a_id article) +:+ q ".html`>" +:+ a_title article +:+ "</a></li>
").

Definition section_article_row (article : Article) : string :=
  (q "
                    <div class=`article-item`>
                        <h3><a href=`../articles/article_" +:+ str (a_id article) +:+ q ".html`>" +:+ a_title article +:+ q "</a></h3>
                        <div class=`article-meta`>
                            Updated: " +:+ slice_to 10 (a_updated_at article) +:+ "
                        </div>
                    </div>
").

Definition section_page_intro (section : SectionRec) : string :=
  (q "
    <div class=`container`>
        <main class=`main`>
            <aside class=`sidebar`>
                <h3>Articles in " +:+ s_name section +:+ "</h3>
                <ul>
").

Definition section_page_middle (section : SectionRec) : string :=
  (q "
                </ul>
            </aside>

            <div class=`content`>
                <h1>" +:+ s_name section +:+ q "</h1>
                
                
                <h2>Articles</h2>
                <div class=`article-list`>
").

Definition section_page_footer : string :=
  (q "
                </div>
            </div>
        </main>
    </div>

    <footer class=`footer`>
        <div class=`container`>
            <p>© 2025 Userology. All rights reserved.</p>
        </div>
    </footer>
</body>
</html>").

Definition section_page_html (self : Generator) (section : SectionRec) : string :=
  let articles := default [] (articles_by_section self !! s_id section) in
  let category := next_by_id c_id (categories self) (s_category_id section) in
  let html_content :=
    get_header_html (s_name section) "Your complete guide to using Userology"
                    false false in
  let html_content := html_content +:+ section_page_intro section in
  let html_content := for_each articles section_sidebar_item html_content in
  let html_content := html_content +:+ section_page_middle section in
  let html_content := for_each articles section_article_row html_content in
  html_content +:+ section_page_footer.

Definition create_section_page (self : Generator) (section : SectionRec) : M unit :=
  write_file (output_dir +:+ "/sections/section_" +:+ str (s_id section) +:+ ".html")
             (section_page_html self section).

(** ** Article pages *)

Definition article_page_intro : string :=
  (q "
    <div class=`container`>
        <main class=`main`>
            <aside class=`sidebar`>
                <h3>Navigation</h3>
                <ul>
                    <li><a href=`../index.html`>← Back to Home</a></li>
").

Definition article_category_link (category : Category) : string :=
  (q "                    <li><a href=`../categories/category_" +:+ str (c_id category) +:+ q ".html`>← " +:+ c_name category +:+ "</a></li>
").

Definition article_section_link (section : SectionRec) : string :=
  (q "                    <li><a href=`../sections/section_" +:+ str (s_id section) +:+ q ".html`>← " +:+ s_name section +:+ "</a></li>
").

(** Lines 1159-1183: the title, the breadcrumb line, the body and the
    closing text. *)
Definition article_page_content
    (article : Article) (category : option Category) (section : option SectionRec)
    (article_body : string) : string :=
  (q "
                </ul>
            </aside>

            <div class=`content`>
                <h1>" +:+ a_title article +:+ q "</h1>
                <div class=`article-meta`>
                    " +:+ (match category with Some c => c_name c | None => "Unknown" end) +:+ " → " +:+ (match section with Some s => s_name s | None => "Unknown" end) +:+ " | 
                    Updated: " +:+ slice_to 10 (a_updated_at article) +:+ q "
                </div>
                
                <div class=`article-content`>
                    " +:+ article_body +:+ q "
                </div>
            </div>
        </main>
    </div>

    <footer class=`footer`>
        <div class=`container`>
            <p>© 2025 Userology. All rights reserved.</p>
        </div>
    </footer>
</body>
</html>").

Definition article_page_html (self : Generator) (article : Article) : string :=
  let section := next_by_id s_id (sections self) (a_section_id article) in
  let category :=
    match section with
    | Some s => next_by_id c_id (categories self) (s_category_id s)
    | None => None
    end in
  let article_body := default EmptyString (a_body article) in
  let html_content :=
    get_header_html (a_title article) "Your complete guide to using Userology"
                    false false in
  let html_content := html_content +:+ article_page_intro in
  let html_content :=
    match category with
    | Some category => html_content +:+ article_category_link category
    | None => html_content
    end in
  let html_content :=
    match section with
    | Some section => html_content +:+ article_section_link section
    | None => html_content
    end in
  html_content +:+ article_page_content article category section article_body.

Definition create_article_page (self : Generator) (article : Article) : M unit :=
  write_file (output_dir +:+ "/articles/article_" +:+ str (a_id article) +:+ ".html")
             (article_page_html self article).

(** ** Videos index *)

Record Video := mkVideo {
  v_filename : string;
  v_title : string;
  v_description : string
}.

Definition videos_dir : string := "videos".

Definition video_descriptions : gmap string string :=
  list_to_map [
    ("Creating your study on Userology.mp4",
     "Learn how to create and set up a new study on the Userology platform.");
    ("AI Discussion Guides.mp4",
     "Understand how AI-powered discussion guides enhance your usability testing.");
    ("AI Moderator Configuration.mp4",
     "Configure the AI moderator settings for your research sessions.");
    ("AI Transcript.mp4",
     "Learn how to access and utilize AI-generated transcripts from your sessions.");
    ("Ask AI Feature.mp4",
     "Discover how to use the Ask AI feature to get insights from your research data.");
    ("Configuring Devices and Browsers.mp4",
     "Set up device and browser requirements for your study participants.");
    ("Downloading and Creating Clips.mp4",
     "Learn how to download recordings and create clips from your research sessions.");
    ("Duplicating a study on userology.mp4",
     "Quickly duplicate an existing study to save time on setup.");
    ("External Recruitment.mp4",
     "Learn how to recruit participants from external sources for your studies.");
    ("Launching Your Study and Recruiting Participants.mp4",
     "Complete guide to launching your study and recruiting participants.");
    ("Live Product Section.mp4",
     "Set up and configure the live product testing section in your study.");
    ("Managing Team and Inviting Members.mp4",
     "Add and manage team members in your Userology organization.");
    ("Organization settings.mp4",
     "Configure your organization settings and preferences.");
    ("Personalizing Your Study.mp4",
     "Customize your study with branding and personalization options.");
    ("Preview Session.mp4",
     "Preview how your study will appear to participants before launching.");
    ("Prototype Section.mp4",
     "Set up prototype testing sections for your design research.");
    ("QnA results.mp4",
     "Analyze and interpret Q&A results from your research sessions.");
    ("Recording permission settings.mp4",
     "Configure recording permissions and privacy settings for your studies.");
    ("Recordings page.mp4",
     "Navigate and manage all your session recordings in one place.");
    ("Recruit Participant Yourself.mp4",
     "Learn how to recruit and invite your own participants to studies.");
    ("Sign In Feature.mp4",
     "Set up sign-in requirements for your study participants.");
    ("Time estimation feature.mp4",
     "Use the time estimation feature to plan your study duration.");
    ("Types of responses .mp4",
     "Understand the different types of responses you can collect in your studies.");
    ("Understanding Quantitative Results .mp4",
     "Learn how to analyze and interpret quantitative data from your research.");
    ("Uploading a Legal Document to Your Study.mp4",
     "Add consent forms and legal documents to your study setup.");
    ("Usability score.mp4",
     "Understand and interpret usability scores from your testing sessions.");
    ("Voice Interview Section.mp4",
     "Set up and conduct voice interviews as part of your research studies.")
  ].

Definition video_entry (video_file : string) : Video :=
  let video_name := (splitext video_file).1 in
  mkVideo video_file video_name (default EmptyString (video_descriptions !! video_file)).

(** Lines 1222-1264: the [videos] list. *)
Definition collect_videos (w : World) : M (list Video) :=
  match videos_path w with
  | NoDir => ret []
  | NotDir => raise (NotADirectoryError videos_dir)
  | Dir entries =>
      let video_files := filter (λ f, endswith f ".mp4" = true) entries in
      ret (video_entry <$> sorted id false video_files)
  end.

Definition video_card (video : Video) : string :=
  (q "
                    <div class=`video-card`>
                        <div class=`video-thumbnail`>
                            <video controls preload=`metadata`>
                                <source src=`videos/" +:+ v_filename video +:+ q "` type=`video/mp4`>
                                Your browser does not support the video tag.
                            </video>
                        </div>
                        <div class=`video-info`>
                            <h3>" +:+ v_title video +:+ q "</h3>
                            <p class=`video-description`>" +:+ v_description video +:+ "</p>
                        </div>
                    </div>
").

Definition videos_intro : string :=
  (q "
    <div class=`container`>
        <main class=`main`>
            <div class=`content`>
                <h1>Video Tutorials</h1>
                <p>Watch step-by-step video guides to help you master Userology features. Click on any video to watch.</p>

                <div class=`video-grid`>
").

Definition videos_end : string :=
  ("
                </div>
            </div>
        </main>
    </div>
").

Definition videos_page_html (videos : list Video) : string :=
  let html_content :=
    get_header_html "Video Tutorials"
                    "Watch video tutorials to learn how to use Userology" true true in
  let html_content := html_content +:+ videos_intro in
  let html_content := for_each videos video_card html_content in
  let html_content := html_content +:+ videos_end in
  html_content +:+ get_footer_html true true.

Definition create_videos_page (w : World) : M unit :=
  videos ← collect_videos w;
  write_file (output_dir +:+ "/videos.html") (videos_page_html videos).

(** ** Topics index *)

Definition categories_index_intro : string :=
  (q "
    <div class=`container`>
        <main class=`main`>
            <div class=`content`>
                <h1>Browse Topics</h1>
                <p>Find articles organized by topic to help you get started quickly.</p>

                <div class=`topic-grid`>
").

Definition categories_index_end : string :=
  ("
                </div>
            </div>
        </main>
    </div>
").

Definition categories_index_html (self : Generator) : string :=
  let html_content :=
    get_header_html "Browse Topics" "Browse help topics organized by category"
                    true true in
  let html_content := html_content +:+ categories_index_intro in
  let html_content := for_each (sections self) (topic_card self) html_content in
  let html_content := html_content +:+ categories_index_end in
  html_content +:+ get_footer_html true true.

Definition create_categories_index (self : Generator) : M unit :=
  write_file (output_dir +:+ "/categories.html") (categories_index_html self).

(** ** Articles index *)

(** [sorted(self.articles, key=lambda x: x['title'])]. *)
Definition articles_index_entries (self : Generator) : list Article :=
  sorted a_title false (articles self).

Definition articles_index_card (self : Generator) (article : Article) : string :=
  let section := next_by_id s_id (sections self) (a_section_id article) in
  let category :=
    match section with
    | Some s => next_by_id c_id (categories self) (s_category_id s)
    | None => None
    end in
  (q "
                    <a href=`articles/article_" +:+ str (a_id article) +:+ q ".html` class=`article-card`>
                        <h3>" +:+ a_title article +:+ q "</h3>
                        <div class=`article-meta`>
                            " +:+ (match category with Some c => c_name c | None => "Unknown" end) +:+ " → " +:+ (match section with Some s => s_name s | None => "Unknown" end) +:+ "
                        </div>
                    </a>
").

(** The opening text of the list (lines 1371-1377). *)
Definition articles_index_heading : string :=
  (q "
    <div class=`container`>
        <main class=`main`>
            <div class=`content`>
                <h1>All Articles</h1>
                <div class=`article-grid`>
").

(** The closing text of the page (lines 1392-1404), around the time of
    the run. *)
Definition articles_index_footer (generated_on : string) : string :=
  (q "
                </div>
            </div>
        </main>
    </div>

    <footer class=`footer`>
        <div class=`container`>
            <p>Offline Help Center - Generated on ") +:+ generated_on +:+ ("</p>
        </div>
    </footer>
</body>
</html>").

Definition articles_index_html (w : World) (self : Generator) : string :=
  let html_content := get_header_html "All Articles" "Browse all help articles" true true in
  let html_content := html_content +:+ articles_index_heading in
  let html_content :=
    for_each (articles_index_entries self) (articles_index_card self) html_content in
  html_content +:+ articles_index_footer (now w).

Definition create_articles_index (w : World) (self : Generator) : M unit :=
  write_file (output_dir +:+ "/articles.html") (articles_index_html w self).

(** ** The pipeline *)

Definition create_all_pages (w : World) (self : Generator) : M unit :=
  create_css;;
  create_javascript;;
  create_homepage self;;
  for_ (categories self) (create_category_page self);;
  for_ (sections self) (create_section_page self);;
  for_ (articles self) (create_article_page self);;
  create_categories_index self;;
  create_articles_index w self;;
  create_videos_page w.

Definition main (w : World) : M unit :=
  generator ← init w;
  create_all_pages w generator.

(** ** Vocabulary of the statements *)

(** Positions, in ascending order and counted from [k], of the elements
    of a list that pass a test. *)
Fixpoint positions_from {A} (P : A → Prop) `{!∀ x, Decision (P x)}
    (k : nat) (l : list A) : list nat :=
  match l with
  | [] => []
  | x :: l' =>
      if decide (P x) then k :: positions_from P (S k) l'
      else positions_from P (S k) l'
  end.

(** The order a sort by [key] puts its output in. *)
Definition key_le {A} (key : A → string) (reverse : bool) (x y : A) : Prop :=
  if reverse then String.le (key y) (key x) else String.le (key x) (key y).

(** The directories of a tree after the six [os.makedirs] calls. *)
Definition with_made_dirs (d : gset string) : gset string :=
  {[output_dir +:+ "/categories"]} ∪ ({[output_dir +:+ "/articles"]} ∪
  ({[output_dir +:+ "/sections"]} ∪ ({[output_dir +:+ "/js"]} ∪
  ({[output_dir +:+ "/css"]} ∪ ({[output_dir]} ∪ d))))).

(** The concatenation of a list of texts. *)
Definition cat_all (l : list string) : string := foldr String.append EmptyString l.

(** [has_substring needle s]: the text [needle] occurs in [s]. *)
Definition has_substring (needle s : string) : Prop :=
  ∃ pre post, s = pre +:+ needle +:+ post.

(** *** The writes of a run *)

(** The paths [create_all_pages] opens for writing. *)
Definition css_path : string := output_dir +:+ "/css/style.css".
Definition js_path : string := output_dir +:+ "/js/main.js".
Definition index_path : string := output_dir +:+ "/index.html".
Definition categories_index_path : string := output_dir +:+ "/categories.html".
Definition articles_index_path : string := output_dir +:+ "/articles.html".
Definition videos_index_path : string := output_dir +:+ "/videos.html".

Definition category_path (category : Category) : string :=
  output_dir +:+ "/categories/category_" +:+ str (c_id category) +:+ ".html".
Definition section_path (section : SectionRec) : string :=
  output_dir +:+ "/sections/section_" +:+ str (s_id section) +:+ ".html".
Definition article_path (article : Article) : string :=
  output_dir +:+ "/articles/article_" +:+ str (a_id article) +:+ ".html".

(** The files written before the articles index, in the order of
    [create_all_pages]; none of them reads the clock. *)
Definition early_writes (self : Generator) : list (string * string) :=
  [(css_path, css_content); (js_path, js_content); (index_path, homepage_html self)] ++
  ((λ c, (category_path c, category_page_html self c)) <$> categories self) ++
  ((λ s, (section_path s, section_page_html self s)) <$> sections self) ++
  ((λ a, (article_path a, article_page_html self a)) <$> articles self) ++
  [(categories_index_path, categories_index_html self)].

(** The videos of the index page, when the [videos] path can be listed. *)
Definition listed_videos (d : dir_state) : list Video :=
  match d with
  | Dir entries =>
      video_entry <$> sorted id false (filter (λ f, endswith f ".mp4" = true) entries)
  | _ => []
  end.

(** The write of the videos index; there is none when listing [videos]
    raises. *)
Definition videos_writes (d : dir_state) : list (string * string) :=
  match d with
  | NotDir => []
  | d => [(videos_index_path, videos_page_html (listed_videos d))]
  end.

(** All the files of a run, in the order they are written. *)
Definition all_writes (w : World) (self : Generator) : list (string * string) :=
  early_writes self ++
  [(articles_index_path, articles_index_html w self)] ++
  videos_writes (videos_path w).

(** Writing files one after the other: a later write to a path replaces
    an earlier one. *)
Definition apply_writes (ws : list (string * string)) (m : gmap string string)
    : gmap string string :=
  foldl (λ m pc, <[pc.1 := pc.2]> m) m ws.

(** The generator that [__init__] builds from loaded records. *)
Definition generator_of (cats : list Category) (secs : list SectionRec)
    (arts : list Article) : Generator :=
  mkGenerator cats secs arts (build_indexes secs arts).1 (build_indexes secs arts).2.

(** The records of a loaded input file. *)
Definition records {A} (f : input_file A) : list A :=
  match f with
  | Loaded l => l
  | _ => []
  end.

(** The generator of a run whose three inputs load. *)
Definition loaded_generator (w : World) : Generator :=
  generator_of (records (categories_json w)) (records (sections_json w))
               (records (articles_json w)).

(** The exception of the first input that does not load, if any. *)
Definition load_error (w : World) : option exn :=
  match categories_json w, sections_json w, articles_json w with
  | Missing, _, _ => Some (OSError (export_dir +:+ "/categories.json"))
  | Undecodable, _, _ => Some UnicodeDecodeError
  | Malformed, _, _ => Some JSONDecodeError
  | Loaded _, Missing, _ => Some (OSError (export_dir +:+ "/sections.json"))
  | Loaded _, Undecodable, _ => Some UnicodeDecodeError
  | Loaded _, Malformed, _ => Some JSONDecodeError
  | Loaded _, Loaded _, Missing => Some (OSError (export_dir +:+ "/articles.json"))
  | Loaded _, Loaded _, Undecodable => Some UnicodeDecodeError
  | Loaded _, Loaded _, Malformed => Some JSONDecodeError
  | Loaded _, Loaded _, Loaded _ => None
  end.

(** How the page writes end: listing a [videos] path that is not a
    directory raises. *)
Definition pages_status (d : dir_state) : exn + unit :=
  match d with
  | NotDir => inl (NotADirectoryError videos_dir)
  | _ => inr ()
  end.

(** An input file that [load_json] cannot load. *)
Definition load_fails {A} (f : input_file A) : Prop :=
  match f with
  | Loaded _ => False
  | _ => True
  end.

(** A world with three sections in two categories and no article. *)
Definition sections_by_category_world : World :=
  mkWorld (Loaded [mkCategory 1 "Setup" None])
          (Loaded [mkSection 10 "Basics" None 1;
                   mkSection 11 "Billing" None 2;
                   mkSection 12 "Advanced" None 1])
          (Loaded []) NoDir "2025-01-01 00:00:00".

(** A world with two sections and three articles; the second article
    names a section that is not loaded. *)
Definition articles_by_section_world : World :=
  mkWorld (Loaded [mkCategory 1 "Setup" None])
          (Loaded [mkSection 10 "Basics" None 1; mkSection 11 "Billing" None 1])
          (Loaded [mkArticle 100 "B Article" None 10 "2024-01-02T00:00:00Z";
                   mkArticle 101 "A Article" None 77 "2024-02-01T00:00:00Z";
                   mkArticle 102 "C Article" None 10 "2024-03-01T00:00:00Z"])
          NoDir "2025-01-01 00:00:00".

(** The exceptions [load_json] raises on the three inputs. *)
Definition load_exn (e : exn) : Prop :=
  e = UnicodeDecodeError ∨ e = JSONDecodeError ∨
  ∃ name, name ∈ ["categories.json"; "sections.json"; "articles.json"] ∧
          e = OSError (export_dir +:+ "/" +:+ name).

(** Two states of the [videos] path with the same directory content;
    [os.listdir] returns the entries in arbitrary order. *)
Definition same_listing (d1 d2 : dir_state) : Prop :=
  match d1, d2 with
  | NoDir, NoDir => True
  | NotDir, NotDir => True
  | Dir e1, Dir e2 => e1 ≡ₚ e2
  | _, _ => False
  end.

(** Two worlds with the same input records and the same videos
    directory; the clock is left free. *)
Definition same_input (w1 w2 : World) : Prop :=
  categories_json w1 = categories_json w2 ∧
  sections_json w1 = sections_json w2 ∧
  articles_json w1 = articles_json w2 ∧
  same_listing (videos_path w1) (videos_path w2).

(** The scenario of the specification, run at two moments. *)
Definition scenario_at (generated_on : string) : World :=
  mkWorld (Loaded [mkCategory 1 "Setup" None])
          (Loaded [mkSection 10 "Basics" None 1])
          (Loaded [mkArticle 100 "B Article" None 10 "2024-01-02T00:00:00Z";
                   mkArticle 101 "A Article" None 10 "2024-02-01T00:00:00Z"])
          NoDir generated_on.

(** *** Text tests *)

(** Every byte of a text passes a test. *)
Fixpoint string_forall (P : ascii → bool) (s : string) : bool :=
  match s with
  | EmptyString => true
  | String c s' => P c && string_forall P s'
  end.

(** The number of occurrences of a byte in a text. *)
Fixpoint count_char (c : ascii) (s : string) : nat :=
  match s with
  | EmptyString => 0
  | String x s' => (if Ascii.eqb x c then 1 else 0) + count_char c s'
  end.

(** [starts_with p s]: the text [s] begins with [p]. *)
Fixpoint starts_with (p s : string) : bool :=
  match p, s with
  | EmptyString, _ => true
  | String a p', String b s' => Ascii.eqb a b && starts_with p' s'
  | String _ _, EmptyString => false
  end.

(** A decision procedure for [has_substring]. *)
Fixpoint containsb (needle s : string) : bool :=
  starts_with needle s ||
  match s with
  | EmptyString => false
  | String _ s' => containsb needle s'
  end.

(** A byte of a decimal numeral: a digit or the minus sign. *)
Definition numeral_char (c : ascii) : bool :=
  Ascii.eqb c "-" || ((48 <=? N_of_ascii c)%N && (N_of_ascii c <=? 57)%N).

(** A text without markup: no byte of it opens a tag. *)
Definition plain (s : string) : bool :=
  string_forall (λ c, negb (Ascii.eqb c "<")) s.

(** *** Where a page sits in the output tree *)

(** The number of directories between the output root and a file of
    the tree: output paths are [output_dir], a separator, and a path
    relative to the root. *)
Definition rel_depth (path : string) : nat := count_char "/" path - 1.




Definition script_link (path_prefix : string) : string :=
  q "<script src=`" +:+ path_prefix +:+ q "js/main.js`></script>".


(** The path prefix the page shell is given for pages at the root and
    for pages one directory down. *)
Definition shell_prefix (is_root : bool) : string :=
  if is_root then EmptyString else "../".


(** The files a run writes: each path with the text written to it. *)
Inductive page_of (w : World) (g : Generator) : string → string → Prop :=
  | page_css : page_of w g css_path css_content
  | page_js : page_of w g js_path js_content
  | page_home : page_of w g index_path (homepage_html g)
  | page_category c :
      c ∈ categories g → page_of w g (category_path c) (category_page_html g c)
  | page_section s :
      s ∈ sections g → page_of w g (section_path s) (section_page_html g s)
  | page_article a :
      a ∈ articles g → page_of w g (article_path a) (article_page_html g a)
  | page_categories_index :
      page_of w g categories_index_path (categories_index_html g)
  | page_articles_index :
      page_of w g articles_index_path (articles_index_html w g)
  | page_videos_index :
      videos_path w ≠ NotDir →
      page_of w g videos_index_path (videos_page_html (listed_videos (videos_path w))).

(** *** The slots that name the section and the category of an article *)

(** The breadcrumb line of an article page, up to the separator that
    follows it. *)
Definition article_breadcrumb (category_label section_label : string) : string :=
  q "<div class=`article-meta`>
                    " +:+ category_label +:+ " → " +:+ section_label +:+ " | ".

(** The breadcrumb line of a card of the articles index. *)
Definition index_breadcrumb (category_label section_label : string) : string :=
  q "<div class=`article-meta`>
                            " +:+ category_label +:+ " → " +:+ section_label +:+ q "
                        </div>".

(** The section line of a card of the homepage. *)
Definition popular_label (section_label : string) : string :=
  q "<div class=`article-meta`>
                            " +:+ section_label +:+ q "
                        </div>".

(** The article of [articles_by_section_world] whose section is not
    loaded. *)
Definition dangling_article : Article :=
  mkArticle 101 "A Article" None 77 "2024-02-01T00:00:00Z".

(** *** Script tags *)

(** A scanner for script tags: it reads a page byte by byte and tells
    markup comments from the rest.  [Tag k] is the state after the
    opening of a tag and the first [k] letters of [script]. *)
Inductive scan_state :=
  | Text
  | Lt
  | LtBang
  | LtBangDash
  | Tag (k : nat)
  | Comment
  | CommentDash
  | CommentDashDash
  | Found.

(** Letters of tag names are read without regard to case. *)
Definition lower (c : ascii) : ascii :=
  let n := N_of_ascii c in
  if (65 <=? n)%N && (n <=? 90)%N then ascii_of_N (n + 32) else c.

Definition script_letters : list ascii :=
  ["s"; "c"; "r"; "i"; "p"; "t"]%char.

Definition scan_step (st : scan_state) (c : ascii) : scan_state :=
  match st with
  | Found => Found
  | Comment => if Ascii.eqb c "-" then CommentDash else Comment
  | CommentDash => if Ascii.eqb c "-" then CommentDashDash else Comment
  | CommentDashDash =>
      if Ascii.eqb c ">" then Text
      else if Ascii.eqb c "-" then CommentDashDash else Comment
  | _ =>
      if Ascii.eqb c "<" then Lt
      else match st with
           | Lt =>
               if Ascii.eqb c "!" then LtBang
               else if Ascii.eqb (lower c) "s" then Tag 1 else Text
           | LtBang => if Ascii.eqb c "-" then LtBangDash else Text
           | LtBangDash => if Ascii.eqb c "-" then Comment else Text
           | Tag k =>
               match script_letters !! k with
               | Some x =>
                   if Ascii.eqb (lower c) x
                   then (if (k =? 5)%nat then Found else Tag (S k))
                   else Text
               | None => Text
               end
           | _ => Text
           end
  end.

Fixpoint scan (st : scan_state) (s : string) : scan_state :=
  match s with
  | EmptyString => st
  | String c s' => scan (scan_step st c) s'
  end.

(** A page has an active script tag when the opening of one is read
    outside a comment. *)
Definition has_active_script (page : string) : bool :=
  match scan Text page with
  | Found => true
  | _ => false
  end.

(** The search box of the header, and the script tag as the homepage
    has it. *)
Definition search_input : string :=
  q "<input type=`search` class=`search-input` placeholder=`Search articles...` id=`searchInput`>".

Definition commented_script : string :=
  q "<!-- <script src=`js/main.js`></script> -->".

(** Records whose names, titles and descriptions are plain text. *)
Definition plain_category (c : Category) : Prop :=
  plain (c_name c) = true ∧ plain (default EmptyString (c_description c)) = true.

Definition plain_section (s : SectionRec) : Prop :=
  plain (s_name s) = true ∧ plain (default EmptyString (s_description s)) = true.

Definition plain_article (a : Article) : Prop := plain (a_title a) = true.

Definition plain_generator (g : Generator) : Prop :=
  Forall plain_category (categories g) ∧
  Forall plain_section (sections g) ∧
  Forall plain_article (articles g).

(** A section whose name is a script tag. *)
Definition script_named_world : World :=
  mkWorld (Loaded [mkCategory 1 "Setup" None])
          (Loaded [mkSection 10 (q "<script src=`js/main.js`></script>") None 1])
          (Loaded []) NoDir "2025-01-01 00:00:00".

(** A [videos] directory with a video and a file that is not one. *)
Definition mixed_videos_world : World :=
  mkWorld (Loaded []) (Loaded []) (Loaded [])
          (Dir ["intro.mp4"; "notes.txt"]) "2025-01-01 00:00:00".

(** The same world without the other file. *)
Definition only_videos_world : World :=
  mkWorld (Loaded []) (Loaded []) (Loaded [])
          (Dir ["intro.mp4"]) "2025-01-01 00:00:00".

(** *** Further vocabulary *)

(** The number of code points of a UTF-8 text. *)
Fixpoint code_points (s : string) : nat :=
  match s with
  | EmptyString => 0
  | String c s' => (if is_continuation c then 0 else 1) + code_points s'
  end.

(** A row of a category page: the link to a section and a number of
    articles. *)
Definition section_row (section : SectionRec) (n : nat) : string :=
  (q "
                    <div class=`article-item`>
                        <h3><a href=`../sections/section_" +:+ str (s_id section) +:+ q ".html`>" +:+ s_name section +:+ q "</a></h3>
                        <div class=`article-meta`>
                            " +:+ str n +:+ " articles
                        </div>
                    </div>
").

(** The line of a topic card that counts the articles of a section. *)
Definition topic_count (n : nat) (noun : string) : string :=
  q "<div class=`topic-meta`>" +:+ str n +:+ " " +:+ noun +:+ "</div>".

(** The description line of a topic card. *)
Definition topic_description (description : string) : string :=
  q "<p class=`topic-description`>" +:+ description +:+ "</p>".

(** The icon line of a topic card. *)
Definition topic_icon (icon : string) : string :=
  q "<div class=`topic-icon`>" +:+ icon +:+ "</div>".

(** The date line of a row of a section page. *)
Definition row_date (date : string) : string :=
  q "<div class=`article-meta`>
                            Updated: " +:+ date +:+ q "
                        </div>".

(** The text of an article page just before the body, and the text
    after it to the end of the page. *)
Definition article_body_open : string :=
  q "<div class=`article-content`>
                    ".

Definition article_page_close : string :=
  q "
                </div>
            </div>
        </main>
    </div>

    <footer class=`footer`>
        <div class=`container`>
            <p>© 2025 Userology. All rights reserved.</p>
        </div>
    </footer>
</body>
</html>".

(** The scenario of the specification with a second article of the
    first one's id. *)
Definition same_id_world : World :=
  mkWorld (Loaded [mkCategory 1 "Setup" None])
          (Loaded [mkSection 10 "Basics" None 1])
          (Loaded [mkArticle 100 "First" None 10 "2024-01-02T00:00:00Z";
                   mkArticle 100 "Second" None 10 "2024-02-01T00:00:00Z"])
          NoDir "2025-01-01 00:00:00".



(** A world whose sections do not parse and whose articles are missing. *)
Definition bad_sections_world : World :=
  mkWorld (Loaded [mkCategory 1 "Setup" None]) Malformed Missing
          NoDir "2025-01-01 00:00:00".

(** The image of the logo in the page header, and the source of the
    video of a card. *)
Definition logo_image (path_prefix : string) : string :=
  q "<img src=`" +:+ path_prefix +:+ q "logo.png`".

Definition video_source (filename : string) : string :=
  q "<source src=`videos/" +:+ filename +:+ q "` type=`video/mp4`>".

(** Two sections of one id, in two categories, and an article of the
    second category's section. *)
Definition same_section_id_world : World :=
  mkWorld (Loaded [mkCategory 1 "Setup" None; mkCategory 2 "Billing" None])
          (Loaded [mkSection 10 "Basics" None 1; mkSection 10 "Invoices" None 2])
          (Loaded [mkArticle 100 "B Article" None 10 "2024-01-02T00:00:00Z"])
          NoDir "2025-01-01 00:00:00".

(** *** What a card, an item and a row show

    The text of each card, sidebar item and row, as a function of what
    it shows. *)

(** A card of the Popular Articles list: the link to the page of an
    article, its title, and the name of its section. *)
Definition home_card (id : Z) (title section_label : string) : string :=
  (q "
                    <a href=`articles/article_" +:+ str id +:+ q ".html` class=`article-card`>
                        <h3>" +:+ title +:+ q "</h3>
                        <div class=`article-meta`>
                            " +:+ section_label +:+ "
                        </div>
                    </a>
").

(** A card of the articles index: the link to the page of an article,
    its title, and the names of its category and section. *)
Definition index_card (id : Z) (title category_label section_label : string) : string :=
  (q "
                    <a href=`articles/article_" +:+ str id +:+ q ".html` class=`article-card`>
                        <h3>" +:+ title +:+ q "</h3>
                        <div class=`article-meta`>
                            " +:+ category_label +:+ " → " +:+ section_label +:+ "
                        </div>
                    </a>
").

(** A card of the videos index: the player of a file of the [videos]
    directory beside the page, a title and a description. *)
Definition video_card_text (filename title description : string) : string :=
  (q "
                    <div class=`video-card`>
                        <div class=`video-thumbnail`>
                            <video controls preload=`metadata`>
                                <source src=`videos/" +:+ filename +:+ q "` type=`video/mp4`>
                                Your browser does not support the video tag.
                            </video>
                        </div>
                        <div class=`video-info`>
                            <h3>" +:+ title +:+ q "</h3>
                            <p class=`video-description`>" +:+ description +:+ "</p>
                        </div>
                    </div>
").

(** A topic card: the link to the page of a section, an icon, the name
    of the section, a description, and a number of articles with its
    noun. *)
Definition topic_card_text (id : Z) (icon name description : string) (n : nat)
    (noun : string) : string :=
  (q "
                    <a href=`sections/section_" +:+ str id +:+ q ".html` class=`topic-card`>
                        <div class=`topic-icon`>" +:+ icon +:+ "</div>
                        <h3>" +:+ name +:+ q "</h3>
                        <p class=`topic-description`>" +:+ description +:+ q "</p>
                        <div class=`topic-meta`>" +:+ str n +:+ " " +:+ noun +:+ "</div>
                    </a>
").

(** The sidebar items of a category page and of a section page: the
    link to the page of a section, or of an article, under its name. *)
Definition section_item (id : Z) (name : string) : string :=
  (q "                    <li><a href=`../sections/section_" +:+ str id +:+ q ".html`>" +:+ name +:+ "</a></li>
").

Definition article_item (id : Z) (title : string) : string :=
  (q "                    <li><a href=`../articles/article_" +:+ str id +:+ q ".html`>" +:+ title +:+ "</a></li>
").

(** A row of a section page: the link to the page of an article, its
    title and a date. *)
Definition article_row (id : Z) (title date : string) : string :=
  (q "
                    <div class=`article-item`>
                        <h3><a href=`../articles/article_" +:+ str id +:+ q ".html`>" +:+ title +:+ q "</a></h3>
                        <div class=`article-meta`>
                            Updated: " +:+ date +:+ "
                        </div>
                    </div>
").

(** The links of the sidebar of an article page to the pages of its
    category and of its section. *)
Definition category_back_link (id : Z) (name : string) : string :=
  (q "                    <li><a href=`../categories/category_" +:+ str id +:+ q ".html`>← " +:+ name +:+ "</a></li>
").

Definition section_back_link (id : Z) (name : string) : string :=
  (q "                    <li><a href=`../sections/section_" +:+ str id +:+ q ".html`>← " +:+ name +:+ "</a></li>
").

(** *** Texts that encode

    A file name that is not UTF-8 reaches the program as a text that
    [f.write] cannot encode.  [utf8_text] tells the byte sequences that
    are well-formed UTF-8: after a lead byte come the continuation
    bytes its range asks for. *)
Definition byte_range (lo hi : N) : N * N := (lo, hi).

Definition utf8_lead (n : N) : option (list (N * N)) :=
  let tail := byte_range 128 191 in
  if (n <=? 127)%N then Some []
  else if (194 <=? n)%N && (n <=? 223)%N then Some [tail]
  else if (n =? 224)%N then Some [byte_range 160 191; tail]
  else if (225 <=? n)%N && (n <=? 236)%N then Some [tail; tail]
  else if (n =? 237)%N then Some [byte_range 128 159; tail]
  else if (238 <=? n)%N && (n <=? 239)%N then Some [tail; tail]
  else if (n =? 240)%N then Some [byte_range 144 191; tail; tail]
  else if (241 <=? n)%N && (n <=? 243)%N then Some [tail; tail; tail]
  else if (n =? 244)%N then Some [byte_range 128 143; tail; tail]
  else None.

Fixpoint utf8_from (expected : list (N * N)) (s : string) : bool :=
  match s with
  | EmptyString => match expected with [] => true | _ => false end
  | String c s' =>
      let n := N_of_ascii c in
      match expected with
      | (lo, hi) :: rest => (lo <=? n)%N && (n <=? hi)%N && utf8_from rest s'
      | [] =>
          match utf8_lead n with
          | Some ranges => utf8_from ranges s'
          | None => false
          end
      end
  end.

Definition utf8_text (s : string) : bool := utf8_from [] s.

(** * Properties *)

(** ** Lists *)

Section positions.
Context {A : Type} (P : A → Prop) `{!∀ x, Decision (P x)}.

Lemma positions_from_lower k l j :
  j ∈ positions_from P k l → (k ≤ j)%nat.
Proof.
  revert k. induction l as [|x l IH]; intros k; simpl.
  - by intros ?%elem_of_nil.
  - case_decide.
    + intros [->|Hj%IH]%elem_of_cons; lia.
    + intros Hj%IH. lia.
Qed.

Lemma positions_from_sorted k l :
  StronglySorted lt (positions_from P k l).
Proof.
  revert k. induction l as [|x l IH]; intros k; simpl.
  - constructor.
  - case_decide; [|by apply IH].
    constructor; [by apply IH|].
    apply Forall_forall. intros j Hj%positions_from_lower. lia.
Qed.

Lemma positions_from_filter pre l :
  Forall2 (λ j x, (pre ++ l) !! j = Some x)
          (positions_from P (length pre) l) (filter P l).
Proof.
  revert pre. induction l as [|x l IH]; intros pre; simpl.
  - constructor.
  - specialize (IH (pre ++ [x])).
    rewrite length_app in IH. simpl in IH.
    rewrite Nat.add_1_r, <- app_assoc in IH. simpl in IH.
    rewrite filter_cons. case_decide; [|done].
    constructor; [|done].
    by rewrite list_lookup_middle.
Qed.

Lemma positions_from_complete pre l j x :
  (pre ++ l) !! j = Some x → (length pre ≤ j)%nat → P x →
  j ∈ positions_from P (length pre) l.
Proof.
  revert pre. induction l as [|y l IH]; intros pre Hj Hle HP; simpl.
  - rewrite app_nil_r in Hj. apply lookup_lt_Some in Hj. lia.
  - destruct (decide (j = length pre)) as [->|Hne].
    + rewrite list_lookup_middle in Hj by done. simplify_eq.
      rewrite decide_True by done. left.
    + assert (j ∈ positions_from P (S (length pre)) l) as Hin.
      { specialize (IH (pre ++ [y])).
        rewrite length_app, Nat.add_1_r, <- app_assoc in IH.
        apply IH; [done|lia|done]. }
      case_decide; [by right|done].
Qed.

(** The elements that pass the test sit at strictly increasing
    positions of the list, one position for each of them. *)
Lemma filter_positions l :
  ∃ js, Forall2 (λ j x, l !! j = Some x) js (filter P l) ∧
        StronglySorted lt js ∧
        ∀ j x, l !! j = Some x → P x → j ∈ js.
Proof.
  exists (positions_from P 0 l). split; [|split].
  - apply (positions_from_filter []).
  - apply positions_from_sorted.
  - intros j x Hj HP. apply (positions_from_complete [] l j x); simpl; [done|lia|done].
Qed.
End positions.

(** ** The indexer *)

Section indexer.
Implicit Types (sbc : gmap Z (list SectionRec)) (abs : gmap Z (list Article)).

Lemma index_section_sbc acc s c :
  (index_section acc s).1 !! c =
    if decide (c = s_category_id s)
    then Some (default [] (acc.1 !! c) ++ [s])
    else acc.1 !! c.
Proof.
  unfold index_section; simpl.
  case_decide as Hc.
  - subst c. rewrite lookup_alter_eq.
    destruct (acc.1 !! s_category_id s) as [l|] eqn:Hl; simpl.
    + by rewrite Hl.
    + by rewrite lookup_insert_eq.
  - rewrite lookup_alter_ne by done.
    destruct (acc.1 !! s_category_id s); [done|].
    by rewrite lookup_insert_ne.
Qed.

Lemma index_section_abs acc s k :
  (index_section acc s).2 !! k =
    if decide (k = s_id s) then Some [] else acc.2 !! k.
Proof.
  unfold index_section; simpl. case_decide as Hk.
  - subst. by rewrite lookup_insert_eq.
  - by rewrite lookup_insert_ne.
Qed.

Lemma foldl_index_section_sbc secs acc c :
  (foldl index_section acc secs).1 !! c =
    match filter (λ s, s_category_id s = c) secs with
    | [] => acc.1 !! c
    | l => Some (default [] (acc.1 !! c) ++ l)
    end.
Proof.
  revert acc. induction secs as [|s secs IH]; intros acc; simpl; [done|].
  rewrite IH, index_section_sbc, filter_cons.
  destruct (decide (s_category_id s = c)) as [<-|Hne].
  - rewrite decide_True by done. simpl.
    destruct (filter _ secs) as [|s' l']; [done|].
    by rewrite <- app_assoc.
  - rewrite decide_False by done. done.
Qed.

Lemma foldl_index_section_abs secs acc k :
  (foldl index_section acc secs).2 !! k =
    if decide (k ∈ s_id <$> secs) then Some [] else acc.2 !! k.
Proof.
  revert acc. induction secs as [|s secs IH]; intros acc.
  - simpl. done.
  - cbn [foldl]. rewrite fmap_cons, IH, index_section_abs.
    destruct (decide (k ∈ s_id <$> secs)) as [Hin|Hnin].
    + rewrite decide_True; [done|]. by right.
    + destruct (decide (k = s_id s)) as [->|Hne].
      * rewrite decide_True; [done|]. by left.
      * rewrite decide_False; [done|]. by intros [?|?]%elem_of_cons.
Qed.

Lemma index_article_lookup abs a k :
  index_article abs a !! k =
    if decide (k = a_section_id a)
    then (λ l, l ++ [a]) <$> abs !! k
    else abs !! k.
Proof.
  unfold index_article; simpl. case_decide as Hk.
  - subst k. destruct (abs !! a_section_id a) as [l|] eqn:Hl; simpl.
    + by rewrite lookup_alter_eq, Hl.
    + by rewrite Hl.
  - destruct (abs !! a_section_id a); [|done].
    by rewrite lookup_alter_ne.
Qed.

Lemma foldl_index_article_lookup arts abs k :
  foldl index_article abs arts !! k =
    (λ l, l ++ filter (λ a, a_section_id a = k) arts) <$> abs !! k.
Proof.
  revert abs. induction arts as [|a arts IH]; intros abs; simpl.
  - destruct (abs !! k); simpl; [|done]. by rewrite app_nil_r.
  - rewrite IH, index_article_lookup, filter_cons.
    destruct (decide (a_section_id a = k)) as [<-|Hne].
    + rewrite decide_True by done.
      destruct (abs !! a_section_id a); simpl; [|done].
      by rewrite <- app_assoc.
    + rewrite decide_False by done. done.
Qed.

(** The two indexes in closed form. *)
Lemma sections_by_category_lookup secs arts c :
  (build_indexes secs arts).1 !! c =
    match filter (λ s, s_category_id s = c) secs with
    | [] => None
    | l => Some l
    end.
Proof.
  unfold build_indexes; simpl.
  rewrite foldl_index_section_sbc. simpl. by rewrite lookup_empty.
Qed.

Lemma articles_by_section_lookup secs arts k :
  (build_indexes secs arts).2 !! k =
    if decide (k ∈ s_id <$> secs)
    then Some (filter (λ a, a_section_id a = k) arts)
    else None.
Proof.
  unfold build_indexes; simpl.
  rewrite foldl_index_article_lookup, foldl_index_section_abs.
  case_decide; simpl; [done|]. by rewrite lookup_empty.
Qed.
End indexer.

(** ** Loading *)

(** [__init__] in closed form: the first input that fails to load decides
    the exception and leaves the tree as it was; otherwise the six
    directories are made and the indexes built. *)
Lemma init_spec w fs :
  init w fs =
    match categories_json w, sections_json w, articles_json w with
    | Missing, _, _ => (inl (OSError (export_dir +:+ "/categories.json")), fs)
    | Undecodable, _, _ => (inl UnicodeDecodeError, fs)
    | Malformed, _, _ => (inl JSONDecodeError, fs)
    | Loaded _, Missing, _ => (inl (OSError (export_dir +:+ "/sections.json")), fs)
    | Loaded _, Undecodable, _ => (inl UnicodeDecodeError, fs)
    | Loaded _, Malformed, _ => (inl JSONDecodeError, fs)
    | Loaded _, Loaded _, Missing => (inl (OSError (export_dir +:+ "/articles.json")), fs)
    | Loaded _, Loaded _, Undecodable => (inl UnicodeDecodeError, fs)
    | Loaded _, Loaded _, Malformed => (inl JSONDecodeError, fs)
    | Loaded cats, Loaded secs, Loaded arts =>
        (inr (mkGenerator cats secs arts
                (build_indexes secs arts).1 (build_indexes secs arts).2),
         mkFS (with_made_dirs (dirs fs)) (files fs))
    end.
Proof.
  unfold init, mbind, M_bind, bind, mret, M_ret, ret, load_json, raise.
  destruct (categories_json w), (sections_json w), (articles_json w); try done.
Qed.

Lemma init_inr w fs g fs' :
  init w fs = (inr g, fs') →
  categories_json w = Loaded (categories g) ∧
  sections_json w = Loaded (sections g) ∧
  articles_json w = Loaded (articles g) ∧
  sections_by_category g = (build_indexes (sections g) (articles g)).1 ∧
  articles_by_section g = (build_indexes (sections g) (articles g)).2 ∧
  fs' = mkFS (with_made_dirs (dirs fs)) (files fs).
Proof.
  rewrite init_spec.
  destruct (categories_json w), (sections_json w), (articles_json w);
    intros [= <- <-]; done.
Qed.

(** C2. After the indexer has run, every loaded section has an entry for
    its category in [sections_by_category]; the entry is the list of the
    loaded sections of that category in input order, so it holds the
    section once for each position it was loaded at: the members of the
    entry sit at strictly increasing positions of the input, and the
    position of the section is one of them. *)
Theorem sections_by_category_complete w fs g fs' (i : nat) (s : SectionRec) :
  init w fs = (inr g, fs') →
  sections g !! i = Some s →
  sections_json w = Loaded (sections g) ∧
  ∃ l js,
    sections_by_category g !! s_category_id s = Some l ∧
    l = filter (λ x, s_category_id x = s_category_id s) (sections g) ∧
    Forall2 (λ j x, sections g !! j = Some x) js l ∧
    StronglySorted lt js ∧
    i ∈ js ∧
    (NoDup (sections g) → NoDup l).
Proof.
  intros (_ & Hsecs & _ & Hsbc & _ & _)%init_inr Hi. split; [done|].
  destruct (filter_positions (λ x, s_category_id x = s_category_id s) (sections g))
    as (js & Hjs & Hsorted & Hall).
  exists (filter (λ x, s_category_id x = s_category_id s) (sections g)), js.
  split; [|split; [done|split; [done|split; [done|split]]]].
  - rewrite Hsbc, sections_by_category_lookup.
    destruct (filter _ (sections g)) as [|x l] eqn:Hf; [|done].
    exfalso. assert (s ∈ filter (λ x, s_category_id x = s_category_id s) (sections g)) as Hin.
    { apply list_elem_of_filter. split; [done|]. by eapply list_elem_of_lookup_2. }
    rewrite Hf in Hin. by apply elem_of_nil in Hin.
  - by eapply Hall.
  - apply NoDup_filter.
Qed.


Lemma sections_by_category_complete_witness :
  ∃ l js,
    sections_by_category (loaded_generator sections_by_category_world) !! 1 = Some l ∧
    l = [mkSection 10 "Basics" None 1; mkSection 12 "Advanced" None 1] ∧
    Forall2 (λ j x, sections (loaded_generator sections_by_category_world) !! j = Some x)
            js l ∧
    (2%nat) ∈ js.
Proof.
  destruct (sections_by_category_complete sections_by_category_world empty_fs
              (loaded_generator sections_by_category_world) _ 2
              (mkSection 12 "Advanced" None 1)
              (init_spec sections_by_category_world empty_fs) eq_refl)
    as (_ & l & js & Hl & Hfilter & Hjs & _ & Hin & _).
  exists l, js. split; [exact Hl|]. split; [exact Hfilter|].
  split; [exact Hjs|exact Hin].
Defined.

(** C3. After the indexer has run, every loaded section id is a key of
    [articles_by_section], bound to the loaded articles of that section in
    input order (the empty list when there is none); an article whose
    section is loaded is in the list of that section once for each
    position it was loaded at; an article whose [section_id] is the id of
    no loaded section is in no list at all. *)
Theorem articles_by_section_complete w fs g fs' :
  init w fs = (inr g, fs') →
  (∀ s, s ∈ sections g →
     articles_by_section g !! s_id s =
       Some (filter (λ a, a_section_id a = s_id s) (articles g))) ∧
  (∀ s, s ∈ sections g →
     (∀ a, a ∈ articles g → a_section_id a ≠ s_id s) →
     articles_by_section g !! s_id s = Some []) ∧
  (∀ (i : nat) a, articles g !! i = Some a →
     a_section_id a ∈ s_id <$> sections g →
     ∃ l js,
       articles_by_section g !! a_section_id a = Some l ∧
       l = filter (λ x, a_section_id x = a_section_id a) (articles g) ∧
       Forall2 (λ j x, articles g !! j = Some x) js l ∧
       StronglySorted lt js ∧
       i ∈ js ∧
       (NoDup (articles g) → NoDup l)) ∧
  (∀ a, a ∈ articles g →
     a_section_id a ∉ s_id <$> sections g →
     ∀ k l, articles_by_section g !! k = Some l → a ∉ l).
Proof.
  intros (_ & _ & _ & _ & Habs & _)%init_inr.
  assert (Hkey : ∀ s, s ∈ sections g →
     articles_by_section g !! s_id s =
       Some (filter (λ a, a_section_id a = s_id s) (articles g))).
  { intros s Hs. rewrite Habs, articles_by_section_lookup.
    rewrite decide_True; [done|]. by apply list_elem_of_fmap_2. }
  split; [done|]. split; [|split].
  - intros s Hs Hnone. rewrite Hkey by done. f_equal.
    destruct (filter _ (articles g)) as [|a l] eqn:Hf; [done|]. exfalso.
    assert (a ∈ filter (λ a, a_section_id a = s_id s) (articles g)) as Hin.
    { rewrite Hf. left. }
    apply list_elem_of_filter in Hin as [Heq Ha]. by eapply Hnone.
  - intros i a Hi Hsec.
    destruct (filter_positions (λ x, a_section_id x = a_section_id a) (articles g))
      as (js & Hjs & Hsorted & Hall).
    exists (filter (λ x, a_section_id x = a_section_id a) (articles g)), js.
    split; [|split; [done|split; [done|split; [done|split]]]].
    + rewrite Habs, articles_by_section_lookup. by rewrite decide_True.
    + by eapply Hall.
    + apply NoDup_filter.
  - intros a Ha Hdangling k l Hl Hin.
    rewrite Habs, articles_by_section_lookup in Hl.
    case_decide as Hk; [|done]. simplify_eq.
    apply list_elem_of_filter in Hin as [Heq _]. by rewrite Heq in Hdangling.
Qed.


Lemma articles_by_section_complete_witness :
  articles_by_section (loaded_generator articles_by_section_world) !! 10 =
    Some [mkArticle 100 "B Article" None 10 "2024-01-02T00:00:00Z";
          mkArticle 102 "C Article" None 10 "2024-03-01T00:00:00Z"] ∧
  ∀ k l, articles_by_section (loaded_generator articles_by_section_world) !! k = Some l →
         dangling_article ∉ l.
Proof.
  destruct (articles_by_section_complete articles_by_section_world empty_fs
              (loaded_generator articles_by_section_world) _
              (init_spec articles_by_section_world empty_fs))
    as (Hkey & _ & _ & Hdangling).
  split.
  - exact (Hkey (mkSection 10 "Basics" None 1) (list_elem_of_here _ _)).
  - apply Hdangling.
    + apply list_elem_of_further, list_elem_of_here.
    + intros Hin. apply (bool_decide_eq_true_2 _) in Hin.
      vm_compute in Hin. discriminate Hin.
Defined.

(** ** Sorting *)

Lemma ltb_le (a b : string) : String.ltb a b = true → String.le a b.
Proof.
  unfold String.le, String.ltb, String.leb. by destruct (String.compare a b).
Qed.

Lemma ltb_ne (a b : string) : String.ltb a b = true → a ≠ b.
Proof.
  intros Hlt ->. unfold String.ltb in Hlt.
  pose proof (String.compare_antisym b b) as Hopp.
  by destruct (String.compare b b).
Qed.

Lemma ltb_false_le (a b : string) : String.ltb a b = false → String.le b a.
Proof.
  unfold String.le, String.ltb, String.leb.
  rewrite (String.compare_antisym a b).
  by destruct (String.compare b a).
Qed.

Section sorted_props.
Context {A : Type} (key : A → string) (reverse : bool).

#[local] Instance key_le_trans : Transitive (key_le key reverse).
Proof.
  unfold key_le. intros x y z Hxy Hyz.
  destruct reverse; etrans; eauto.
Qed.

Lemma comes_first_key_le y x :
  comes_first key reverse y x = true → key_le key reverse y x.
Proof. unfold comes_first, key_le. destruct reverse; apply ltb_le. Qed.

Lemma comes_first_key_ne y x :
  comes_first key reverse y x = true → key y ≠ key x.
Proof.
  unfold comes_first. destruct reverse; intros Hlt%ltb_ne; congruence.
Qed.

Lemma not_comes_first_key_le y x :
  comes_first key reverse y x = false → key_le key reverse x y.
Proof. unfold comes_first, key_le. destruct reverse; apply ltb_false_le. Qed.

Lemma insert_stable_perm x l : insert_stable key reverse x l ≡ₚ x :: l.
Proof.
  induction l as [|y l IH]; simpl; [done|].
  destruct (comes_first key reverse y x); [|done].
  rewrite IH. apply Permutation_swap.
Qed.

Lemma insert_stable_sorted x l :
  StronglySorted (key_le key reverse) l →
  StronglySorted (key_le key reverse) (insert_stable key reverse x l).
Proof.
  induction 1 as [|y l Hsorted IH Hy]; simpl.
  - repeat constructor.
  - destruct (comes_first key reverse y x) eqn:Hyx.
    + constructor; [done|].
      rewrite insert_stable_perm. constructor; [|done].
      by apply comes_first_key_le.
    + apply not_comes_first_key_le in Hyx.
      constructor; [by constructor|].
      constructor; [done|].
      eapply Forall_impl; [exact Hy|]. intros z Hz. by etrans.
Qed.

Lemma insert_stable_filter k x l :
  filter (λ a, key a = k) (insert_stable key reverse x l) =
  filter (λ a, key a = k) (x :: l).
Proof.
  induction l as [|y l IH]; simpl; [done|].
  destruct (comes_first key reverse y x) eqn:Hyx; [|done].
  apply comes_first_key_ne in Hyx.
  rewrite (filter_cons _ y), IH, !(filter_cons _ x), !(filter_cons _ y).
  destruct (decide (key x = k)), (decide (key y = k)); try done.
  congruence.
Qed.

Lemma sorted_perm l : sorted key reverse l ≡ₚ l.
Proof.
  induction l as [|x l IH]; simpl; [done|].
  by rewrite insert_stable_perm, IH.
Qed.

Lemma sorted_length l : length (sorted key reverse l) = length l.
Proof. by rewrite sorted_perm. Qed.

Lemma sorted_sorted l : StronglySorted (key_le key reverse) (sorted key reverse l).
Proof.
  induction l as [|x l IH]; simpl; [constructor|].
  by apply insert_stable_sorted.
Qed.

(** Stability: the elements of one key keep their input order. *)
Lemma sorted_stable k l :
  filter (λ a, key a = k) (sorted key reverse l) = filter (λ a, key a = k) l.
Proof.
  induction l as [|x l IH]; simpl; [done|].
  by rewrite insert_stable_filter, !(filter_cons _ x), IH.
Qed.

(** A sorted list is decided by its elements of each key: whatever
    stable sort produced a list, it is the list computed by [sorted]. *)
Lemma sorted_stable_unique l1 l2 :
  StronglySorted (key_le key reverse) l1 →
  StronglySorted (key_le key reverse) l2 →
  (∀ k, filter (λ a, key a = k) l1 = filter (λ a, key a = k) l2) →
  l1 = l2.
Proof.
  assert (Hanti : ∀ x y, key_le key reverse x y → key_le key reverse y x →
                         key x = key y).
  { unfold key_le. intros x y. destruct reverse; intros ??; by apply (anti_symm String.le). }
  assert (Hhead : ∀ x l l', StronglySorted (key_le key reverse) (x :: l) →
            StronglySorted (key_le key reverse) l' →
            (∀ k, filter (λ a, key a = k) (x :: l) = filter (λ a, key a = k) l') →
            ∃ l'', l' = x :: l'').
  { intros x l l' Hs Hs' Hf. destruct l' as [|y l''].
    - specialize (Hf (key x)). rewrite filter_cons_True in Hf by done. done.
    - exists l''. f_equal.
      assert (x ∈ y :: l'') as Hx.
      { eapply (list_elem_of_filter (λ a, key a = key x)). rewrite <- Hf.
        rewrite filter_cons_True by done. left. }
      assert (y ∈ x :: l) as Hy.
      { eapply (list_elem_of_filter (λ a, key a = key y)). rewrite Hf.
        rewrite filter_cons_True by done. left. }
      assert (key x = key y) as Hk.
      { apply StronglySorted_inv in Hs as [_ Hxl].
        apply StronglySorted_inv in Hs' as [_ Hyl].
        rewrite Forall_forall in Hxl, Hyl.
        apply elem_of_cons in Hx as [->|Hx]; [done|].
        apply elem_of_cons in Hy as [->|Hy]; [done|].
        apply Hanti; [by apply Hxl|by apply Hyl]. }
      specialize (Hf (key x)).
      rewrite filter_cons_True, filter_cons_True in Hf by done.
      by simplify_eq. }
  intros Hs1. revert l2. induction Hs1 as [|x l1 Hs1 IH Hx]; intros l2 Hs2 Hf.
  - destruct l2 as [|y l2]; [done|].
    specialize (Hf (key y)). rewrite filter_cons_True in Hf by done. done.
  - destruct (Hhead x l1 l2) as [l2' ->]; [by constructor|done|done|].
    f_equal. apply IH.
    + by apply StronglySorted_inv in Hs2 as [? _].
    + intros k. specialize (Hf k). rewrite !(filter_cons _ x) in Hf.
      case_decide; by simplify_eq.
Qed.
End sorted_props.

(** A sort by the text itself does not depend on the order of its input. *)
Lemma sorted_id_perm (l1 l2 : list string) :
  l1 ≡ₚ l2 → sorted id false l1 = sorted id false l2.
Proof.
  intros Hperm.
  apply (StronglySorted_unique String.le).
  - apply (sorted_sorted id false).
  - apply (sorted_sorted id false).
  - by rewrite !sorted_perm.
Qed.

(** ** Text *)

Lemma str_app_cons (x : ascii) (a b : string) :
  String x a +:+ b = String x (a +:+ b).
Proof. reflexivity. Qed.

Lemma str_app_nil_l (a : string) : EmptyString +:+ a = a.
Proof. reflexivity. Qed.

Lemma str_app_assoc (a b c : string) : (a +:+ b) +:+ c = a +:+ (b +:+ c).
Proof.
  induction a as [|x a IH]; [done|].
  by rewrite !str_app_cons, IH.
Qed.

Lemma str_app_nil_r (a : string) : a +:+ EmptyString = a.
Proof.
  induction a as [|x a IH]; [done|].
  by rewrite str_app_cons, IH.
Qed.

Lemma cat_all_app (l1 l2 : list string) :
  cat_all (l1 ++ l2) = cat_all l1 +:+ cat_all l2.
Proof.
  induction l1 as [|x l1 IH]; simpl; [done|]. by rewrite IH, str_app_assoc.
Qed.

(** A loop of [html_content += ...] appends the pieces in order. *)
Lemma for_each_cat_all {A} (l : list A) (body : A → string) (h : string) :
  for_each l body h = h +:+ cat_all (body <$> l).
Proof.
  unfold for_each. revert h. induction l as [|x l IH]; intros h; simpl.
  - by rewrite str_app_nil_r.
  - by rewrite IH, str_app_assoc.
Qed.

Lemma has_substring_refl (s : string) : has_substring s s.
Proof. exists EmptyString, EmptyString. by rewrite str_app_nil_r. Qed.

Lemma has_substring_app_l (needle a b : string) :
  has_substring needle a → has_substring needle (a +:+ b).
Proof.
  intros (pre & post & ->). exists pre, (post +:+ b).
  by rewrite !str_app_assoc.
Qed.

Lemma has_substring_app_r (needle a b : string) :
  has_substring needle b → has_substring needle (a +:+ b).
Proof.
  intros (pre & post & ->). exists (a +:+ pre), post.
  by rewrite !str_app_assoc.
Qed.

Lemma has_substring_trans (a b c : string) :
  has_substring a b → has_substring b c → has_substring a c.
Proof.
  intros (p1 & q1 & ->) (p2 & q2 & ->).
  exists (p2 +:+ p1), (q1 +:+ q2). by rewrite !str_app_assoc.
Qed.

Lemma has_substring_cat_all (needle : string) (l : list string) (s : string) :
  s ∈ l → has_substring needle s → has_substring needle (cat_all l).
Proof.
  induction 1 as [s l|s x l Hin IH]; intros Hs; simpl.
  - by apply has_substring_app_l.
  - by apply has_substring_app_r, IH.
Qed.

(** ** The two sorted lists *)

Lemma homepage_html_eq (self : Generator) :
  homepage_html self =
    (get_header_html "Home" "Get help with Userology" true true +:+
     homepage_intro +:+ cat_all (topic_card self <$> sections self)) +:+
    popular_heading +:+
    cat_all (popular_card self <$> recent_articles self) +:+
    homepage_footer.
Proof.
  unfold homepage_html. by rewrite !for_each_cat_all, !str_app_assoc.
Qed.

Lemma articles_index_html_eq (w : World) (self : Generator) :
  articles_index_html w self =
    get_header_html "All Articles" "Browse all help articles" true true +:+
    articles_index_heading +:+
    cat_all (articles_index_card self <$> articles_index_entries self) +:+
    articles_index_footer (now w).
Proof.
  unfold articles_index_html. by rewrite !for_each_cat_all, !str_app_assoc.
Qed.

(** C4. The Popular Articles list of the homepage holds
    min(6, number of loaded articles) articles, in descending order of
    [updated_at]; articles of equal [updated_at] keep their input
    order; the articles left out are none of them more recent than a
    listed one; and the homepage renders the cards of the list, in
    this order, between the heading of the list and the closing text.
    The heading reads Popular Articles, and the card of an article is
    the link to the page of the article, under its title, with the name
    of the first loaded section of its [section_id], or [Unknown]. *)
Theorem popular_articles_spec (self : Generator) :
  length (recent_articles self) = Nat.min 6 (length (articles self)) ∧
  StronglySorted (λ a b, String.le (a_updated_at b) (a_updated_at a))
                 (recent_articles self) ∧
  (∀ k, filter (λ a, a_updated_at a = k) (recent_articles self)
          `prefix_of` filter (λ a, a_updated_at a = k) (articles self)) ∧
  (∃ rest, recent_articles self ++ rest ≡ₚ articles self ∧
           ∀ a b, a ∈ recent_articles self → b ∈ rest →
                  String.le (a_updated_at b) (a_updated_at a)) ∧
  (∃ pre, homepage_html self =
          pre +:+ popular_heading +:+
          cat_all (popular_card self <$> recent_articles self) +:+
          homepage_footer) ∧
  has_substring "<h2>Popular Articles</h2>" popular_heading ∧
  (∀ a, popular_card self a =
        home_card (a_id a) (a_title a)
          (match next_by_id s_id (sections self) (a_section_id a) with
           | Some s => s_name s
           | None => "Unknown"
           end)).
Proof.
  unfold recent_articles.
  pose proof (sorted_sorted a_updated_at true (articles self)) as Hsorted.
  pose proof (sorted_perm a_updated_at true (articles self)) as Hperm.
  set (l := sorted a_updated_at true (articles self)) in *.
  split; [|split; [|split; [|split; [|split; [|split]]]]].
  - rewrite length_take, <- (Permutation_length Hperm). lia.
  - rewrite <- (take_drop 6 l) in Hsorted.
    by apply StronglySorted_app_1_l in Hsorted.
  - intros k. exists (filter (λ a, a_updated_at a = k) (drop 6 l)).
    rewrite <- filter_app, take_drop. unfold l.
    by rewrite (sorted_stable a_updated_at true).
  - exists (drop 6 l). split; [by rewrite take_drop|].
    intros a b Ha Hb. rewrite <- (take_drop 6 l) in Hsorted.
    by apply (StronglySorted_app_1_elem_of _ _ _ a b) in Hsorted.
  - exists (get_header_html "Home" "Get help with Userology" true true +:+
            homepage_intro +:+ cat_all (topic_card self <$> sections self)).
    apply homepage_html_eq.
  - exists (q "
                </div>

                "), (q "
                <div class=`article-grid`>
").
    vm_compute. reflexivity.
  - intros a. reflexivity.
Qed.

(** C5. The articles index lists every loaded article exactly once,
    whatever its [section_id]: its list is a rearrangement of the
    loaded articles, of the same length, in ascending order of title
    under the byte-wise (case-sensitive) order of texts; articles of
    equal title keep their input order; and the page renders the cards
    of the list, in this order, between its heading and its closing
    text.  The heading reads All Articles, and the card of an article
    is the link to the page of the article, under its title, with the
    names of the first loaded section of its [section_id] and of the
    first loaded category of that section, or [Unknown]. *)
Theorem articles_index_spec (w : World) (self : Generator) :
  articles_index_entries self ≡ₚ articles self ∧
  length (articles_index_entries self) = length (articles self) ∧
  StronglySorted (λ a b, String.le (a_title a) (a_title b))
                 (articles_index_entries self) ∧
  (∀ k, filter (λ a, a_title a = k) (articles_index_entries self) =
        filter (λ a, a_title a = k) (articles self)) ∧
  (∃ pre, articles_index_html w self =
          pre +:+ articles_index_heading +:+
          cat_all (articles_index_card self <$> articles_index_entries self) +:+
          articles_index_footer (now w)) ∧
  has_substring "<h1>All Articles</h1>" articles_index_heading ∧
  (∀ a, articles_index_card self a =
        index_card (a_id a) (a_title a)
          (match match next_by_id s_id (sections self) (a_section_id a) with
                 | Some s => next_by_id c_id (categories self) (s_category_id s)
                 | None => None
                 end with
           | Some c => c_name c
           | None => "Unknown"
           end)
          (match next_by_id s_id (sections self) (a_section_id a) with
           | Some s => s_name s
           | None => "Unknown"
           end)).
Proof.
  unfold articles_index_entries. split; [|split; [|split; [|split; [|split; [|split]]]]].
  - apply sorted_perm.
  - apply sorted_length.
  - apply (sorted_sorted a_title false).
  - intros k. apply sorted_stable.
  - exists (get_header_html "All Articles" "Browse all help articles" true true).
    apply articles_index_html_eq.
  - exists (q "
    <div class=`container`>
        <main class=`main`>
            <div class=`content`>
                "), (q "
                <div class=`article-grid`>
").
    vm_compute. reflexivity.
  - intros a. reflexivity.
Qed.

(** The order on titles tells the letter cases apart: every capital
    letter comes ahead of every small one. *)
Example articles_index_case_sensitive :
  a_title <$> sorted a_title false
     [mkArticle 1 "apple" None 10 "2024-01-01T00:00:00Z";
      mkArticle 2 "Zebra" None 10 "2024-01-02T00:00:00Z";
      mkArticle 3 "Apple" None 99 "2024-01-03T00:00:00Z"]
  = ["Apple"; "Zebra"; "apple"].
Proof. reflexivity. Qed.

Example popular_articles_ties :
  a_id <$> take 6 (sorted a_updated_at true
     [mkArticle 1 "a" None 10 "2024-01-01T00:00:00Z";
      mkArticle 2 "b" None 10 "2024-03-01T00:00:00Z";
      mkArticle 3 "c" None 10 "2024-01-01T00:00:00Z";
      mkArticle 4 "d" None 10 "2024-03-01T00:00:00Z";
      mkArticle 5 "e" None 10 "2024-02-01T00:00:00Z";
      mkArticle 6 "f" None 10 "2024-01-01T00:00:00Z";
      mkArticle 7 "g" None 10 "2023-01-01T00:00:00Z"])
  = [2; 4; 5; 1; 3; 6].
Proof. reflexivity. Qed.

(** ** The run in closed form *)

Lemma apply_writes_app ws1 ws2 m :
  apply_writes (ws1 ++ ws2) m = apply_writes ws2 (apply_writes ws1 m).
Proof. apply foldl_app. Qed.

Lemma apply_writes_cons p c ws m :
  apply_writes ((p, c) :: ws) m = apply_writes ws (<[p := c]> m).
Proof. reflexivity. Qed.

Lemma apply_writes_snoc ws p c m :
  apply_writes (ws ++ [(p, c)]) m = <[p := c]> (apply_writes ws m).
Proof. by rewrite apply_writes_app. Qed.

(** Every file of the tree after a sequence of writes is one of the
    writes or was there before. *)
Lemma apply_writes_lookup_inv ws m p c :
  apply_writes ws m !! p = Some c → (p, c) ∈ ws ∨ m !! p = Some c.
Proof.
  revert m. induction ws as [|[p' c'] ws IH]; intros m; [by right|].
  rewrite apply_writes_cons. intros [Hin|Hm]%IH.
  - left. by right.
  - destruct (decide (p' = p)) as [->|Hne].
    + rewrite lookup_insert_eq in Hm. simplify_eq. left. left.
    + rewrite lookup_insert_ne in Hm by done. by right.
Qed.

(** The writes sit on top of the tree they are applied to. *)
Lemma apply_writes_union ws m :
  apply_writes ws m = apply_writes ws ∅ ∪ m.
Proof.
  induction ws as [|[p c] ws IH] using rev_ind.
  - simpl. by rewrite (left_id_L ∅ (∪)).
  - rewrite !apply_writes_snoc, IH. by rewrite insert_union_l.
Qed.

Lemma apply_writes_idemp ws m :
  apply_writes ws (apply_writes ws m) = apply_writes ws m.
Proof.
  rewrite (apply_writes_union ws (apply_writes ws m)), (apply_writes_union ws m).
  by rewrite (assoc_L (∪)), (idemp_L (∪)).
Qed.

Lemma for_write_file {A} (l : list A) (path content : A → string) fs :
  for_ l (λ x, write_file (path x) (content x)) fs =
    (inr (), mkFS (dirs fs) (apply_writes ((λ x, (path x, content x)) <$> l) (files fs))).
Proof.
  revert fs. induction l as [|x l IH]; intros fs.
  - by destruct fs.
  - simpl. unfold mbind, M_bind, bind. simpl. by rewrite IH.
Qed.

Lemma create_videos_page_spec w fs :
  create_videos_page w fs =
    match videos_path w with
    | NotDir => (inl (NotADirectoryError videos_dir), fs)
    | d => (inr (), mkFS (dirs fs)
                      (<[videos_index_path := videos_page_html (listed_videos d)]> (files fs)))
    end.
Proof.
  unfold create_videos_page, collect_videos, mbind, M_bind, bind, listed_videos.
  by destruct (videos_path w).
Qed.

(** [create_all_pages] in closed form. *)
Lemma create_all_pages_spec w g fs :
  create_all_pages w g fs =
    (pages_status (videos_path w),
     mkFS (dirs fs) (apply_writes (all_writes w g) (files fs))).
Proof.
  unfold create_all_pages, mbind, M_bind, bind, create_css, create_javascript,
    create_homepage, create_categories_index, create_articles_index,
    create_category_page, create_section_page, create_article_page.
  unfold write_file at 1 2 3. cbn [dirs files].
  rewrite (for_write_file (categories g)). cbn [dirs files].
  rewrite (for_write_file (sections g)). cbn [dirs files].
  rewrite (for_write_file (articles g)). cbn [dirs files].
  unfold write_file. cbn [dirs files].
  rewrite create_videos_page_spec. cbn [dirs files].
  unfold all_writes, early_writes, videos_writes, pages_status.
  rewrite !apply_writes_app.
  destruct (videos_path w); reflexivity.
Qed.

(** The whole run in closed form. *)
Lemma main_spec w fs :
  main w fs =
    match load_error w with
    | Some e => (inl e, fs)
    | None =>
        (pages_status (videos_path w),
         mkFS (with_made_dirs (dirs fs))
              (apply_writes (all_writes w (loaded_generator w)) (files fs)))
    end.
Proof.
  unfold main, mbind, M_bind, bind, load_error, loaded_generator.
  rewrite init_spec.
  destruct (categories_json w), (sections_json w), (articles_json w); try done.
  by rewrite create_all_pages_spec.
Qed.

Lemma load_error_exn w e : load_error w = Some e → load_exn e.
Proof.
  unfold load_error, load_exn.
  destruct (categories_json w), (sections_json w), (articles_json w);
    intros [= <-]; try by auto; right; right;
    first [ exists "categories.json"; split; [apply list_elem_of_here|]; done
          | exists "sections.json"; split;
              [apply list_elem_of_further, list_elem_of_here|]; done
          | exists "articles.json"; split;
              [do 2 apply list_elem_of_further; apply list_elem_of_here|]; done ].
Qed.

Lemma load_error_None w :
  load_error w = None ↔
  ¬ load_fails (categories_json w) ∧ ¬ load_fails (sections_json w) ∧
  ¬ load_fails (articles_json w).
Proof.
  unfold load_error.
  destruct (categories_json w), (sections_json w), (articles_json w); simpl;
    split; try done; tauto.
Qed.

(** C8. When one of the three input files is missing, unreadable or not
    well-formed, the run ends with the exception of [load_json] and the
    output tree is what it was: no directory is made and no file is
    written. *)
Theorem load_failure_aborts w fs :
  load_fails (categories_json w) ∨ load_fails (sections_json w) ∨
    load_fails (articles_json w) →
  ∃ e, main w fs = (inl e, fs) ∧ load_exn e.
Proof.
  intros Hfail. rewrite main_spec.
  destruct (load_error w) as [e|] eqn:He.
  - exists e. split; [done|]. by eapply load_error_exn.
  - apply load_error_None in He. tauto.
Qed.

Lemma load_failure_aborts_witness :
  ∃ e, main (mkWorld (Loaded [mkCategory 1 "Setup" None]) Malformed
                     (Loaded []) NoDir "2025-01-01 00:00:00") empty_fs
       = (inl e, empty_fs) ∧ load_exn e.
Proof.
  apply (load_failure_aborts
           (mkWorld (Loaded [mkCategory 1 "Setup" None]) Malformed
                    (Loaded []) NoDir "2025-01-01 00:00:00") empty_fs).
  right. left. simpl. exact I.
Defined.


(** ** Text: suffixes *)

Lemma str_length_app (a b : string) :
  String.length (a +:+ b) = (String.length a + String.length b)%nat.
Proof.
  induction a as [|x a IH]; [done|].
  rewrite str_app_cons. simpl. by rewrite IH.
Qed.

Lemma substring_all (s : string) : substring 0 (String.length s) s = s.
Proof. induction s as [|x s IH]; simpl; [done|]. by rewrite IH. Qed.

Lemma substring_app_r (a b : string) :
  substring (String.length a) (String.length b) (a +:+ b) = b.
Proof.
  induction a as [|x a IH]; [apply substring_all|].
  rewrite str_app_cons. simpl. exact IH.
Qed.

Lemma substring_split (k : nat) (s : string) :
  (k ≤ String.length s)%nat →
  s = substring 0 k s +:+ substring k (String.length s - k) s.
Proof.
  revert k. induction s as [|x s IH]; intros k Hk.
  - simpl in Hk. assert (k = 0%nat) as -> by lia. done.
  - destruct k as [|k].
    + simpl. by rewrite substring_all.
    + simpl in Hk. simpl. rewrite str_app_cons. f_equal. apply IH. lia.
Qed.

(** [endswith] decides whether a text ends in a suffix. *)
Lemma endswith_spec (s suffix : string) :
  endswith s suffix = true ↔ ∃ stem, s = stem +:+ suffix.
Proof.
  unfold endswith. split.
  - destruct (Nat.leb_spec (String.length suffix) (String.length s)) as [Hle|]; [|done].
    intros Heq%String.eqb_eq.
    exists (substring 0 (String.length s - String.length suffix) s).
    pose proof (substring_split (String.length s - String.length suffix) s) as Hsplit.
    replace (String.length s - (String.length s - String.length suffix))%nat
      with (String.length suffix) in Hsplit by lia.
    rewrite Heq in Hsplit. apply Hsplit. lia.
  - intros [stem ->]. rewrite str_length_app.
    rewrite (proj2 (Nat.leb_le _ _)) by lia.
    replace (String.length stem + String.length suffix - String.length suffix)%nat
      with (String.length stem) by lia.
    rewrite substring_app_r. apply String.eqb_refl.
Qed.

(** ** The videos index *)

Lemma listed_videos_perm d1 d2 :
  same_listing d1 d2 → listed_videos d1 = listed_videos d2.
Proof.
  destruct d1 as [| |e1], d2 as [| |e2]; simpl; try done.
  intros Hperm. f_equal. apply sorted_id_perm. by rewrite Hperm.
Qed.

Lemma listed_videos_filenames entries :
  v_filename <$> listed_videos (Dir entries) =
  sorted id false (filter (λ f, endswith f ".mp4" = true) entries).
Proof.
  simpl. rewrite <- list_fmap_compose. apply list_fmap_id.
Qed.

Lemma all_writes_snoc w g :
  videos_path w ≠ NotDir →
  all_writes w g =
    (early_writes g ++ [(articles_index_path, articles_index_html w g)]) ++
    [(videos_index_path, videos_page_html (listed_videos (videos_path w)))].
Proof.
  intros Hv. unfold all_writes, videos_writes. rewrite <- (assoc_L (++)).
  by destruct (videos_path w).
Qed.

(** A run that ends without an exception has loaded its three inputs
    and listed the [videos] path. *)
Lemma main_inr w fs :
  (main w fs).1 = inr () →
  load_error w = None ∧ videos_path w ≠ NotDir.
Proof.
  rewrite main_spec. destruct (load_error w); [done|]. simpl.
  intros Hok. split; [done|]. by destruct (videos_path w).
Qed.

Lemma main_videos_index w fs :
  (main w fs).1 = inr () →
  files (main w fs).2 !! videos_index_path =
    Some (videos_page_html (listed_videos (videos_path w))).
Proof.
  intros [He Hv]%main_inr.
  rewrite main_spec, He. cbn [snd files].
  rewrite all_writes_snoc by done.
  rewrite apply_writes_snoc. apply lookup_insert_eq.
Qed.

(** C9, as the code has it.  The videos index has one card for each
    entry of the [videos] directory whose name ends in [.mp4], in
    ascending order of file name; an entry of another name has no card.
    The card of a file plays [videos/<file name>] and shows the
    description that the fixed table gives for the file name, an empty
    one when the table has none.  This holds for file names that are
    UTF-8: a name that is not does not encode, and the write of the
    page raises.  When there is no [videos] path the page is written
    with no card.  The page is the shell around the cards, and in two
    runs that find the same [videos] directory it is the same page
    whatever records were loaded. *)
Theorem videos_index_spec (w : World) :
  (∀ f, endswith f ".mp4" = true ↔ ∃ stem, f = stem +:+ ".mp4") ∧
  (∀ entries, videos_path w = Dir entries →
     Forall (λ f, utf8_text f = true) (filter (λ f, endswith f ".mp4" = true) entries) →
     v_filename <$> listed_videos (videos_path w)
       ≡ₚ filter (λ f, endswith f ".mp4" = true) entries ∧
     StronglySorted String.le (v_filename <$> listed_videos (videos_path w)) ∧
     (∀ v, v ∈ listed_videos (videos_path w) →
          v_description v = default EmptyString (video_descriptions !! v_filename v) ∧
          (video_descriptions !! v_filename v = None → v_description v = EmptyString)) ∧
     (∀ fs, collect_videos w fs = (inr (listed_videos (videos_path w)), fs) ∧
        create_videos_page w fs =
          (inr (), mkFS (dirs fs)
                     (<[videos_index_path :=
                          videos_page_html (listed_videos (videos_path w))]>
                        (files fs))))) ∧
  (videos_path w = NoDir →
     listed_videos (videos_path w) = [] ∧
     ∀ fs, collect_videos w fs = (inr [], fs) ∧
           create_videos_page w fs =
             (inr (), mkFS (dirs fs)
                        (<[videos_index_path := videos_page_html []]> (files fs)))) ∧
  (∀ vs, videos_page_html vs =
         get_header_html "Video Tutorials"
           "Watch video tutorials to learn how to use Userology" true true +:+
         videos_intro +:+ cat_all (video_card <$> vs) +:+ videos_end +:+
         get_footer_html true true) ∧
  (∀ v, video_card v = video_card_text (v_filename v) (v_title v) (v_description v)) ∧
  (∀ f description, video_descriptions !! f = Some description →
     video_card (video_entry f) = video_card_text f (splitext f).1 description) ∧
  (∀ f, video_descriptions !! f = None →
     video_card (video_entry f) = video_card_text f (splitext f).1 EmptyString) ∧
  (∀ w' fs fs', videos_path w' = videos_path w →
     (main w fs).1 = inr () → (main w' fs').1 = inr () →
     files (main w fs).2 !! videos_index_path =
     files (main w' fs').2 !! videos_index_path).
Proof.
  split; [intros f; apply endswith_spec|].
  split; [|split; [|split; [|split; [|split; [|split]]]]].
  - intros entries Hdir _. rewrite Hdir, listed_videos_filenames.
    split; [apply sorted_perm|]. split; [apply (sorted_sorted id false)|]. split.
    + intros v Hv. cbn [listed_videos] in Hv.
      apply list_elem_of_fmap in Hv as (f & -> & _).
      unfold video_entry. cbn [v_description v_filename].
      split; [done|]. by intros ->.
    + intros fs. rewrite create_videos_page_spec. unfold collect_videos.
      by rewrite Hdir.
  - intros Hno. rewrite Hno. split; [done|].
    intros fs. rewrite create_videos_page_spec. unfold collect_videos.
    by rewrite Hno.
  - intros vs. unfold videos_page_html.
    by rewrite for_each_cat_all, !str_app_assoc.
  - intros v. reflexivity.
  - intros f description Hf. unfold video_entry, video_card, video_card_text.
    cbn [v_filename v_title v_description]. by rewrite Hf.
  - intros f Hf. unfold video_entry, video_card, video_card_text.
    cbn [v_filename v_title v_description]. by rewrite Hf.
  - intros w' fs fs' Hsame Hok Hok'.
    by rewrite !main_videos_index, Hsame.
Qed.

(** File names of plain letters encode; a lone byte of the upper half
    does not, nor does a surrogate written as three bytes. *)
Example utf8_text_examples :
  utf8_text "intro.mp4" = true ∧ utf8_text "Vidéo.mp4" = true ∧
  utf8_text (String "233" ".mp4") = false ∧
  utf8_text (String "237" (String "178" (String "128" ".mp4"))) = false.
Proof. repeat split; vm_compute; reflexivity. Qed.

Lemma videos_index_spec_witness :
  videos_path mixed_videos_world = Dir ["intro.mp4"; "notes.txt"] ∧
  Forall (λ f, utf8_text f = true)
         (filter (λ f, endswith f ".mp4" = true) ["intro.mp4"; "notes.txt"]) ∧
  v_filename <$> listed_videos (videos_path mixed_videos_world)
    ≡ₚ filter (λ f, endswith f ".mp4" = true) ["intro.mp4"; "notes.txt"].
Proof.
  assert (Forall (λ f, utf8_text f = true)
            (filter (λ f, endswith f ".mp4" = true) ["intro.mp4"; "notes.txt"])) as Hutf8.
  { apply Forall_forall. intros f [Hf Hin]%list_elem_of_filter.
    rewrite !elem_of_cons, elem_of_nil in Hin.
    destruct Hin as [->|[->|[]]]; [reflexivity|discriminate Hf]. }
  split; [reflexivity|]. split; [exact Hutf8|].
  exact (proj1 (proj1 (proj2 (videos_index_spec mixed_videos_world))
                  ["intro.mp4"; "notes.txt"] eq_refl Hutf8)).
Defined.

(** C9 as stated fails: a file of the directory whose name does not end
    in [.mp4] gets no card, and the page written is the one of a
    directory without that file. *)
Lemma videos_index_skips_other_files :
  collect_videos mixed_videos_world empty_fs =
    (inr [mkVideo "intro.mp4" "intro" EmptyString], empty_fs) ∧
  create_videos_page mixed_videos_world empty_fs =
    create_videos_page only_videos_world empty_fs.
Proof. split; vm_compute; reflexivity. Qed.

(** ** Running twice *)

Lemma with_made_dirs_idemp d : with_made_dirs (with_made_dirs d) = with_made_dirs d.
Proof.
  unfold with_made_dirs. apply set_eq. intros x.
  rewrite !elem_of_union. tauto.
Qed.

(** Writes that agree except at one path leave trees that agree except
    at that path. *)
Lemma apply_writes_agree (K : string) ws (m1 m2 : gmap string string) :
  (∀ p, p ≠ K → m1 !! p = m2 !! p) →
  ∀ p, p ≠ K → apply_writes ws m1 !! p = apply_writes ws m2 !! p.
Proof.
  revert m1 m2. induction ws as [|[p' c'] ws IH]; intros m1 m2 Hm; [done|].
  rewrite !apply_writes_cons. apply IH. intros p Hp.
  destruct (decide (p' = p)) as [->|Hne].
  - by rewrite !lookup_insert_eq.
  - rewrite !lookup_insert_ne by done. by apply Hm.
Qed.

Lemma same_input_load_error w1 w2 :
  same_input w1 w2 → load_error w1 = load_error w2.
Proof. intros (Hc & Hs & Ha & _). unfold load_error. by rewrite Hc, Hs, Ha. Qed.

Lemma same_input_generator w1 w2 :
  same_input w1 w2 → loaded_generator w1 = loaded_generator w2.
Proof. intros (Hc & Hs & Ha & _). unfold loaded_generator. by rewrite Hc, Hs, Ha. Qed.

Lemma same_listing_status d1 d2 :
  same_listing d1 d2 → pages_status d1 = pages_status d2.
Proof. by destruct d1, d2. Qed.

Lemma same_listing_writes d1 d2 :
  same_listing d1 d2 → videos_writes d1 = videos_writes d2.
Proof.
  intros Hsame. pose proof (listed_videos_perm _ _ Hsame) as Hvideos.
  destruct d1, d2; try done. unfold videos_writes. by rewrite Hvideos.
Qed.

(** C1, as the code has it.  Two runs on the same records and the same
    [videos] directory end the same way, make the same directories and
    write the same bytes to every file except [articles.html], whose
    closing text carries the time of the run; when the clock reads the
    same in both, the whole tree is the same.  A run on top of its own
    output, at the same clock reading, changes nothing. *)
Theorem rerun_spec (w1 w2 : World) (fs : FS) :
  same_input w1 w2 →
  (main w1 fs).1 = (main w2 fs).1 ∧
  dirs (main w1 fs).2 = dirs (main w2 fs).2 ∧
  (∀ p, p ≠ articles_index_path →
        files (main w1 fs).2 !! p = files (main w2 fs).2 !! p) ∧
  (now w1 = now w2 → main w1 fs = main w2 fs) ∧
  main w1 (main w1 fs).2 = main w1 fs.
Proof.
  intros Hsame.
  pose proof (same_input_load_error _ _ Hsame) as Herr.
  pose proof (same_input_generator _ _ Hsame) as Hgen.
  destruct Hsame as (_ & _ & _ & Hlist).
  pose proof (same_listing_status _ _ Hlist) as Hstatus.
  pose proof (same_listing_writes _ _ Hlist) as Hwrites.
  rewrite !main_spec, <- Herr.
  destruct (load_error w1) as [e|]; [done|].
  cbn [fst snd dirs files].
  split; [done|]. split; [done|]. split; [|split].
  - unfold all_writes. rewrite <- Hgen, <- Hwrites.
    rewrite !apply_writes_app. apply apply_writes_agree.
    intros p Hp. rewrite !apply_writes_cons. simpl.
    by rewrite !lookup_insert_ne.
  - intros Hnow. rewrite Hstatus. do 2 f_equal.
    unfold all_writes, articles_index_html. by rewrite Hgen, Hwrites, Hnow.
  - by rewrite with_made_dirs_idemp, apply_writes_idemp.
Qed.

Lemma rerun_spec_witness :
  (∀ p, p ≠ articles_index_path →
     files (main (scenario_at "2025-01-01 00:00:00") empty_fs).2 !! p =
     files (main (scenario_at "2025-12-31 23:59:59") empty_fs).2 !! p) ∧
  main (scenario_at "2025-01-01 00:00:00")
       (main (scenario_at "2025-01-01 00:00:00") empty_fs).2 =
  main (scenario_at "2025-01-01 00:00:00") empty_fs.
Proof.
  assert (Hsame : same_input (scenario_at "2025-01-01 00:00:00")
                             (scenario_at "2025-12-31 23:59:59")).
  { repeat split. }
  destruct (rerun_spec _ _ empty_fs Hsame) as (_ & _ & Hfiles & _ & Hrerun).
  split; [exact Hfiles|exact Hrerun].
Defined.

(** C1 as stated fails: the same input run at two moments gives two
    different [articles.html]. *)
Lemma rerun_changes_articles_index :
  (main (scenario_at "2025-01-01 00:00:00") empty_fs).1 = inr () ∧
  (main (scenario_at "2025-01-01 00:00:01") empty_fs).1 = inr () ∧
  files (main (scenario_at "2025-01-01 00:00:00") empty_fs).2 !! articles_index_path ≠
  files (main (scenario_at "2025-01-01 00:00:01") empty_fs).2 !! articles_index_path.
Proof.
  split; [reflexivity|]. split; [reflexivity|].
  intros Heq. apply (bool_decide_eq_true_2 _) in Heq.
  vm_compute in Heq. discriminate Heq.
Qed.

(** ** Text: searching *)

Lemma starts_with_sound (p s : string) :
  starts_with p s = true → ∃ post, s = p +:+ post.
Proof.
  revert s. induction p as [|a p IH]; intros s; simpl.
  - intros _. by exists s.
  - destruct s as [|b s]; [done|].
    intros [Hab Hps]%andb_prop. apply Ascii.eqb_eq in Hab as ->.
    destruct (IH s Hps) as [post ->]. by exists post.
Qed.

Lemma containsb_sound (needle s : string) :
  containsb needle s = true → has_substring needle s.
Proof.
  induction s as [|c s IH]; simpl.
  - rewrite orb_false_r. intros [post ->]%starts_with_sound.
    by exists EmptyString, post.
  - intros [Hhere|Hlater]%orb_prop.
    + apply starts_with_sound in Hhere as [post ->]. by exists EmptyString, post.
    + destruct (IH Hlater) as (pre & post & ->). by exists (String c pre), post.
Qed.

Lemma has_substring_app_mid (needle a b c d : string) :
  has_substring needle (a +:+ b +:+ c) →
  has_substring needle (a +:+ b +:+ c +:+ d).
Proof.
  intros H. rewrite <- (str_app_assoc b c d), <- (str_app_assoc a (b +:+ c) d).
  by apply has_substring_app_l.
Qed.

Lemma has_substring_for_each {A} (needle : string) (l : list A) body h :
  has_substring needle h → has_substring needle (for_each l body h).
Proof. intros H. rewrite for_each_cat_all. by apply has_substring_app_l. Qed.

Lemma string_forall_app (P : ascii → bool) (a b : string) :
  string_forall P (a +:+ b) = string_forall P a && string_forall P b.
Proof.
  induction a as [|x a IH]; [done|].
  rewrite str_app_cons. simpl. by rewrite IH, andb_assoc.
Qed.

Lemma count_char_app (c : ascii) (a b : string) :
  count_char c (a +:+ b) = (count_char c a + count_char c b)%nat.
Proof.
  induction a as [|x a IH]; [done|].
  rewrite str_app_cons. simpl. rewrite IH. lia.
Qed.

Lemma count_char_forall (c : ascii) (s : string) :
  string_forall (λ x, negb (Ascii.eqb x c)) s = true → count_char c s = 0%nat.
Proof.
  induction s as [|x s IH]; simpl; [done|].
  intros [Hx Hs]%andb_prop. rewrite IH by done.
  by destruct (Ascii.eqb x c).
Qed.

(** ** Numerals *)

Lemma pretty_N_char_numeral (d : N) : numeral_char (pretty_N_char d) = true.
Proof. unfold pretty_N_char. by repeat case_match. Qed.

Lemma pretty_N_go_numeral (x : N) (s : string) :
  string_forall numeral_char s = true →
  string_forall numeral_char (pretty_N_go x s) = true.
Proof.
  revert s. induction (N.lt_wf_0 x) as [x _ IH]; intros s Hs.
  assert (x = 0 ∨ 0 < x)%N as [->|Hpos] by lia.
  - by rewrite pretty_N_go_0.
  - rewrite pretty_N_go_step by done. apply IH.
    + by apply N.div_lt.
    + simpl. by rewrite pretty_N_char_numeral, Hs.
Qed.

Lemma pretty_N_numeral (x : N) : string_forall numeral_char (pretty x) = true.
Proof.
  unfold pretty, pretty_N. case_decide; [done|].
  by apply pretty_N_go_numeral.
Qed.

(** [str] of an integer is a numeral. *)
Lemma str_Z_numeral (z : Z) : string_forall numeral_char (str z) = true.
Proof.
  unfold str, pretty, pretty_Z. destruct z as [|p|p]; [done|..].
  - apply (pretty_N_numeral (Npos p)).
  - rewrite string_forall_app. apply andb_true_intro.
    split; [done|apply (pretty_N_numeral (Npos p))].
Qed.

Lemma str_nat_numeral (n : nat) : string_forall numeral_char (str n) = true.
Proof. apply pretty_N_numeral. Qed.

Lemma string_forall_impl (P Q : ascii → bool) (s : string) :
  (∀ c, P c = true → Q c = true) →
  string_forall P s = true → string_forall Q s = true.
Proof.
  intros HPQ. induction s as [|x s IH]; simpl; [done|].
  intros [Hx Hs]%andb_prop. by rewrite (HPQ x Hx), IH.
Qed.

Lemma numeral_char_not (c x : ascii) :
  numeral_char c = false → numeral_char x = true → negb (Ascii.eqb x c) = true.
Proof.
  intros Hc Hx. destruct (Ascii.eqb_spec x c) as [->|]; [|done]. congruence.
Qed.

Lemma str_Z_no_slash (z : Z) : count_char "/" (str z) = 0%nat.
Proof.
  apply count_char_forall.
  eapply string_forall_impl; [|apply str_Z_numeral].
  intros c. by apply numeral_char_not.
Qed.

(** ** The page shell *)


(** The footer rendered with a script tag carries the prefix too. *)
Lemma footer_script is_root :
  has_substring (script_link (shell_prefix is_root)) (get_footer_html is_root true).
Proof. destruct is_root; apply containsb_sound; vm_compute; reflexivity. Qed.









(** ** The files of a run *)

Lemma all_writes_page_of w g p c :
  (p, c) ∈ all_writes w g → page_of w g p c.
Proof.
  unfold all_writes, early_writes, videos_writes.
  rewrite !elem_of_app, !elem_of_cons, !list_elem_of_fmap.
  intros [[[?|[?|[?|?%elem_of_nil]]]|[(x & ? & ?)|[(x & ? & ?)|[(x & ? & ?)|[?|?%elem_of_nil]]]]]
         |[[?|?%elem_of_nil]|Hv]]; simplify_eq; try done; try by constructor.
  destruct (videos_path w) eqn:Ev.
  - apply list_elem_of_singleton in Hv. simplify_eq.
    rewrite <- Ev. constructor. by rewrite Ev.
  - by apply elem_of_nil in Hv.
  - apply list_elem_of_singleton in Hv. simplify_eq.
    rewrite <- Ev. constructor. by rewrite Ev.
Qed.

(** A file of the tree after a run from an empty tree is a file the run
    wrote. *)
Lemma main_files_page_of w p c :
  files (main w empty_fs).2 !! p = Some c → page_of w (loaded_generator w) p c.
Proof.
  rewrite main_spec. destruct (load_error w); [done|]. cbn [snd files].
  intros [Hin|Hempty]%apply_writes_lookup_inv; [|done].
  by apply all_writes_page_of.
Qed.

Lemma rel_depth_category c : rel_depth (category_path c) = 1%nat.
Proof.
  unfold rel_depth, category_path.
  by rewrite !count_char_app, str_Z_no_slash.
Qed.

Lemma rel_depth_section s : rel_depth (section_path s) = 1%nat.
Proof.
  unfold rel_depth, section_path.
  by rewrite !count_char_app, str_Z_no_slash.
Qed.

Lemma rel_depth_article a : rel_depth (article_path a) = 1%nat.
Proof.
  unfold rel_depth, article_path.
  by rewrite !count_char_app, str_Z_no_slash.
Qed.

(** Two closed texts that differ. *)
Ltac closed_neq H :=
  apply (bool_decide_eq_true_2 _) in H; vm_compute in H; discriminate H.

Lemma subdir_not_root p p' :
  rel_depth p = 1%nat → rel_depth p' = 0%nat → p ≠ p'.
Proof. intros H1 H0 ->. congruence. Qed.



(** ** Unresolved references *)

Lemma foldr_app_tail (ms : list string) (x y : string) :
  foldr String.append (x +:+ y) ms = foldr String.append x ms +:+ y.
Proof.
  induction ms as [|m ms IH]; simpl; [done|].
  by rewrite IH, str_app_assoc.
Qed.

(** A needle that starts at the end of one piece of a text, runs over
    the pieces that follow and stops at the start of a later piece. *)
Lemma sub_frame (a n1 : string) (ms : list string) (n2 c rest : string) :
  endswith a n1 = true → starts_with n2 c = true →
  has_substring (n1 +:+ foldr String.append n2 ms)
                (a +:+ foldr String.append (c +:+ rest) ms).
Proof.
  intros [pre ->]%endswith_spec [post ->]%starts_with_sound.
  exists pre, (post +:+ rest).
  rewrite (str_app_assoc n2 post rest), !foldr_app_tail.
  by rewrite !str_app_assoc.
Qed.

Lemma sub_frame_end (a n1 : string) (ms : list string) (n2 c : string) :
  endswith a n1 = true → starts_with n2 c = true →
  has_substring (n1 +:+ foldr String.append n2 ms)
                (a +:+ foldr String.append c ms).
Proof.
  intros Ha Hc. rewrite <- (str_app_nil_r c). by apply sub_frame.
Qed.

Lemma next_by_id_None {A} (id_of : A → Z) (l : list A) (id : Z) :
  id ∉ id_of <$> l → next_by_id id_of l id = None.
Proof.
  unfold next_by_id. induction l as [|x l IH]; simpl; [done|].
  rewrite not_elem_of_cons. intros [Hne Hnin].
  rewrite bool_decide_eq_false_2 by done. by apply IH.
Qed.

Lemma next_by_id_Some {A} (id_of : A → Z) (l : list A) (id : Z) (x : A) :
  next_by_id id_of l id = Some x → x ∈ l ∧ id_of x = id.
Proof.
  unfold next_by_id. induction l as [|y l IH]; simpl; [done|].
  case_bool_decide as Hy.
  - intros [= ->]. split; [left|done].
  - intros [Hin Hid]%IH. split; [by right|done].
Qed.

Lemma init_loaded w fs g fs' :
  init w fs = (inr g, fs') → g = loaded_generator w ∧ load_error w = None.
Proof.
  rewrite init_spec. unfold loaded_generator, load_error, generator_of.
  destruct (categories_json w), (sections_json w), (articles_json w);
    intros [= <- <-]; done.
Qed.

Lemma section_page_html_eq g s :
  section_page_html g s =
    get_header_html (s_name s) "Your complete guide to using Userology" false false +:+
    section_page_intro s +:+
    cat_all (section_sidebar_item <$> default [] (articles_by_section g !! s_id s)) +:+
    section_page_middle s +:+
    cat_all (section_article_row <$> default [] (articles_by_section g !! s_id s)) +:+
    section_page_footer.
Proof.
  unfold section_page_html. by rewrite !for_each_cat_all, !str_app_assoc.
Qed.

(** The breadcrumb of an article page, whatever the two labels. *)
Lemma article_page_breadcrumb g a :
  has_substring
    (article_breadcrumb
       (match match next_by_id s_id (sections g) (a_section_id a) with
              | Some s => next_by_id c_id (categories g) (s_category_id s)
              | None => None
              end with
        | Some c => c_name c
        | None => "Unknown"
        end)
       (match next_by_id s_id (sections g) (a_section_id a) with
        | Some s => s_name s
        | None => "Unknown"
        end))
    (article_page_html g a).
Proof.
  unfold article_page_html.
  set (section := next_by_id s_id (sections g) (a_section_id a)).
  set (category := match section with
                   | Some s => next_by_id c_id (categories g) (s_category_id s)
                   | None => None
                   end).
  apply has_substring_app_r. unfold article_page_content, article_breadcrumb.
  do 2 apply has_substring_app_r.
  match goal with
  | |- has_substring (?n1 +:+ ?m1 +:+ ?m2 +:+ ?m3 +:+ ?n2)
                     (?a' +:+ ?m1 +:+ ?m2 +:+ ?m3 +:+ ?c +:+ ?rest) =>
      apply (sub_frame a' n1 [m1; m2; m3] n2 c rest)
  end; vm_compute; reflexivity.
Qed.

Lemma articles_index_card_breadcrumb g a :
  has_substring
    (index_breadcrumb
       (match match next_by_id s_id (sections g) (a_section_id a) with
              | Some s => next_by_id c_id (categories g) (s_category_id s)
              | None => None
              end with
        | Some c => c_name c
        | None => "Unknown"
        end)
       (match next_by_id s_id (sections g) (a_section_id a) with
        | Some s => s_name s
        | None => "Unknown"
        end))
    (articles_index_card g a).
Proof.
  unfold articles_index_card, index_breadcrumb.
  do 4 apply has_substring_app_r.
  match goal with
  | |- has_substring (?n1 +:+ ?m1 +:+ ?m2 +:+ ?m3 +:+ ?n2)
                     (?a' +:+ ?m1 +:+ ?m2 +:+ ?m3 +:+ ?c) =>
      apply (sub_frame_end a' n1 [m1; m2; m3] n2 c)
  end; vm_compute; reflexivity.
Qed.

Lemma popular_card_label g a :
  has_substring
    (popular_label
       (match next_by_id s_id (sections g) (a_section_id a) with
        | Some s => s_name s
        | None => "Unknown"
        end))
    (popular_card g a).
Proof.
  unfold popular_card, popular_label.
  do 4 apply has_substring_app_r.
  match goal with
  | |- has_substring (?n1 +:+ ?m1 +:+ ?n2) (?a' +:+ ?m1 +:+ ?c) =>
      apply (sub_frame_end a' n1 [m1] n2 c)
  end; vm_compute; reflexivity.
Qed.

Lemma all_writes_article w g a :
  a ∈ articles g → (article_path a, article_page_html g a) ∈ all_writes w g.
Proof.
  intros Ha. unfold all_writes, early_writes.
  apply elem_of_app. left. do 3 (apply elem_of_app; right).
  apply elem_of_app. left.
  by apply (list_elem_of_fmap_2 (λ a, (article_path a, article_page_html g a))).
Qed.

Lemma all_writes_articles_index w g :
  (articles_index_path, articles_index_html w g) ∈ all_writes w g.
Proof.
  unfold all_writes. apply elem_of_app. right. apply elem_of_app. left.
  apply list_elem_of_here.
Qed.

Lemma articles_index_lists w g a :
  a ∈ articles g → has_substring (articles_index_card g a) (articles_index_html w g).
Proof.
  intros Ha. rewrite articles_index_html_eq.
  do 2 apply has_substring_app_r. apply has_substring_app_l.
  apply (has_substring_cat_all _ _ (articles_index_card g a)).
  - apply list_elem_of_fmap_2. unfold articles_index_entries.
    by rewrite sorted_perm.
  - apply has_substring_refl.
Qed.

(** C6. A reference that does not resolve aborts nothing and drops no
    page: the run writes the page of every loaded article and the
    articles index, which has the card of every loaded article.  An
    article whose [section_id] is the id of no loaded section has
    "Unknown → Unknown" as its breadcrumb on its own page and on its
    card of the articles index, "Unknown" as its section on a homepage
    card, and is in the article list of no section page.  An article
    whose section is loaded but names no loaded category has "Unknown"
    in the category slot, ahead of the name of the section. *)
Theorem dangling_references_render_unknown w fs g fs' (a : Article) :
  init w fs = (inr g, fs') →
  a ∈ articles g →
  main w fs =
    (pages_status (videos_path w),
     mkFS (with_made_dirs (dirs fs)) (apply_writes (all_writes w g) (files fs))) ∧
  (article_path a, article_page_html g a) ∈ all_writes w g ∧
  (articles_index_path, articles_index_html w g) ∈ all_writes w g ∧
  has_substring (articles_index_card g a) (articles_index_html w g) ∧
  (a_section_id a ∉ s_id <$> sections g →
     has_substring (article_breadcrumb "Unknown" "Unknown") (article_page_html g a) ∧
     has_substring (index_breadcrumb "Unknown" "Unknown") (articles_index_card g a) ∧
     has_substring (popular_label "Unknown") (popular_card g a) ∧
     ∀ s, s ∈ sections g → a ∉ default [] (articles_by_section g !! s_id s)) ∧
  (∀ s, next_by_id s_id (sections g) (a_section_id a) = Some s →
     s_category_id s ∉ c_id <$> categories g →
     has_substring (article_breadcrumb "Unknown" (s_name s)) (article_page_html g a) ∧
     has_substring (index_breadcrumb "Unknown" (s_name s)) (articles_index_card g a)) ∧
  (∀ s, section_page_html g s =
     get_header_html (s_name s) "Your complete guide to using Userology" false false +:+
     section_page_intro s +:+
     cat_all (section_sidebar_item <$> default [] (articles_by_section g !! s_id s)) +:+
     section_page_middle s +:+
     cat_all (section_article_row <$> default [] (articles_by_section g !! s_id s)) +:+
     section_page_footer).
Proof.
  intros Hinit Ha.
  destruct (init_loaded _ _ _ _ Hinit) as [Hg Herr].
  split; [by rewrite main_spec, Herr, Hg|].
  split; [by apply all_writes_article|].
  split; [apply all_writes_articles_index|].
  split; [by apply articles_index_lists|].
  split; [|split; [|apply section_page_html_eq]].
  - intros Hdangling.
    pose proof (article_page_breadcrumb g a) as Hpage.
    pose proof (articles_index_card_breadcrumb g a) as Hcard.
    pose proof (popular_card_label g a) as Hpop.
    rewrite (next_by_id_None s_id _ _ Hdangling) in Hpage, Hcard, Hpop.
    split; [done|]. split; [done|]. split; [done|].
    intros s Hs Hin.
    assert (articles_by_section g = (build_indexes (sections g) (articles g)).2) as Habs.
    { by rewrite Hg. }
    rewrite Habs, articles_by_section_lookup in Hin.
    rewrite decide_True in Hin by (by apply list_elem_of_fmap_2).
    simpl in Hin. apply list_elem_of_filter in Hin as [Heq _].
    apply Hdangling. rewrite Heq. by apply list_elem_of_fmap_2.
  - intros s Hs Hcat.
    pose proof (article_page_breadcrumb g a) as Hpage.
    pose proof (articles_index_card_breadcrumb g a) as Hcard.
    rewrite Hs, (next_by_id_None c_id _ _ Hcat) in Hpage, Hcard.
    done.
Qed.

Lemma dangling_references_render_unknown_witness :
  has_substring (article_breadcrumb "Unknown" "Unknown")
    (article_page_html (loaded_generator articles_by_section_world) dangling_article) ∧
  has_substring (index_breadcrumb "Unknown" "Unknown")
    (articles_index_card (loaded_generator articles_by_section_world) dangling_article) ∧
  has_substring
    (articles_index_card (loaded_generator articles_by_section_world) dangling_article)
    (articles_index_html articles_by_section_world
       (loaded_generator articles_by_section_world)).
Proof.
  destruct (dangling_references_render_unknown articles_by_section_world empty_fs
              (loaded_generator articles_by_section_world) _ dangling_article
              (init_spec articles_by_section_world empty_fs))
    as (_ & _ & _ & Hlisted & Hsection & _).
  - apply list_elem_of_further, list_elem_of_here.
  - destruct Hsection as (Hpage & Hcard & _).
    + intros Hin. closed_neq Hin.
    + split; [exact Hpage|]. split; [exact Hcard|exact Hlisted].
Defined.

(** ** Script tags *)

(** The scanner at work: tag names are read in any letter case, a tag
    in a comment is passed over, and a tag whose opening is broken off
    is found when it starts anew. *)
Example scan_examples :
  has_active_script (q "<p>text</p><SCRIPT src=`x.js`></SCRIPT>") = true ∧
  has_active_script (q "<!-- <script src=`js/main.js`></script> --><p>text</p>") = false ∧
  has_active_script "<scr<script>" = true ∧
  has_active_script "a javascript: description" = false.
Proof. repeat split. Qed.

Lemma scan_app (st : scan_state) (a b : string) :
  scan st (a +:+ b) = scan (scan st a) b.
Proof.
  revert st. induction a as [|x a IH]; intros st; [done|].
  rewrite str_app_cons. simpl. apply IH.
Qed.

Lemma scan_Text_app (a b : string) :
  scan Text a = Text → scan Text b = Text → scan Text (a +:+ b) = Text.
Proof. intros Ha Hb. by rewrite scan_app, Ha. Qed.

Lemma scan_plain (s : string) : plain s = true → scan Text s = Text.
Proof.
  unfold plain. induction s as [|x s IH]; simpl; [done|].
  intros [Hx Hs]%andb_prop. apply negb_true_iff in Hx. rewrite Hx. by apply IH.
Qed.

Lemma scan_cat_all {A} (f : A → string) (l : list A) :
  (∀ x, x ∈ l → scan Text (f x) = Text) → scan Text (cat_all (f <$> l)) = Text.
Proof.
  induction l as [|x l IH]; intros Hl; simpl; [done|].
  apply scan_Text_app.
  - apply Hl. left.
  - apply IH. intros y Hy. apply Hl. by right.
Qed.

Lemma str_Z_plain (z : Z) : plain (str z) = true.
Proof.
  eapply string_forall_impl; [|apply str_Z_numeral].
  intros c. by apply numeral_char_not.
Qed.

Lemma str_nat_plain (n : nat) : plain (str n) = true.
Proof.
  eapply string_forall_impl; [|apply str_nat_numeral].
  intros c. by apply numeral_char_not.
Qed.

Lemma table_plain (l : list (string * string)) (k : string) (dflt : string) :
  Forall (λ kv, plain kv.2 = true) l → plain dflt = true →
  plain (default dflt ((list_to_map l : gmap string string) !! k)) = true.
Proof.
  intros Hl Hd. destruct (list_to_map l !! k) as [v|] eqn:Hk; simpl; [|done].
  apply elem_of_list_to_map_2 in Hk.
  rewrite Forall_forall in Hl. by apply (Hl (k, v)).
Qed.

Lemma section_icon_plain (name : string) :
  plain (default "📄" (section_icons !! name)) = true.
Proof.
  apply table_plain; [|done]. repeat (constructor; [reflexivity|]). constructor.
Qed.

Lemma section_description_plain (name dflt : string) :
  plain dflt = true →
  plain (default dflt (section_descriptions !! name)) = true.
Proof.
  apply table_plain. repeat (constructor; [reflexivity|]). constructor.
Qed.

(** The pieces of a page are read one after the other; a piece of
    template text is read by computation. *)
Ltac scan_text :=
  lazymatch goal with
  | |- scan Text (?a +:+ ?b) = Text => apply (scan_Text_app a b); [scan_text|scan_text]
  | |- scan Text (str _) = Text =>
      first [ apply scan_plain, str_Z_plain | apply scan_plain, str_nat_plain ]
  | |- scan Text (q _) = Text => vm_compute; reflexivity
  | |- scan Text (if ?b then _ else _) = Text => destruct b; scan_text
  | |- _ => first [ by apply scan_plain | reflexivity | idtac ]
  end.

(** The pieces of a page, left for separate arguments. *)
Ltac scan_split :=
  lazymatch goal with
  | |- scan Text (?a +:+ ?b) = Text => apply (scan_Text_app a b); [scan_split|scan_split]
  | |- _ => idtac
  end.

Lemma header_scan title description is_root include_search :
  plain title = true → plain description = true →
  scan Text (get_header_html title description is_root include_search) = Text.
Proof.
  intros Ht Hd. unfold get_header_html.
  destruct is_root, include_search; cbv beta iota zeta; scan_text.
Qed.

Lemma topic_card_scan g s :
  plain_section s → scan Text (topic_card g s) = Text.
Proof.
  intros [Hname Hdesc]. unfold topic_card. cbv zeta. scan_text.
  - apply scan_plain, section_icon_plain.
  - by apply scan_plain, section_description_plain.
Qed.

Lemma next_by_id_plain_section g id s :
  Forall plain_section (sections g) →
  next_by_id s_id (sections g) id = Some s → plain (s_name s) = true.
Proof.
  intros Hall [Hin _]%next_by_id_Some.
  rewrite Forall_forall in Hall. by destruct (Hall s Hin).
Qed.

Lemma next_by_id_plain_category g id c :
  Forall plain_category (categories g) →
  next_by_id c_id (categories g) id = Some c → plain (c_name c) = true.
Proof.
  intros Hall [Hin _]%next_by_id_Some.
  rewrite Forall_forall in Hall. by destruct (Hall c Hin).
Qed.

Lemma popular_card_scan g a :
  Forall plain_section (sections g) → plain_article a →
  scan Text (popular_card g a) = Text.
Proof.
  intros Hsecs Ha. unfold popular_card. cbv zeta.
  destruct (next_by_id s_id (sections g) (a_section_id a)) as [s|] eqn:Hs.
  - pose proof (next_by_id_plain_section _ _ _ Hsecs Hs). scan_text.
  - scan_text.
Qed.

Lemma articles_index_card_scan g a :
  Forall plain_category (categories g) → Forall plain_section (sections g) →
  plain_article a → scan Text (articles_index_card g a) = Text.
Proof.
  intros Hcats Hsecs Ha. unfold articles_index_card. cbv zeta.
  destruct (next_by_id s_id (sections g) (a_section_id a)) as [s|] eqn:Hs.
  - pose proof (next_by_id_plain_section _ _ _ Hsecs Hs).
    destruct (next_by_id c_id (categories g) (s_category_id s)) as [c|] eqn:Hc.
    + pose proof (next_by_id_plain_category _ _ _ Hcats Hc). scan_text.
    + scan_text.
  - scan_text.
Qed.

(** ** Which file is which *)

Lemma substring_app_prefix (n : nat) (a b : string) :
  (n ≤ String.length a)%nat → substring 0 n (a +:+ b) = substring 0 n a.
Proof.
  revert n. induction a as [|x a IH]; intros n Hn.
  - simpl in Hn. assert (n = 0%nat) as -> by lia. by destruct b.
  - destruct n as [|n]; [done|].
    rewrite str_app_cons. simpl. f_equal. apply IH. simpl in Hn. lia.
Qed.

Lemma category_path_head x :
  substring 0 22 (category_path x) = "offline_help_center/ca".
Proof.
  unfold category_path. rewrite <- str_app_assoc.
  rewrite substring_app_prefix; [done|]. vm_compute. lia.
Qed.

Lemma section_path_head x :
  substring 0 22 (section_path x) = "offline_help_center/se".
Proof.
  unfold section_path. rewrite <- str_app_assoc.
  rewrite substring_app_prefix; [done|]. vm_compute. lia.
Qed.

Lemma article_path_head x :
  substring 0 22 (article_path x) = "offline_help_center/ar".
Proof.
  unfold article_path. rewrite <- str_app_assoc.
  rewrite substring_app_prefix; [done|]. vm_compute. lia.
Qed.

Lemma page_of_inv w g p c :
  page_of w g p c →
  (p = css_path ∧ c = css_content) ∨
  (p = js_path ∧ c = js_content) ∨
  (p = index_path ∧ c = homepage_html g) ∨
  (∃ x, x ∈ categories g ∧ p = category_path x ∧ c = category_page_html g x) ∨
  (∃ x, x ∈ sections g ∧ p = section_path x ∧ c = section_page_html g x) ∨
  (∃ x, x ∈ articles g ∧ p = article_path x ∧ c = article_page_html g x) ∨
  (p = categories_index_path ∧ c = categories_index_html g) ∨
  (p = articles_index_path ∧ c = articles_index_html w g) ∨
  (p = videos_index_path ∧ c = videos_page_html (listed_videos (videos_path w))).
Proof.
  destruct 1; eauto 12.
Qed.

(** A path at the root is the path of one page only. *)
Ltac root_path_cases H :=
  apply page_of_inv in H;
  destruct H as [[Hp Hc]|[[Hp Hc]|[[Hp Hc]|[(x & _ & Hp & Hc)|[(x & _ & Hp & Hc)
                |[(x & _ & Hp & Hc)|[[Hp Hc]|[[Hp Hc]|[Hp Hc]]]]]]]]];
  first [ done
        | exfalso; closed_neq Hp
        | exfalso; apply (f_equal rel_depth) in Hp;
          rewrite ?rel_depth_category, ?rel_depth_section, ?rel_depth_article in Hp;
          vm_compute in Hp; discriminate Hp ].

Lemma index_file w c :
  page_of w (loaded_generator w) index_path c →
  c = homepage_html (loaded_generator w).
Proof. intros H. root_path_cases H. Qed.

Lemma articles_index_file w c :
  page_of w (loaded_generator w) articles_index_path c →
  c = articles_index_html w (loaded_generator w).
Proof. intros H. root_path_cases H. Qed.

Lemma categories_index_file w c :
  page_of w (loaded_generator w) categories_index_path c →
  c = categories_index_html (loaded_generator w).
Proof. intros H. root_path_cases H. Qed.

Lemma videos_index_file w c :
  page_of w (loaded_generator w) videos_index_path c →
  c = videos_page_html (listed_videos (videos_path w)).
Proof. intros H. root_path_cases H. Qed.

Lemma category_file w x c :
  page_of w (loaded_generator w) (category_path x) c →
  ∃ x', x' ∈ categories (loaded_generator w) ∧
        c = category_page_html (loaded_generator w) x'.
Proof.
  intros H. apply page_of_inv in H.
  pose proof (rel_depth_category x) as Hdepth.
  pose proof (category_path_head x) as Hhead.
  destruct H as [[Hp Hc]|[[Hp Hc]|[[Hp Hc]|[(x' & Hx' & Hp & Hc)|[(x' & _ & Hp & Hc)
                |[(x' & _ & Hp & Hc)|[[Hp Hc]|[[Hp Hc]|[Hp Hc]]]]]]]]].
  - exfalso. rewrite Hp in Hhead. vm_compute in Hhead. discriminate Hhead.
  - exfalso. rewrite Hp in Hhead. vm_compute in Hhead. discriminate Hhead.
  - exfalso. rewrite Hp in Hdepth. vm_compute in Hdepth. discriminate Hdepth.
  - by exists x'.
  - exfalso. rewrite Hp, section_path_head in Hhead. discriminate Hhead.
  - exfalso. rewrite Hp, article_path_head in Hhead. discriminate Hhead.
  - exfalso. rewrite Hp in Hdepth. vm_compute in Hdepth. discriminate Hdepth.
  - exfalso. rewrite Hp in Hdepth. vm_compute in Hdepth. discriminate Hdepth.
  - exfalso. rewrite Hp in Hdepth. vm_compute in Hdepth. discriminate Hdepth.
Qed.

(** ** Where the script tag is *)

Lemma has_active_script_Text page :
  scan Text page = Text → has_active_script page = false.
Proof. unfold has_active_script. by intros ->. Qed.

Lemma homepage_scan g :
  plain_generator g → scan Text (homepage_html g) = Text.
Proof.
  intros (_ & Hsecs & Harts). rewrite homepage_html_eq.
  scan_split.
  - by apply header_scan.
  - vm_compute. reflexivity.
  - apply scan_cat_all. intros s Hs. apply topic_card_scan.
    rewrite Forall_forall in Hsecs. by apply Hsecs.
  - vm_compute. reflexivity.
  - apply scan_cat_all. intros a Ha. apply popular_card_scan; [done|].
    rewrite Forall_forall in Harts. apply Harts.
    unfold recent_articles in Ha. apply subseteq_take in Ha.
    by rewrite sorted_perm in Ha.
  - vm_compute. reflexivity.
Qed.

Lemma articles_index_scan w g :
  plain_generator g → plain (now w) = true →
  scan Text (articles_index_html w g) = Text.
Proof.
  intros (Hcats & Hsecs & Harts) Hnow. rewrite articles_index_html_eq.
  scan_split.
  - by apply header_scan.
  - vm_compute. reflexivity.
  - apply scan_cat_all. intros a Ha. apply articles_index_card_scan; [done..|].
    rewrite Forall_forall in Harts. apply Harts.
    unfold articles_index_entries in Ha. by rewrite sorted_perm in Ha.
  - unfold articles_index_footer. scan_text.
Qed.

Lemma category_page_html_eq g c :
  category_page_html g c =
    get_header_html (c_name c) "Browse help topics organized by category" false true +:+
    category_page_intro c +:+
    cat_all (category_sidebar_item <$> default [] (sections_by_category g !! c_id c)) +:+
    category_page_middle c +:+
    cat_all (category_section_row g <$> default [] (sections_by_category g !! c_id c)) +:+
    category_page_end +:+ get_footer_html false false.
Proof.
  unfold category_page_html. by rewrite !for_each_cat_all, !str_app_assoc.
Qed.

(** The sections a category page lists are loaded sections. *)
Lemma category_sections_loaded w c s :
  s ∈ default [] (sections_by_category (loaded_generator w) !! c_id c) →
  s ∈ sections (loaded_generator w).
Proof.
  unfold loaded_generator, generator_of. cbn [sections_by_category sections].
  rewrite sections_by_category_lookup.
  destruct (filter _ _) as [|s' l] eqn:Hf; simpl; [by intros ?%elem_of_nil|].
  rewrite <- Hf. by intros [_ ?]%list_elem_of_filter.
Qed.

Lemma category_page_scan w c :
  plain_generator (loaded_generator w) → plain_category c →
  scan Text (category_page_html (loaded_generator w) c) = Text.
Proof.
  intros (_ & Hsecs & _) [Hname Hdesc]. rewrite category_page_html_eq.
  rewrite Forall_forall in Hsecs.
  scan_split.
  - by apply header_scan.
  - unfold category_page_intro. scan_text.
  - apply scan_cat_all. intros s Hs%category_sections_loaded.
    destruct (Hsecs s Hs) as [Hs1 Hs2].
    unfold category_sidebar_item. scan_text.
  - unfold category_page_middle. scan_text.
  - apply scan_cat_all. intros s Hs%category_sections_loaded.
    destruct (Hsecs s Hs) as [Hs1 Hs2].
    unfold category_section_row. cbv zeta. scan_text.
  - vm_compute. reflexivity.
  - vm_compute. reflexivity.
Qed.

Lemma header_search title description is_root :
  has_substring search_input (get_header_html title description is_root true).
Proof.
  unfold get_header_html. cbv beta iota zeta.
  do 11 apply has_substring_app_r. apply has_substring_app_l.
  apply containsb_sound. vm_compute. reflexivity.
Qed.

Lemma categories_index_html_eq g :
  categories_index_html g =
    (get_header_html "Browse Topics" "Browse help topics organized by category" true true +:+
     categories_index_intro +:+ cat_all (topic_card g <$> sections g) +:+
     categories_index_end) +:+ get_footer_html true true.
Proof.
  unfold categories_index_html. by rewrite !for_each_cat_all, !str_app_assoc.
Qed.

Lemma categories_index_scan g :
  plain_generator g → scan Text (categories_index_html g) = Found.
Proof.
  intros (_ & Hsecs & _). rewrite categories_index_html_eq, scan_app.
  assert (scan Text
    (get_header_html "Browse Topics" "Browse help topics organized by category" true true +:+
     categories_index_intro +:+ cat_all (topic_card g <$> sections g) +:+
     categories_index_end) = Text) as ->; [|by vm_compute].
  scan_split.
  - by apply header_scan.
  - vm_compute. reflexivity.
  - apply scan_cat_all. intros s Hs. apply topic_card_scan.
    rewrite Forall_forall in Hsecs. by apply Hsecs.
  - vm_compute. reflexivity.
Qed.

(** C10, as the code has it.  In the tree of a run, [index.html] is the
    homepage, [articles.html] the articles index, the file of a
    category path a category page, [categories.html] the topics index
    and [videos.html] the videos index.  The homepage, the articles
    index and every category page have the search input; the homepage
    has the script tag inside a comment; the topics index and the
    videos index have the script tag.  When the names, titles and
    descriptions of the loaded records and the time of the run are
    plain text, the homepage, the articles index and every category
    page have no script tag outside a comment, and the topics index
    has one. *)
Theorem script_tag_placement (w : World) :
  ((∀ c, files (main w empty_fs).2 !! index_path = Some c →
         c = homepage_html (loaded_generator w)) ∧
   (∀ c, files (main w empty_fs).2 !! articles_index_path = Some c →
         c = articles_index_html w (loaded_generator w)) ∧
   (∀ x c, files (main w empty_fs).2 !! category_path x = Some c →
         ∃ x', x' ∈ categories (loaded_generator w) ∧
               c = category_page_html (loaded_generator w) x') ∧
   (∀ c, files (main w empty_fs).2 !! categories_index_path = Some c →
         c = categories_index_html (loaded_generator w)) ∧
   (∀ c, files (main w empty_fs).2 !! videos_index_path = Some c →
         c = videos_page_html (listed_videos (videos_path w)))) ∧
  (has_substring search_input (homepage_html (loaded_generator w)) ∧
   has_substring search_input (articles_index_html w (loaded_generator w)) ∧
   ∀ x, has_substring search_input (category_page_html (loaded_generator w) x)) ∧
  has_substring commented_script (homepage_html (loaded_generator w)) ∧
  (has_substring (script_link EmptyString) (categories_index_html (loaded_generator w)) ∧
   has_substring (script_link EmptyString)
                 (videos_page_html (listed_videos (videos_path w)))) ∧
  (plain_generator (loaded_generator w) → plain (now w) = true →
   has_active_script (homepage_html (loaded_generator w)) = false ∧
   has_active_script (articles_index_html w (loaded_generator w)) = false ∧
   (∀ x, x ∈ categories (loaded_generator w) →
         has_active_script (category_page_html (loaded_generator w) x) = false) ∧
   has_active_script (categories_index_html (loaded_generator w)) = true).
Proof.
  split; [|split; [|split; [|split]]].
  - split; [|split; [|split; [|split]]].
    + intros c Hc%main_files_page_of. by apply index_file.
    + intros c Hc%main_files_page_of. by apply articles_index_file.
    + intros x c Hc%main_files_page_of. by apply (category_file w x).
    + intros c Hc%main_files_page_of. by apply categories_index_file.
    + intros c Hc%main_files_page_of. by apply videos_index_file.
  - split; [|split].
    + rewrite homepage_html_eq. do 2 apply has_substring_app_l. apply header_search.
    + rewrite articles_index_html_eq. apply has_substring_app_l, header_search.
    + intros x. rewrite category_page_html_eq. apply has_substring_app_l, header_search.
  - rewrite homepage_html_eq. do 3 apply has_substring_app_r.
    apply containsb_sound. vm_compute. reflexivity.
  - split.
    + rewrite categories_index_html_eq. apply has_substring_app_r, (footer_script true).
    + unfold videos_page_html. apply has_substring_app_r, (footer_script true).
  - intros Hplain Hnow. split; [|split; [|split]].
    + by apply has_active_script_Text, homepage_scan.
    + by apply has_active_script_Text, articles_index_scan.
    + intros x Hx. apply has_active_script_Text, category_page_scan; [done|].
      destruct Hplain as (Hcats & _). rewrite Forall_forall in Hcats. by apply Hcats.
    + unfold has_active_script. by rewrite categories_index_scan.
Qed.

(** C10 as stated fails: names are written into the pages as they are,
    and a section named by a script tag puts an active script tag that
    refers to [js/main.js] on [index.html]. *)
Lemma script_tag_from_section_name :
  files (main script_named_world empty_fs).2 !! index_path =
    Some (homepage_html (loaded_generator script_named_world)) ∧
  has_substring (q "<h3><script src=`js/main.js`></script></h3>")
                (homepage_html (loaded_generator script_named_world)) ∧
  has_active_script (homepage_html (loaded_generator script_named_world)) = true.
Proof.
  split; [vm_compute; reflexivity|]. split.
  - apply containsb_sound. vm_compute. reflexivity.
  - vm_compute. reflexivity.
Qed.

Lemma script_tag_placement_witness :
  has_active_script
    (homepage_html (loaded_generator (scenario_at "2025-01-01 00:00:00"))) = false ∧
  has_active_script
    (articles_index_html (scenario_at "2025-01-01 00:00:00")
       (loaded_generator (scenario_at "2025-01-01 00:00:00"))) = false ∧
  has_active_script
    (categories_index_html (loaded_generator (scenario_at "2025-01-01 00:00:00"))) = true.
Proof.
  destruct (script_tag_placement (scenario_at "2025-01-01 00:00:00"))
    as (_ & _ & _ & _ & Hplain).
  destruct Hplain as (Hhome & Hindex & _ & Htopics).
  - repeat split; repeat constructor.
  - reflexivity.
  - split; [exact Hhome|]. split; [exact Hindex|exact Htopics].
Defined.

(** * Further properties of the run *)

(** ** Writes and lookups *)

Lemma apply_writes_lookup_ne ws (m : gmap string string) p :
  p ∉ ws.*1 → apply_writes ws m !! p = m !! p.
Proof.
  revert m. induction ws as [|[p' c'] ws IH]; intros m Hp; [done|].
  rewrite fmap_cons, not_elem_of_cons in Hp. destruct Hp as [Hne Hp].
  rewrite apply_writes_cons, IH by done. simpl in Hne.
  by rewrite lookup_insert_ne.
Qed.

(** The last write to a path decides the file. *)
Lemma apply_writes_last ws1 ws2 (m : gmap string string) p c :
  p ∉ ws2.*1 → apply_writes (ws1 ++ (p, c) :: ws2) m !! p = Some c.
Proof.
  intros Hp. rewrite apply_writes_app, apply_writes_cons.
  rewrite apply_writes_lookup_ne by done. apply lookup_insert_eq.
Qed.

Lemma apply_writes_is_Some ws (m : gmap string string) p :
  is_Some (apply_writes ws m !! p) ↔ p ∈ ws.*1 ∨ is_Some (m !! p).
Proof.
  revert m. induction ws as [|[p' c'] ws IH]; intros m.
  - simpl. split; [by right|]. intros [Hp|Hp]; [|done]. by apply elem_of_nil in Hp.
  - rewrite apply_writes_cons, IH, fmap_cons, elem_of_cons. simpl.
    rewrite lookup_insert_is_Some. split.
    + intros [?|[?|[_ ?]]]; auto.
    + intros [[->|?]|?]; auto.
      destruct (decide (p' = p)); auto.
Qed.

(** ** Paths *)

Lemma str_app_inj_r (a b s : string) : a +:+ s = b +:+ s → a = b.
Proof.
  revert b. induction a as [|x a IH]; intros b Heq.
  - destruct b as [|y b]; [done|]. exfalso.
    apply (f_equal String.length) in Heq.
    rewrite !str_length_app in Heq. simpl in Heq. lia.
  - destruct b as [|y b].
    + exfalso. apply (f_equal String.length) in Heq.
      rewrite !str_length_app in Heq. simpl in Heq. lia.
    + rewrite !str_app_cons in Heq. injection Heq as -> Heq. f_equal. by apply IH.
Qed.

(** A file name is decided by the identifier, and decides it. *)
Lemma category_path_inj x y : category_path x = category_path y → c_id x = c_id y.
Proof.
  unfold category_path, str. intros Heq.
  apply (inj (String.append output_dir)), (inj (String.append "/categories/category_")) in Heq.
  apply str_app_inj_r in Heq. by apply (inj pretty) in Heq.
Qed.

Lemma section_path_inj x y : section_path x = section_path y → s_id x = s_id y.
Proof.
  unfold section_path, str. intros Heq.
  apply (inj (String.append output_dir)), (inj (String.append "/sections/section_")) in Heq.
  apply str_app_inj_r in Heq. by apply (inj pretty) in Heq.
Qed.

Lemma article_path_inj x y : article_path x = article_path y → a_id x = a_id y.
Proof.
  unfold article_path, str. intros Heq.
  apply (inj (String.append output_dir)), (inj (String.append "/articles/article_")) in Heq.
  apply str_app_inj_r in Heq. by apply (inj pretty) in Heq.
Qed.

(** Every path a run writes lies under the output directory. *)
Lemma page_of_under_output_dir w g p c :
  page_of w g p c → starts_with (output_dir +:+ "/") p = true.
Proof.
  destruct 1; reflexivity.
Qed.

(** ** The tree after a run *)

Lemma paths_of_fmap {A} (path content : A → string) (l : list A) (p : string) :
  p ∈ ((λ x, (path x, content x)) <$> l).*1 ↔ ∃ x, x ∈ l ∧ p = path x.
Proof.
  rewrite <- list_fmap_compose, list_elem_of_fmap.
  split; intros (x & ? & ?); exists x; by split.
Qed.

(** The files of a run whose inputs load, write by write. *)
Lemma files_of_run w fs :
  load_error w = None →
  files (main w fs).2 =
    apply_writes (videos_writes (videos_path w))
      (<[articles_index_path := articles_index_html w (loaded_generator w)]>
      (<[categories_index_path := categories_index_html (loaded_generator w)]>
      (apply_writes ((λ a, (article_path a, article_page_html (loaded_generator w) a))
                       <$> articles (loaded_generator w))
      (apply_writes ((λ s, (section_path s, section_page_html (loaded_generator w) s))
                       <$> sections (loaded_generator w))
      (apply_writes ((λ c, (category_path c, category_page_html (loaded_generator w) c))
                       <$> categories (loaded_generator w))
      (<[index_path := homepage_html (loaded_generator w)]>
      (<[js_path := js_content]>
      (<[css_path := css_content]> (files fs))))))))).
Proof.
  intros Herr. rewrite main_spec, Herr. cbn [snd files].
  unfold all_writes, early_writes. by rewrite !apply_writes_app.
Qed.

(** Two paths of different pages differ. *)
Ltac path_neq H :=
  first [ apply (f_equal (substring 0 22)) in H;
          rewrite ?category_path_head, ?section_path_head, ?article_path_head in H;
          vm_compute in H; discriminate H
        | apply (f_equal rel_depth) in H;
          rewrite ?rel_depth_category, ?rel_depth_section, ?rel_depth_article in H;
          vm_compute in H; discriminate H
        | closed_neq H ].

(** A path is not among the paths of the pages of other kinds. *)
Ltac not_in_pages :=
  let H := fresh in
  let x := fresh in
  first [ intros (x & _ & H)%paths_of_fmap; path_neq H
        | intros H; path_neq H ].

Lemma videos_writes_paths d p :
  p ∈ (videos_writes d).*1 → p = videos_index_path.
Proof.
  destruct d; simpl; rewrite ?list_elem_of_singleton; try done.
  by intros ?%elem_of_nil.
Qed.

Ltac not_videos :=
  let H := fresh in intros H%videos_writes_paths; path_neq H.

(** X3. The files at fixed paths are those of the last run. *)
Theorem fixed_files_written (w : World) (fs : FS) :
  load_error w = None →
  files (main w fs).2 !! css_path = Some css_content ∧
  files (main w fs).2 !! js_path = Some js_content ∧
  files (main w fs).2 !! index_path = Some (homepage_html (loaded_generator w)) ∧
  files (main w fs).2 !! categories_index_path =
    Some (categories_index_html (loaded_generator w)) ∧
  files (main w fs).2 !! articles_index_path =
    Some (articles_index_html w (loaded_generator w)) ∧
  (videos_path w ≠ NotDir →
   files (main w fs).2 !! videos_index_path =
     Some (videos_page_html (listed_videos (videos_path w)))) ∧
  (videos_path w = NotDir →
   files (main w fs).2 !! videos_index_path = files fs !! videos_index_path).
Proof.
  intros Herr. rewrite (files_of_run w fs Herr).
  split; [|split; [|split; [|split; [|split; [|split]]]]].
  - rewrite apply_writes_lookup_ne by not_videos.
    rewrite !lookup_insert_ne by not_in_pages.
    rewrite !apply_writes_lookup_ne by not_in_pages.
    rewrite !lookup_insert_ne by not_in_pages.
    apply lookup_insert_eq.
  - rewrite apply_writes_lookup_ne by not_videos.
    rewrite !lookup_insert_ne by not_in_pages.
    rewrite !apply_writes_lookup_ne by not_in_pages.
    rewrite !lookup_insert_ne by not_in_pages.
    apply lookup_insert_eq.
  - rewrite apply_writes_lookup_ne by not_videos.
    rewrite !lookup_insert_ne by not_in_pages.
    rewrite !apply_writes_lookup_ne by not_in_pages.
    apply lookup_insert_eq.
  - rewrite apply_writes_lookup_ne by not_videos.
    rewrite !lookup_insert_ne by not_in_pages.
    apply lookup_insert_eq.
  - rewrite apply_writes_lookup_ne by not_videos.
    apply lookup_insert_eq.
  - intros Hv. destruct (videos_path w); [|done|]; simpl; apply lookup_insert_eq.
  - intros ->. simpl.
    rewrite !lookup_insert_ne by not_in_pages.
    rewrite !apply_writes_lookup_ne by not_in_pages.
    by rewrite !lookup_insert_ne by not_in_pages.
Qed.

Lemma fixed_files_written_witness :
  load_error (scenario_at "2025-01-01 00:00:00") = None ∧
  files (main (scenario_at "2025-01-01 00:00:00") empty_fs).2 !! css_path
    = Some css_content.
Proof.
  split; [reflexivity|].
  exact (proj1 (fixed_files_written (scenario_at "2025-01-01 00:00:00") empty_fs eq_refl)).
Defined.

Lemma all_writes_paths w g p :
  p ∈ (all_writes w g).*1 ↔
    p ∈ [css_path; js_path; index_path; categories_index_path; articles_index_path] ∨
    (p = videos_index_path ∧ videos_path w ≠ NotDir) ∨
    (∃ c, c ∈ categories g ∧ p = category_path c) ∨
    (∃ s, s ∈ sections g ∧ p = section_path s) ∨
    (∃ a, a ∈ articles g ∧ p = article_path a).
Proof.
  unfold all_writes, early_writes.
  rewrite !fmap_app, !elem_of_app, !paths_of_fmap, !fmap_cons, !fmap_nil, !elem_of_cons.
  assert (p ∈ (videos_writes (videos_path w)).*1 ↔
          p = videos_index_path ∧ videos_path w ≠ NotDir) as ->.
  { destruct (videos_path w); simpl; rewrite ?list_elem_of_singleton.
    - split; [by intros ->|by intros [-> _]].
    - split; [by intros ?%elem_of_nil|by intros [_ ?]].
    - split; [by intros ->|by intros [-> _]]. }
  cbn [fst]. rewrite !elem_of_nil. tauto.
Qed.

(** X1. A run touches nothing outside the output directory and removes
    nothing: a file whose path does not start with
    [offline_help_center/] is what it was, every file and directory of
    the tree before the run is in the tree after it, and the
    directories the run adds are the output directory and directories
    below it. *)
Theorem run_keeps_other_files (w : World) (fs : FS) :
  (∀ p, starts_with (output_dir +:+ "/") p = false →
        files (main w fs).2 !! p = files fs !! p) ∧
  (∀ p, is_Some (files fs !! p) → is_Some (files (main w fs).2 !! p)) ∧
  (∀ d, d ∈ dirs fs → d ∈ dirs (main w fs).2) ∧
  (∀ d, d ∈ dirs (main w fs).2 →
        d ∈ dirs fs ∨ d = output_dir ∨ starts_with (output_dir +:+ "/") d = true).
Proof.
  rewrite main_spec. destruct (load_error w); [by auto|]. cbn [snd files dirs].
  split; [|split; [|split]].
  - intros p Hp. apply apply_writes_lookup_ne.
    intros ((p' & c) & -> & Hin%all_writes_page_of%page_of_under_output_dir)%list_elem_of_fmap.
    cbn [fst] in Hp. congruence.
  - intros p Hp. apply apply_writes_is_Some. by right.
  - intros d Hd. unfold with_made_dirs. rewrite !elem_of_union. tauto.
  - intros d. unfold with_made_dirs. rewrite !elem_of_union, !elem_of_singleton.
    intros [->|[->|[->|[->|[->|[->|Hd]]]]]]; auto.
Qed.

(** X2. After a run whose inputs load, the files of the tree are the
    files it had, the five fixed files, [videos.html] unless the
    [videos] path is a plain file, and one page for each loaded
    category, section and article, named by the record's id. *)
Theorem written_paths (w : World) (fs : FS) (p : string) :
  load_error w = None →
  is_Some (files (main w fs).2 !! p) ↔
    is_Some (files fs !! p) ∨
    p ∈ [css_path; js_path; index_path; categories_index_path; articles_index_path] ∨
    (p = videos_index_path ∧ videos_path w ≠ NotDir) ∨
    (∃ c, c ∈ records (categories_json w) ∧ p = category_path c) ∨
    (∃ s, s ∈ records (sections_json w) ∧ p = section_path s) ∨
    (∃ a, a ∈ records (articles_json w) ∧ p = article_path a).
Proof.
  intros Herr. rewrite main_spec, Herr. cbn [snd files].
  rewrite apply_writes_is_Some, all_writes_paths. cbn [loaded_generator generator_of
    categories sections articles]. tauto.
Qed.

Lemma written_paths_witness :
  load_error (scenario_at "2025-01-01 00:00:00") = None ∧
  is_Some (files (main (scenario_at "2025-01-01 00:00:00") empty_fs).2
             !! (output_dir +:+ "/articles/article_101.html")).
Proof.
  split; [reflexivity|].
  apply (written_paths (scenario_at "2025-01-01 00:00:00") empty_fs _ eq_refl).
  do 5 right. exists (mkArticle 101 "A Article" None 10 "2024-02-01T00:00:00Z").
  split; [|reflexivity]. apply list_elem_of_further, list_elem_of_here.
Defined.

(** ** Pages of records *)

Lemma article_file_last w fs pre a post :
  load_error w = None →
  records (articles_json w) = pre ++ a :: post →
  a_id a ∉ a_id <$> post →
  files (main w fs).2 !! article_path a
    = Some (article_page_html (loaded_generator w) a).
Proof.
  intros Herr Hsplit Hlast. rewrite (files_of_run w fs Herr).
  rewrite apply_writes_lookup_ne by not_videos.
  do 2 (rewrite lookup_insert_ne by not_in_pages).
  change (articles (loaded_generator w)) with (records (articles_json w)).
  rewrite Hsplit, fmap_app, fmap_cons. apply apply_writes_last.
  intros (x & Hx & Heq%article_path_inj)%paths_of_fmap.
  apply Hlast. rewrite Heq. by apply list_elem_of_fmap_2.
Qed.

Lemma section_file_last w fs pre s post :
  load_error w = None →
  records (sections_json w) = pre ++ s :: post →
  s_id s ∉ s_id <$> post →
  files (main w fs).2 !! section_path s
    = Some (section_page_html (loaded_generator w) s).
Proof.
  intros Herr Hsplit Hlast. rewrite (files_of_run w fs Herr).
  rewrite apply_writes_lookup_ne by not_videos.
  do 2 (rewrite lookup_insert_ne by not_in_pages).
  rewrite apply_writes_lookup_ne by not_in_pages.
  change (sections (loaded_generator w)) with (records (sections_json w)).
  rewrite Hsplit, fmap_app, fmap_cons. apply apply_writes_last.
  intros (x & Hx & Heq%section_path_inj)%paths_of_fmap.
  apply Hlast. rewrite Heq. by apply list_elem_of_fmap_2.
Qed.

Lemma category_file_last w fs pre c post :
  load_error w = None →
  records (categories_json w) = pre ++ c :: post →
  c_id c ∉ c_id <$> post →
  files (main w fs).2 !! category_path c
    = Some (category_page_html (loaded_generator w) c).
Proof.
  intros Herr Hsplit Hlast. rewrite (files_of_run w fs Herr).
  rewrite apply_writes_lookup_ne by not_videos.
  do 2 (rewrite lookup_insert_ne by not_in_pages).
  do 2 (rewrite apply_writes_lookup_ne by not_in_pages).
  change (categories (loaded_generator w)) with (records (categories_json w)).
  rewrite Hsplit, fmap_app, fmap_cons. apply apply_writes_last.
  intros (x & Hx & Heq%category_path_inj)%paths_of_fmap.
  apply Hlast. rewrite Heq. by apply list_elem_of_fmap_2.
Qed.

Lemma NoDup_fmap_split {A} (f : A → Z) (l : list A) (x : A) :
  NoDup (f <$> l) → x ∈ l → ∃ pre post, l = pre ++ x :: post ∧ f x ∉ f <$> post.
Proof.
  intros Hnd (pre & post & ->)%list_elem_of_split. exists pre, post. split; [done|].
  rewrite fmap_app, fmap_cons in Hnd.
  apply NoDup_app in Hnd as (_ & _ & Hnd). by apply NoDup_cons in Hnd as [? _].
Qed.

(** X4. The page of an id is the page of the last record with that id:
    after a run whose inputs load, the file [article_<id>.html] of an
    article holds the page of that article when no later article has its
    id; so for sections and for categories.  An earlier record of the
    same id has no page of its own. *)
Theorem last_record_page (w : World) (fs : FS) :
  load_error w = None →
  (∀ pre a post, records (articles_json w) = pre ++ a :: post →
     a_id a ∉ a_id <$> post →
     files (main w fs).2 !! article_path a
       = Some (article_page_html (loaded_generator w) a)) ∧
  (∀ pre s post, records (sections_json w) = pre ++ s :: post →
     s_id s ∉ s_id <$> post →
     files (main w fs).2 !! section_path s
       = Some (section_page_html (loaded_generator w) s)) ∧
  (∀ pre c post, records (categories_json w) = pre ++ c :: post →
     c_id c ∉ c_id <$> post →
     files (main w fs).2 !! category_path c
       = Some (category_page_html (loaded_generator w) c)).
Proof.
  intros Herr. split; [|split]; intros pre x post Hsplit Hlast.
  - by eapply article_file_last.
  - by eapply section_file_last.
  - by eapply category_file_last.
Qed.

Lemma last_record_page_witness :
  load_error same_id_world = None ∧
  files (main same_id_world empty_fs).2
    !! article_path (mkArticle 100 "Second" None 10 "2024-02-01T00:00:00Z")
    = Some (article_page_html (loaded_generator same_id_world)
              (mkArticle 100 "Second" None 10 "2024-02-01T00:00:00Z")).
Proof.
  split; [reflexivity|].
  apply (proj1 (last_record_page same_id_world empty_fs eq_refl)
           [mkArticle 100 "First" None 10 "2024-01-02T00:00:00Z"]
           (mkArticle 100 "Second" None 10 "2024-02-01T00:00:00Z") []);
    [reflexivity|].
  intros H. by apply elem_of_nil in H.
Defined.

(** X5. When the ids of the loaded records are pairwise different within
    each input, every loaded category, section and article has its page
    in the tree of the run. *)
Theorem pages_of_unique_ids (w : World) (fs : FS) :
  load_error w = None →
  NoDup (c_id <$> records (categories_json w)) →
  NoDup (s_id <$> records (sections_json w)) →
  NoDup (a_id <$> records (articles_json w)) →
  (∀ c, c ∈ records (categories_json w) →
     files (main w fs).2 !! category_path c
       = Some (category_page_html (loaded_generator w) c)) ∧
  (∀ s, s ∈ records (sections_json w) →
     files (main w fs).2 !! section_path s
       = Some (section_page_html (loaded_generator w) s)) ∧
  (∀ a, a ∈ records (articles_json w) →
     files (main w fs).2 !! article_path a
       = Some (article_page_html (loaded_generator w) a)).
Proof.
  intros Herr Hc Hs Ha. split; [|split]; intros x Hx.
  - destruct (NoDup_fmap_split c_id _ x Hc Hx) as (pre & post & Hsplit & Hlast).
    by eapply category_file_last.
  - destruct (NoDup_fmap_split s_id _ x Hs Hx) as (pre & post & Hsplit & Hlast).
    by eapply section_file_last.
  - destruct (NoDup_fmap_split a_id _ x Ha Hx) as (pre & post & Hsplit & Hlast).
    by eapply article_file_last.
Qed.

Lemma pages_of_unique_ids_witness :
  load_error (scenario_at "2025-01-01 00:00:00") = None ∧
  files (main (scenario_at "2025-01-01 00:00:00") empty_fs).2
    !! article_path (mkArticle 100 "B Article" None 10 "2024-01-02T00:00:00Z")
    = Some (article_page_html (loaded_generator (scenario_at "2025-01-01 00:00:00"))
              (mkArticle 100 "B Article" None 10 "2024-01-02T00:00:00Z")).
Proof.
  split; [reflexivity|].
  assert (NoDup (c_id <$> records (categories_json (scenario_at "2025-01-01 00:00:00"))))
    as Hc by (by apply (bool_decide_unpack _)).
  assert (NoDup (s_id <$> records (sections_json (scenario_at "2025-01-01 00:00:00"))))
    as Hs by (by apply (bool_decide_unpack _)).
  assert (NoDup (a_id <$> records (articles_json (scenario_at "2025-01-01 00:00:00"))))
    as Ha by (by apply (bool_decide_unpack _)).
  apply (proj2 (proj2 (pages_of_unique_ids (scenario_at "2025-01-01 00:00:00") empty_fs
                         eq_refl Hc Hs Ha))).
  apply list_elem_of_here.
Defined.

(** ** The [videos] path *)



(** ** The inputs *)

(** X7. The inputs are loaded in the order categories, sections,
    articles, and the first one that does not load decides the
    exception of the run: [OSError] with the path of the file for a
    file that cannot be opened, [UnicodeDecodeError] for one whose bytes
    are not UTF-8, [JSONDecodeError] for one whose text does not parse;
    the inputs after it are not looked at and the tree is left as it
    was. *)
Theorem first_failing_input_reported (w : World) (fs : FS) :
  (categories_json w = Missing →
   main w fs = (inl (OSError "zendesk_export_userology/categories.json"), fs)) ∧
  (categories_json w = Undecodable → main w fs = (inl UnicodeDecodeError, fs)) ∧
  (categories_json w = Malformed → main w fs = (inl JSONDecodeError, fs)) ∧
  (¬ load_fails (categories_json w) →
   (sections_json w = Missing →
    main w fs = (inl (OSError "zendesk_export_userology/sections.json"), fs)) ∧
   (sections_json w = Undecodable → main w fs = (inl UnicodeDecodeError, fs)) ∧
   (sections_json w = Malformed → main w fs = (inl JSONDecodeError, fs)) ∧
   (¬ load_fails (sections_json w) →
    (articles_json w = Missing →
     main w fs = (inl (OSError "zendesk_export_userology/articles.json"), fs)) ∧
    (articles_json w = Undecodable → main w fs = (inl UnicodeDecodeError, fs)) ∧
    (articles_json w = Malformed → main w fs = (inl JSONDecodeError, fs)))).
Proof.
  rewrite main_spec. unfold load_error.
  destruct (categories_json w) as [| | |cats], (sections_json w) as [| | |secs],
    (articles_json w) as [| | |arts]; cbn [load_fails];
    repeat split; intros; try done; tauto.
Qed.

Lemma first_failing_input_reported_witness :
  main bad_sections_world empty_fs = (inl JSONDecodeError, empty_fs).
Proof.
  exact (proj1 (proj2 (proj2
           (proj2 (proj2 (proj2
              (first_failing_input_reported bad_sections_world empty_fs)))
              (λ H : False, H))))
         eq_refl).
Defined.

(** ** The lists of the category and section pages *)

Lemma default_nonempty {A} (l : list A) :
  default [] (match l with [] => None | x :: l' => Some (x :: l') end) = l.
Proof. by destruct l. Qed.

Lemma category_section_row_count cats secs arts s :
  s ∈ secs →
  category_section_row (generator_of cats secs arts) s
    = section_row s (length (filter (λ a, a_section_id a = s_id s) arts)).
Proof.
  intros Hs. unfold category_section_row, section_row.
  cbn [generator_of articles_by_section].
  rewrite articles_by_section_lookup.
  rewrite decide_True by (by apply list_elem_of_fmap_2). reflexivity.
Qed.

(** X8. The page of a category lists the loaded sections whose
    [category_id] is the id of the category, in input order, in the
    sidebar and again as rows; the row of a section shows the number of
    loaded articles whose [section_id] is the id of the section,
    followed by the word [articles] whatever the number.  A category
    that no section names has a page with two empty lists.  The sidebar
    item of a section is the link to the page of the section under its
    name. *)
Theorem category_page_spec (cats : list Category) (secs : list SectionRec)
    (arts : list Article) (c : Category) :
  category_page_html (generator_of cats secs arts) c =
    get_header_html (c_name c) "Browse help topics organized by category" false true +:+
    category_page_intro c +:+
    cat_all (category_sidebar_item <$> filter (λ s, s_category_id s = c_id c) secs) +:+
    category_page_middle c +:+
    cat_all ((λ s, section_row s (length (filter (λ a, a_section_id a = s_id s) arts)))
               <$> filter (λ s, s_category_id s = c_id c) secs) +:+
    category_page_end +:+ get_footer_html false false ∧
  (∀ s, category_sidebar_item s = section_item (s_id s) (s_name s)).
Proof.
  split; [|by intros s].
  rewrite category_page_html_eq. cbn [generator_of sections_by_category].
  rewrite sections_by_category_lookup.
  rewrite default_nonempty.
  do 4 f_equal. f_equal. f_equal. apply list_fmap_ext.
  intros i s Hs%list_elem_of_lookup_2%list_elem_of_filter.
  apply category_section_row_count. tauto.
Qed.

(** X9. The page of a loaded section lists the loaded articles whose
    [section_id] is the id of the section, in input order, in the
    sidebar and again as rows; a section that no article names has a
    page with two empty lists.  The sidebar item of an article is the
    link to the page of the article under its title, and its row shows
    the link, the title and the first ten characters of [updated_at]. *)
Theorem section_page_spec (cats : list Category) (secs : list SectionRec)
    (arts : list Article) (s : SectionRec) :
  s ∈ secs →
  section_page_html (generator_of cats secs arts) s =
    get_header_html (s_name s) "Your complete guide to using Userology" false false +:+
    section_page_intro s +:+
    cat_all (section_sidebar_item <$> filter (λ a, a_section_id a = s_id s) arts) +:+
    section_page_middle s +:+
    cat_all (section_article_row <$> filter (λ a, a_section_id a = s_id s) arts) +:+
    section_page_footer ∧
  (∀ a, section_sidebar_item a = article_item (a_id a) (a_title a)) ∧
  (∀ a, section_article_row a =
        article_row (a_id a) (a_title a) (slice_to 10 (a_updated_at a))).
Proof.
  intros Hs. split; [|split; by intros a]. rewrite section_page_html_eq. cbn [generator_of articles_by_section].
  rewrite articles_by_section_lookup.
  rewrite decide_True by (by apply list_elem_of_fmap_2). reflexivity.
Qed.

Lemma section_page_spec_witness :
  mkSection 10 "Basics" None 1 ∈ [mkSection 10 "Basics" None 1] ∧
  section_page_html
    (generator_of [mkCategory 1 "Setup" None] [mkSection 10 "Basics" None 1]
       [mkArticle 100 "B Article" None 10 "2024-01-02T00:00:00Z";
        mkArticle 101 "A Article" None 77 "2024-02-01T00:00:00Z"])
    (mkSection 10 "Basics" None 1) =
    get_header_html "Basics" "Your complete guide to using Userology" false false +:+
    section_page_intro (mkSection 10 "Basics" None 1) +:+
    cat_all [section_sidebar_item (mkArticle 100 "B Article" None 10 "2024-01-02T00:00:00Z")] +:+
    section_page_middle (mkSection 10 "Basics" None 1) +:+
    cat_all [section_article_row (mkArticle 100 "B Article" None 10 "2024-01-02T00:00:00Z")] +:+
    section_page_footer.
Proof.
  split; [apply list_elem_of_here|].
  exact (proj1 (section_page_spec [mkCategory 1 "Setup" None]
                  [mkSection 10 "Basics" None 1]
                  [mkArticle 100 "B Article" None 10 "2024-01-02T00:00:00Z";
                   mkArticle 101 "A Article" None 77 "2024-02-01T00:00:00Z"]
                  (mkSection 10 "Basics" None 1) (list_elem_of_here _ _))).
Defined.

(** ** Topic cards *)

Lemma topic_card_count_line g s :
  has_substring
    (topic_count (length (default [] (articles_by_section g !! s_id s)))
       (if decide (length (default [] (articles_by_section g !! s_id s)) = 1%nat)
        then "article" else "articles"))
    (topic_card g s).
Proof.
  unfold topic_card, topic_count. cbv zeta.
  do 8 apply has_substring_app_r.
  match goal with
  | |- has_substring (?n1 +:+ ?m1 +:+ ?m2 +:+ ?m3 +:+ ?n2)
                     (?a' +:+ ?m1 +:+ ?m2 +:+ ?m3 +:+ ?c) =>
      apply (sub_frame_end a' n1 [m1; m2; m3] n2 c)
  end; vm_compute; reflexivity.
Qed.

Lemma topic_card_description_line g s :
  has_substring
    (topic_description
       (default (default EmptyString (s_description s))
                (section_descriptions !! s_name s)))
    (topic_card g s).
Proof.
  unfold topic_card, topic_description. cbv zeta.
  do 6 apply has_substring_app_r.
  match goal with
  | |- has_substring (?n1 +:+ ?m1 +:+ ?n2) (?a' +:+ ?m1 +:+ ?c +:+ ?rest) =>
      apply (sub_frame a' n1 [m1] n2 c rest)
  end; vm_compute; reflexivity.
Qed.

Lemma topic_card_icon_line g s :
  has_substring (topic_icon (default "📄" (section_icons !! s_name s))) (topic_card g s).
Proof.
  unfold topic_card, topic_icon. cbv zeta.
  do 2 apply has_substring_app_r.
  match goal with
  | |- has_substring (?n1 +:+ ?m1 +:+ ?n2) (?a' +:+ ?m1 +:+ ?c +:+ ?rest) =>
      apply (sub_frame a' n1 [m1] n2 c rest)
  end; vm_compute; reflexivity.
Qed.

(** X10. The homepage and the topics index show the same grid: one
    topic card for each loaded section, in input order.  The card of a
    section counts the loaded articles whose [section_id] is the id of
    the section, with the word [article] for exactly one and [articles]
    otherwise; its description is the one the fixed table gives for the
    name of the section, else the stored description, else empty; its
    icon is the one of the fixed table, else the generic one; and the
    card is the link to the page of the section around the icon, the
    name of the section, the description and the count. *)
Theorem topic_cards_spec (cats : list Category) (secs : list SectionRec)
    (arts : list Article) :
  has_substring (cat_all (topic_card (generator_of cats secs arts) <$> secs))
                (homepage_html (generator_of cats secs arts)) ∧
  has_substring (cat_all (topic_card (generator_of cats secs arts) <$> secs))
                (categories_index_html (generator_of cats secs arts)) ∧
  (∀ s, s ∈ secs →
     (length (filter (λ a, a_section_id a = s_id s) arts) = 1%nat →
      has_substring (topic_count 1 "article")
                    (topic_card (generator_of cats secs arts) s)) ∧
     (length (filter (λ a, a_section_id a = s_id s) arts) ≠ 1%nat →
      has_substring
        (topic_count (length (filter (λ a, a_section_id a = s_id s) arts)) "articles")
        (topic_card (generator_of cats secs arts) s)) ∧
     (∀ d, section_descriptions !! s_name s = Some d →
      has_substring (topic_description d) (topic_card (generator_of cats secs arts) s)) ∧
     (section_descriptions !! s_name s = None →
      has_substring (topic_description (default EmptyString (s_description s)))
                    (topic_card (generator_of cats secs arts) s)) ∧
     (section_icons !! s_name s = None →
      has_substring (topic_icon "📄") (topic_card (generator_of cats secs arts) s))) ∧
  (∀ s, s ∈ secs →
     topic_card (generator_of cats secs arts) s =
       topic_card_text (s_id s) (default "📄" (section_icons !! s_name s)) (s_name s)
         (default (default EmptyString (s_description s))
                  (section_descriptions !! s_name s))
         (length (filter (λ a, a_section_id a = s_id s) arts))
         (if decide (length (filter (λ a, a_section_id a = s_id s) arts) = 1%nat)
          then "article" else "articles")).
Proof.
  split; [|split; [|split]].
  - rewrite homepage_html_eq. cbn [generator_of sections].
    apply has_substring_app_l. do 2 apply has_substring_app_r.
    apply has_substring_refl.
  - rewrite categories_index_html_eq. cbn [generator_of sections].
    apply has_substring_app_l. do 2 apply has_substring_app_r.
    apply has_substring_app_l, has_substring_refl.
  - intros s Hs.
    pose proof (topic_card_count_line (generator_of cats secs arts) s) as Hcount.
    pose proof (topic_card_description_line (generator_of cats secs arts) s) as Hdesc.
    pose proof (topic_card_icon_line (generator_of cats secs arts) s) as Hicon.
    cbn [generator_of articles_by_section] in Hcount.
    rewrite articles_by_section_lookup in Hcount.
    rewrite decide_True in Hcount by (by apply list_elem_of_fmap_2).
    cbn [default from_option id] in Hcount.
    split; [|split; [|split; [|split]]].
    + intros Hn. rewrite Hn in Hcount. exact Hcount.
    + intros Hn. by rewrite decide_False in Hcount.
    + intros d Hd. by rewrite Hd in Hdesc.
    + intros Hd. by rewrite Hd in Hdesc.
    + intros Hi. by rewrite Hi in Hicon.
  - intros s Hs. unfold topic_card, topic_card_text. cbv zeta.
    cbn [generator_of articles_by_section].
    rewrite articles_by_section_lookup.
    rewrite decide_True by (by apply list_elem_of_fmap_2). reflexivity.
Qed.

(** ** The body of an article *)

Lemma suffix_app (x r needle : string) :
  (∃ pre, r = pre +:+ needle) → ∃ pre, x +:+ r = pre +:+ needle.
Proof. intros [pre ->]. exists (x +:+ pre). by rewrite str_app_assoc. Qed.

(** X11. An article page ends with the body of the article, copied as it
    is between the opening of the content block and the fixed closing
    text of the page; an article without a body has an empty one. *)
Theorem article_body_verbatim (g : Generator) (a : Article) :
  ∃ pre, article_page_html g a =
         pre +:+ article_body_open +:+ default EmptyString (a_body a) +:+
         article_page_close.
Proof.
  unfold article_page_html. cbv zeta.
  apply suffix_app. unfold article_page_content.
  do 8 apply suffix_app.
  match goal with
  | |- ∃ pre, ?l +:+ ?rest = _ =>
      assert (endswith l article_body_open = true) as [pre ->]%endswith_spec
        by (vm_compute; reflexivity)
  end.
  exists pre. by rewrite str_app_assoc.
Qed.

(** ** The two indexes *)

(** X12. The two indexes that [__init__] builds, entry by entry.  A
    category id is a key of [sections_by_category] only if a loaded
    section names it, and its list is then the loaded sections that name
    it, in input order, never empty.  The keys of [articles_by_section]
    are the ids of the loaded sections, and the list of a key is the
    loaded articles whose [section_id] is the key, in input order. *)
Theorem indexes_spec (w : World) (fs : FS) (g : Generator) (fs' : FS) :
  init w fs = (inr g, fs') →
  (∀ c l, sections_by_category g !! c = Some l ↔
          l ≠ [] ∧ l = filter (λ s, s_category_id s = c) (sections g)) ∧
  (∀ c, sections_by_category g !! c = None ↔
        ∀ s, s ∈ sections g → s_category_id s ≠ c) ∧
  (∀ k l, articles_by_section g !! k = Some l ↔
          k ∈ s_id <$> sections g ∧
          l = filter (λ a, a_section_id a = k) (articles g)) ∧
  (∀ k, articles_by_section g !! k = None ↔ k ∉ s_id <$> sections g).
Proof.
  intros (_ & _ & _ & -> & -> & _)%init_inr.
  split; [|split; [|split]].
  - intros c l. rewrite sections_by_category_lookup.
    destruct (filter _ (sections g)) as [|s l']; split.
    + done.
    + by intros [? ->].
    + by intros [= <-].
    + by intros [_ ->].
  - intros c. rewrite sections_by_category_lookup.
    destruct (filter _ (sections g)) as [|s l'] eqn:Hf; split.
    + intros _ s Hs Hc.
      assert (s ∈ filter (λ s, s_category_id s = c) (sections g)) as Hin
        by (by apply list_elem_of_filter).
      rewrite Hf in Hin. by apply elem_of_nil in Hin.
    + done.
    + done.
    + intros Hnone. exfalso.
      assert (s ∈ filter (λ s, s_category_id s = c) (sections g)) as Hin
        by (rewrite Hf; apply list_elem_of_here).
      apply list_elem_of_filter in Hin as [Hc Hs]. by apply (Hnone s).
  - intros k l. rewrite articles_by_section_lookup. case_decide; split.
    + by intros [= <-].
    + by intros [_ ->].
    + done.
    + by intros [? _].
  - intros k. rewrite articles_by_section_lookup. by case_decide.
Qed.

Lemma indexes_spec_witness :
  init sections_by_category_world empty_fs
    = (inr (loaded_generator sections_by_category_world),
       mkFS (with_made_dirs ∅) ∅) ∧
  sections_by_category (loaded_generator sections_by_category_world) !! 3 = None.
Proof.
  assert (init sections_by_category_world empty_fs
            = (inr (loaded_generator sections_by_category_world),
               mkFS (with_made_dirs ∅) ∅)) as Hinit by (by rewrite init_spec).
  split; [exact Hinit|].
  apply (proj1 (proj2 (indexes_spec _ _ _ _ Hinit))).
  intros s Hs.
  change (sections (loaded_generator sections_by_category_world))
    with [mkSection 10 "Basics" None 1; mkSection 11 "Billing" None 2;
          mkSection 12 "Advanced" None 1] in Hs.
  rewrite !elem_of_cons, elem_of_nil in Hs.
  destruct Hs as [->|[->|[->|[]]]]; cbn [s_category_id]; lia.
Defined.

(** ** The date of a row *)

Lemma slice_to_prefix (n : nat) (s : string) : ∃ rest, s = slice_to n s +:+ rest.
Proof.
  revert n. induction s as [|c s IH]; intros n; simpl.
  - by exists EmptyString.
  - destruct (is_continuation c).
    + destruct (IH n) as [rest Hrest]. exists rest.
      by rewrite str_app_cons, <- Hrest.
    + destruct n as [|n].
      * by exists (String c s).
      * destruct (IH n) as [rest Hrest]. exists rest.
        by rewrite str_app_cons, <- Hrest.
Qed.

Lemma code_points_slice_to (n : nat) (s : string) :
  code_points (slice_to n s) = Nat.min n (code_points s).
Proof.
  revert n. induction s as [|c s IH]; intros n; simpl.
  - lia.
  - destruct (is_continuation c) eqn:Hc; simpl.
    + rewrite Hc, IH. lia.
    + destruct n as [|n]; simpl; [done|]. rewrite Hc, IH. lia.
Qed.

Lemma section_article_row_date a :
  has_substring (row_date (slice_to 10 (a_updated_at a))) (section_article_row a).
Proof.
  unfold section_article_row, row_date.
  do 4 apply has_substring_app_r.
  match goal with
  | |- has_substring (?n1 +:+ ?m1 +:+ ?n2) (?a' +:+ ?m1 +:+ ?c) =>
      apply (sub_frame_end a' n1 [m1] n2 c)
  end; vm_compute; reflexivity.
Qed.

Lemma slice_to_short (n : nat) (s : string) :
  (code_points s ≤ n)%nat → slice_to n s = s.
Proof.
  revert n. induction s as [|c s IH]; intros n; simpl; [done|].
  destruct (is_continuation c); simpl; intros Hle.
  - by rewrite IH.
  - destruct n as [|n]; [lia|]. rewrite IH; [done|lia].
Qed.

(** X13. The row of an article on a section page shows as its date the
    first ten characters of [updated_at]: a prefix of that text of ten
    code points, or the whole text when it has no more than ten. *)
Theorem section_row_date (a : Article) :
  ∃ date rest,
    a_updated_at a = date +:+ rest ∧
    code_points date = Nat.min 10 (code_points (a_updated_at a)) ∧
    ((code_points (a_updated_at a) ≤ 10)%nat → date = a_updated_at a) ∧
    has_substring (row_date date) (section_article_row a).
Proof.
  destruct (slice_to_prefix 10 (a_updated_at a)) as [rest Hrest].
  exists (slice_to 10 (a_updated_at a)), rest.
  split; [done|]. split; [apply code_points_slice_to|].
  split; [apply slice_to_short|apply section_article_row_date].
Qed.

(** ** The title of a video *)

Lemma rfind_from_app (c : ascii) (a b : string) (i last : Z) :
  rfind_from c (a +:+ b) i last
    = rfind_from c b (i + Z.of_nat (String.length a)) (rfind_from c a i last).
Proof.
  revert i last. induction a as [|x a IH]; intros i last.
  - rewrite str_app_nil_l. simpl. by rewrite Z.add_0_r.
  - rewrite str_app_cons. cbn [rfind_from String.length]. rewrite IH.
    f_equal. lia.
Qed.

Lemma rfind_from_absent (c : ascii) (s : string) (i last : Z) :
  string_forall (λ x, negb (Ascii.eqb x c)) s = true → rfind_from c s i last = last.
Proof.
  revert i last. induction s as [|x s IH]; intros i last; simpl; [done|].
  intros [Hx Hs]%andb_true_iff. rewrite IH by done.
  by apply negb_true_iff in Hx as ->.
Qed.

Lemma substring_skip (a b : string) (n : nat) :
  substring (String.length a) n (a +:+ b) = substring 0 n b.
Proof.
  induction a as [|x a IH]; [by rewrite str_app_nil_l|].
  rewrite str_app_cons. exact IH.
Qed.

Lemma substring_over (n : nat) (s : string) :
  (String.length s ≤ n)%nat → substring 0 n s = s.
Proof.
  revert n. induction s as [|x s IH]; intros n Hn.
  - by destruct n.
  - destruct n as [|n]; simpl in *; [lia|]. rewrite IH; [done|lia].
Qed.

Lemma splitext_mp4 (stem : string) :
  string_forall (λ x, negb (Ascii.eqb x "/")) stem = true →
  splitext (stem +:+ ".mp4") =
    if existsb (λ c, negb (Ascii.eqb c ".")) (list_ascii_of_string stem)
    then (stem, ".mp4") else (stem +:+ ".mp4", EmptyString).
Proof.
  intros Hstem. unfold splitext, rfind.
  rewrite !rfind_from_app.
  rewrite (rfind_from_absent "/" stem) by done.
  change (rfind_from "/" ".mp4" _ (-1)) with (-1).
  change (rfind_from "." ".mp4" (0 + Z.of_nat (String.length stem)) _)
    with (0 + Z.of_nat (String.length stem)).
  cbv zeta.
  replace (Z.to_nat (-1 + 1)) with 0%nat by lia.
  replace (Z.to_nat (0 + Z.of_nat (String.length stem) - -1 - 1))
    with (String.length stem) by lia.
  replace (Z.to_nat (0 + Z.of_nat (String.length stem)))
    with (String.length stem) by lia.
  rewrite substring_app_prefix, substring_all by done.
  assert ((-1 <? 0 + Z.of_nat (String.length stem)) = true) as ->
    by (apply Z.ltb_lt; lia).
  cbn [andb]. destruct (existsb _ _); [|done].
  f_equal. rewrite substring_skip. apply substring_over.
  rewrite str_length_app. lia.
Qed.

(** X14. The title of a video card is the file name without its
    [.mp4] ending; for a name that has only dots, or nothing, before
    the ending, the title is the whole file name. *)
Theorem video_title_spec (stem : string) :
  string_forall (λ x, negb (Ascii.eqb x "/")) stem = true →
  endswith (stem +:+ ".mp4") ".mp4" = true ∧
  v_filename (video_entry (stem +:+ ".mp4")) = stem +:+ ".mp4" ∧
  v_title (video_entry (stem +:+ ".mp4")) =
    if existsb (λ c, negb (Ascii.eqb c ".")) (list_ascii_of_string stem)
    then stem else stem +:+ ".mp4".
Proof.
  intros Hstem. split; [apply endswith_spec; by exists stem|]. split; [done|].
  unfold video_entry. cbn [v_title]. rewrite splitext_mp4 by done.
  by destruct (existsb _ _).
Qed.

Lemma video_title_spec_witness :
  v_title (video_entry ("Usability score" +:+ ".mp4")) = "Usability score" ∧
  v_title (video_entry (".." +:+ ".mp4")) = "...mp4".
Proof.
  split.
  - apply (proj2 (proj2 (video_title_spec "Usability score" eq_refl))).
  - apply (proj2 (proj2 (video_title_spec ".." eq_refl))).
Defined.

(** ** What the pages refer to and the run does not write *)

Ltac head_neq n H :=
  apply (f_equal (substring 0 n)) in H;
  rewrite ?category_path_head, ?section_path_head, ?article_path_head in H;
  vm_compute in H; discriminate H.

Lemma logo_not_written w g : (output_dir +:+ "/logo.png") ∉ (all_writes w g).*1.
Proof.
  rewrite all_writes_paths, !elem_of_cons, elem_of_nil.
  intros [[H|[H|[H|[H|[H|[]]]]]]|[[H _]|[(x & _ & H)|[(x & _ & H)|(x & _ & H)]]]];
    head_neq 22%nat H.
Qed.

Lemma videos_not_written w g f :
  (output_dir +:+ "/videos/" +:+ f) ∉ (all_writes w g).*1.
Proof.
  rewrite all_writes_paths, !elem_of_cons, elem_of_nil.
  intros [[H|[H|[H|[H|[H|[]]]]]]|[[H _]|[(x & _ & H)|[(x & _ & H)|(x & _ & H)]]]];
    first [ head_neq 22%nat H | head_neq 27%nat H ].
Qed.

(** X15. Every page header shows the image [logo.png] beside the page,
    and every video card plays [videos/<file name>] beside
    [videos.html]; the run writes neither: [logo.png] and whatever is
    under [videos/] in the output directory are after the run what they
    were before it. *)
Theorem logo_and_videos_not_written (w : World) (fs : FS) :
  (∀ title description is_root include_search,
     has_substring (logo_image (shell_prefix is_root))
                   (get_header_html title description is_root include_search)) ∧
  files (main w fs).2 !! (output_dir +:+ "/logo.png")
    = files fs !! (output_dir +:+ "/logo.png") ∧
  (∀ v, has_substring (video_source (v_filename v)) (video_card v)) ∧
  (∀ f, files (main w fs).2 !! (output_dir +:+ "/videos/" +:+ f)
        = files fs !! (output_dir +:+ "/videos/" +:+ f)).
Proof.
  split; [|split; [|split]].
  - intros title description is_root include_search.
    unfold get_header_html, shell_prefix, logo_image.
    destruct is_root, include_search; cbv beta iota zeta;
      do 6 apply has_substring_app_r; apply has_substring_app_mid;
      apply containsb_sound; vm_compute; reflexivity.
  - rewrite main_spec. destruct (load_error w); [done|]. cbn [snd files].
    apply apply_writes_lookup_ne, logo_not_written.
  - intros v. unfold video_card, video_source.
    match goal with
    | |- has_substring (?n1 +:+ ?m1 +:+ ?n2) (?a' +:+ ?m1 +:+ ?c +:+ ?rest) =>
        apply (sub_frame a' n1 [m1] n2 c rest)
    end; vm_compute; reflexivity.
  - intros f. rewrite main_spec. destruct (load_error w); [done|]. cbn [snd files].
    apply apply_writes_lookup_ne, videos_not_written.
Qed.

(** ** Lookups by id *)

Lemma next_by_id_first {A} (id_of : A → Z) (pre : list A) (x : A) (post : list A) (id : Z) :
  id_of x = id → id ∉ id_of <$> pre → next_by_id id_of (pre ++ x :: post) id = Some x.
Proof.
  intros Hx. unfold next_by_id. induction pre as [|y pre IH]; simpl.
  - intros _. by rewrite bool_decide_eq_true_2.
  - rewrite not_elem_of_cons. intros [Hy Hpre].
    rewrite bool_decide_eq_false_2 by congruence. by apply IH.
Qed.

(** X16. An article page names the first loaded section whose id is the
    [section_id] of the article, and the first loaded category whose id
    is the [category_id] of that section: its sidebar links to their
    pages under their names, after an arrow. *)
Theorem article_page_names_first (g : Generator) (a : Article)
    (pre : list SectionRec) (s : SectionRec) (post : list SectionRec) :
  sections g = pre ++ s :: post →
  s_id s = a_section_id a →
  a_section_id a ∉ s_id <$> pre →
  has_substring (article_section_link s) (article_page_html g a) ∧
  (∀ cpre c cpost,
     categories g = cpre ++ c :: cpost →
     c_id c = s_category_id s →
     s_category_id s ∉ c_id <$> cpre →
     has_substring (article_category_link c) (article_page_html g a)) ∧
  (∀ s', article_section_link s' = section_back_link (s_id s') (s_name s')) ∧
  (∀ c, article_category_link c = category_back_link (c_id c) (c_name c)).
Proof.
  intros Hsecs Hid Hpre. split; [|split; [|split]]; [| |by intros s'|by intros c].
  - unfold article_page_html.
    rewrite Hsecs, (next_by_id_first s_id pre s post _ Hid Hpre). cbv zeta.
    apply has_substring_app_l, has_substring_app_r, has_substring_refl.
  - intros cpre c cpost Hcats Hcid Hcpre. unfold article_page_html.
    rewrite Hsecs, (next_by_id_first s_id pre s post _ Hid Hpre). cbv zeta.
    rewrite Hcats, (next_by_id_first c_id cpre c cpost _ Hcid Hcpre).
    do 2 apply has_substring_app_l. apply has_substring_app_r, has_substring_refl.
Qed.

Lemma article_page_names_first_witness :
  has_substring
    (article_section_link (mkSection 10 "Basics" None 1))
    (article_page_html (loaded_generator same_section_id_world)
       (mkArticle 100 "B Article" None 10 "2024-01-02T00:00:00Z")).
Proof.
  assert (a_section_id (mkArticle 100 "B Article" None 10 "2024-01-02T00:00:00Z")
            ∉ s_id <$> []) as Hpre.
  { intros H. by apply elem_of_nil in H. }
  exact (proj1 (article_page_names_first (loaded_generator same_section_id_world)
                  (mkArticle 100 "B Article" None 10 "2024-01-02T00:00:00Z")
                  [] (mkSection 10 "Basics" None 1) [mkSection 10 "Invoices" None 2]
                  eq_refl eq_refl Hpre)).
Defined.
